(** * 3D cellular automata compute core: CPU, tensor and texture engines

    A shallow embedding of the step functions of the cellular automata
    viewer (automataLogic3D.js, automataLogic3DTF.js, automataLogic3DGPU.js,
    automataLogic3DWEBGPU.js) and the properties of its specification;
    then the one- and two-dimensional automata (automataLogic.js,
    automataLogic2D.js), the grids the application creates (App.jsx), and
    further properties of all of them. *)

From Stdlib Require Import ZArith List Lia QArith Qround.
From stdpp Require Import base list gmap strings.
From Stdlib Require Import Ascii.

Close Scope Q_scope.
Open Scope Z_scope.

Set Warnings "-register-all".

(** ** JavaScript values and errors *)

(** The fragment of JavaScript values the grids are made of: [undefined],
    [null], integer numbers, NaN and arrays.  A hole of an array and the
    value [undefined] read the same and are both [JUndefined]. *)
Inductive jsval : Type :=
| JUndefined
| JNull
| JNaN
| JNum (n : Z)
| JArr (elts : list jsval).

(** [Error] is what a library throws on an argument it rejects. *)
Inductive js_error : Type := TypeError | RangeError | Error.

Inductive result (A : Type) : Type :=
| Ok (a : A)
| Throw (e : js_error).
Arguments Ok {A} a.
Arguments Throw {A} e.

Definition bind {A B} (m : result A) (k : A -> result B) : result B :=
  match m with
  | Ok a => k a
  | Throw e => Throw e
  end.

Notation "'let*' x ':=' m 'in' k" := (bind m (fun x => k))
  (at level 10, x name, m at level 100, k at level 200).
Notation "'let*' ' pat ':=' m 'in' k" :=
  (bind m (fun x => match x with pat => k end))
  (at level 10, pat pattern, m at level 100, k at level 200).

(** A number used as a bound or an index: [None] is what arithmetic on
    [undefined] gives (NaN), and what [.length] of a number gives
    ([undefined]). *)
Definition jsnum : Type := option Z.

Definition truthy (v : jsval) : bool :=
  match v with
  | JUndefined | JNull | JNaN => false
  | JNum n => negb (n =? 0)
  | JArr _ => true
  end.

(** [v.length] *)
Definition js_length (v : jsval) : result jsnum :=
  match v with
  | JArr l => Ok (Some (Z.of_nat (length l)))
  | JNum _ | JNaN => Ok None
  | JUndefined | JNull => Throw TypeError
  end.

(** [v[i]] *)
Definition js_get (v : jsval) (i : jsnum) : result jsval :=
  match v with
  | JArr l =>
      Ok match i with
         | Some k => if k <? 0 then JUndefined
                     else default JUndefined (l !! Z.to_nat k)
         | None => JUndefined
         end
  | JNum _ | JNaN => Ok JUndefined
  | JUndefined | JNull => Throw TypeError
  end.

(** [a[i] = v] on the array [a] itself: a negative or NaN index sets a
    property that is no element, an index past the end extends the array.
    The modules are strict code, where a property write on a number throws. *)
Definition js_set (a : jsval) (i : jsnum) (v : jsval) : result jsval :=
  match a with
  | JArr l =>
      Ok (JArr match i with
               | Some k =>
                   if k <? 0 then l
                   else if (Z.to_nat k <? length l)%nat then <[Z.to_nat k := v]> l
                   else l ++ replicate (Z.to_nat k - length l) JUndefined ++ [v]
               | None => l
               end)
  | JNum _ | JNaN | JUndefined | JNull => Throw TypeError
  end.

(** The heap is modelled by value: after the array found at [a[i]] has been
    mutated, the mutated array is what [a[i]] holds. *)
Definition js_store (a : jsval) (i : jsnum) (v : jsval) : jsval :=
  match a, i with
  | JArr l, Some k => if k <? 0 then a else JArr (<[Z.to_nat k := v]> l)
  | _, _ => a
  end.

(** [g[x][y][z]] *)
Definition get3 (g : jsval) (x y z : jsnum) : result jsval :=
  let* row := js_get g x in
  let* col := js_get row y in
  js_get col z.

(** [g[x][y][z] = v] *)
Definition set3 (g : jsval) (x y z : jsnum) (v : jsval) : result jsval :=
  let* row := js_get g x in
  let* col := js_get row y in
  let* col' := js_set col z v in
  Ok (js_store g x (js_store row y col')).

(** [v === n] for a number literal [n] *)
Definition strict_eq_num (v : jsval) (n : Z) : bool :=
  match v with
  | JNum m => m =? n
  | _ => false
  end.

(** [for (let i = 0; i < n; i++)]: the values [i] takes. *)
Definition upto (n : jsnum) : list Z :=
  match n with
  | Some k => seqZ 0 k
  | None => []
  end.

Fixpoint for_each {S : Type} (xs : list Z) (body : Z -> S -> result S) (s : S)
  : result S :=
  match xs with
  | [] => Ok s
  | x :: xs' => let* s' := body x s in for_each xs' body s'
  end.

(** [for (let d = -1; d <= 1; d++)] *)
Definition offsets : list Z := [-1; 0; 1].

(** [(c + d + size) % size]; [%] is the truncated remainder, and NaN when
    the divisor is 0 or not a number. *)
Definition wrap (c d : Z) (size : jsnum) : jsnum :=
  match size with
  | Some s => if s =? 0 then None else Some (Z.rem (c + d + s) s)
  | None => None
  end.

(** [Array(n)]: the length of the array made, a RangeError for a negative
    length, the one-element array [[undefined]] when [n] is [undefined].
    The step functions pass the lengths of arrays, which are below 2^32;
    for a number from 2^32 on the code throws a RangeError as well, so the
    further properties of the pattern generator bound the sizes they are
    given. *)
Definition js_Array (n : jsnum) : result nat :=
  match n with
  | Some k => if k <? 0 then Throw RangeError else Ok (Z.to_nat k)
  | None => Ok 1%nat
  end.

(** ** Rule table *)

(** What [RULE_DEFINITIONS[ruleName]] can be when it is truthy: an entry
    of the table, or a property the table inherits from [Object.prototype],
    which has no [birth], no [survival] and no [type]. *)
Inductive rule_def : Type :=
| RuleBS (birth survival : list Z)
| RuleType (type : string)
| RuleInherited.

Definition RULE_DEFINITIONS : gmap string rule_def :=
  list_to_map
    [ ("conway3d"%string, RuleBS [5; 6; 7] [4; 5; 6]);
      ("life3d"%string, RuleBS [4; 5] [5; 6; 7]);
      ("stability"%string, RuleBS [4; 5; 6; 7] [3; 4; 5; 6]);
      ("crystal"%string, RuleBS [5; 6; 7; 8] [5; 6; 7; 8]);
      ("pyroclastic"%string, RuleBS [4; 5; 6; 7] [6; 7; 8]);
      ("diamoeba3d"%string, RuleBS [5; 6; 7; 8] [5; 6; 7; 8; 9; 10]);
      ("hyper"%string, RuleBS [5; 6; 7] [5; 6; 7; 8; 9; 10]);
      ("briansbrain3d"%string, RuleType "special");
      ("checkerboard"%string, RuleType "static") ].

Definition conway3d : rule_def := RuleBS [5; 6; 7] [4; 5; 6].

(** The names an object literal inherits from [Object.prototype]: what is
    read under one of them is a function, or the prototype itself under
    [__proto__], and so is truthy. *)
Definition object_prototype_names : list string :=
  [ "constructor"; "hasOwnProperty"; "isPrototypeOf"; "propertyIsEnumerable";
    "toLocaleString"; "toString"; "valueOf"; "__proto__";
    "__defineGetter__"; "__defineSetter__"; "__lookupGetter__";
    "__lookupSetter__" ]%string.

(** [RULE_DEFINITIONS[ruleName] || RULE_DEFINITIONS.conway3d].  The table
    is an object literal: the lookup finds its own keys, whose entries are
    objects, hence truthy, then the properties it inherits; the default is
    taken only when neither has the name. *)
Definition lookup_rule (ruleName : string) : rule_def :=
  match RULE_DEFINITIONS !! ruleName with
  | Some rule => rule
  | None =>
      if bool_decide (ruleName ∈ object_prototype_names) then RuleInherited
      else conway3d
  end.

(** [rule.birth], [rule.survival]: [None] is [undefined]. *)
Definition rule_birth (r : rule_def) : option (list Z) :=
  match r with
  | RuleBS b _ => Some b
  | RuleType _ | RuleInherited => None
  end.

Definition rule_survival (r : rule_def) : option (list Z) :=
  match r with
  | RuleBS _ s => Some s
  | RuleType _ | RuleInherited => None
  end.

(** [set.includes(n)] *)
Definition includes (set : option (list Z)) (n : Z) : result bool :=
  match set with
  | Some l => Ok (existsb (Z.eqb n) l)
  | None => Throw TypeError
  end.

(** ** CPU reference engine (automataLogic3D.js) *)

Module CPU.

Definition createEmpty3DGrid (sizeX sizeY sizeZ : jsnum) : result jsval :=
  let* nx := js_Array sizeX in
  if (nx =? 0)%nat then Ok (JArr []) else
  let* ny := js_Array sizeY in
  if (ny =? 0)%nat then Ok (JArr (replicate nx (JArr []))) else
  let* nz := js_Array sizeZ in
  Ok (JArr (replicate nx (JArr (replicate ny (JArr (replicate nz (JNum 0))))))).

(** [Math.abs(distance - radius) < 0.8] with [distance = Math.sqrt(d2)] and
    [radius = m / 4], decided on exact reals: [m/4 - 0.8 < sqrt d2 < m/4 + 0.8]
    after squaring and clearing the denominators.  [400 * d2] never equals
    [(5 * m + 16)^2] or [(5 * m - 16)^2] (these are 1 modulo 5), so no cell
    sits on the boundary. *)
Definition near_sphere_surface (m d2 : Z) : bool :=
  (400 * d2 <? (5 * m + 16) * (5 * m + 16))
  && ((5 * m - 16 <? 0) || ((5 * m - 16) * (5 * m - 16) <? 400 * d2)).

(** [createInitial3DGrid(sizeX = 30, sizeY = 30, sizeZ = 30,
    pattern = 'checkerboard')]: an omitted argument is [None].  The
    outcomes of the tests [Math.random() < 0.3] come from [random], indexed
    by the number of earlier calls. *)
Definition createInitial3DGrid (sizeX sizeY sizeZ : option Z)
    (pattern : option string) (random : nat -> bool) : result jsval :=
  let sizeX := default 30 sizeX in
  let sizeY := default 30 sizeY in
  let sizeZ := default 30 sizeZ in
  let pattern := default "checkerboard"%string pattern in
  let* grid := createEmpty3DGrid (Some sizeX) (Some sizeY) (Some sizeZ) in
  let centerX := sizeX / 2 in
  let centerY := sizeY / 2 in
  let centerZ := sizeZ / 2 in
  let* grid :=
    if bool_decide (pattern = "checkerboard"%string)
       || bool_decide (pattern = "default"%string) then
      for_each (upto (Some sizeX)) (fun x grid =>
        for_each (upto (Some sizeY)) (fun y grid =>
          for_each (upto (Some sizeZ)) (fun z grid =>
            if Z.rem (x + y + z) 2 =? 0
            then set3 grid (Some x) (Some y) (Some z) (JNum 1)
            else Ok grid) grid) grid) grid
    else if bool_decide (pattern = "cross"%string) then
      let arm := Z.min 3 (sizeX / 4) in
      for_each (seqZ (- arm) (arm - (- arm) + 1)) (fun i grid =>
        let* grid := set3 grid (Some (centerX + i)) (Some centerY) (Some centerZ) (JNum 1) in
        let* grid := set3 grid (Some centerX) (Some (centerY + i)) (Some centerZ) (JNum 1) in
        set3 grid (Some centerX) (Some centerY) (Some (centerZ + i)) (JNum 1)) grid
    else if bool_decide (pattern = "random"%string) then
      let* '(grid, _) :=
        for_each (upto (Some sizeX)) (fun x st =>
          for_each (upto (Some sizeY)) (fun y st =>
            for_each (upto (Some sizeZ)) (fun z '(grid, k) =>
              if random k
              then let* grid := set3 grid (Some x) (Some y) (Some z) (JNum 1) in
                   Ok (grid, S k)
              else Ok (grid, S k)) st) st) (grid, 0%nat) in
      Ok grid
    else if bool_decide (pattern = "sphere"%string) then
      let m := Z.min (Z.min sizeX sizeY) sizeZ in
      for_each (upto (Some sizeX)) (fun x grid =>
        for_each (upto (Some sizeY)) (fun y grid =>
          for_each (upto (Some sizeZ)) (fun z grid =>
            let dx := x - centerX in
            let dy := y - centerY in
            let dz := z - centerZ in
            if near_sphere_surface m (dx * dx + dy * dy + dz * dz)
            then set3 grid (Some x) (Some y) (Some z) (JNum 1)
            else Ok grid) grid) grid) grid
    else
      let* grid :=
        for_each (seqZ (-2) 5) (fun i grid =>
          let* grid := set3 grid (Some (centerX + i)) (Some centerY) (Some centerZ) (JNum 1) in
          let* grid := set3 grid (Some centerX) (Some (centerY + i)) (Some centerZ) (JNum 1) in
          set3 grid (Some centerX) (Some centerY) (Some (centerZ + i)) (JNum 1)) grid in
      let* grid :=
        for_each offsets (fun x grid =>
          for_each offsets (fun y grid =>
            for_each offsets (fun z grid =>
              if 2 <=? Z.abs x + Z.abs y + Z.abs z
              then set3 grid (Some (centerX + x)) (Some (centerY + y))
                        (Some (centerZ + z)) (JNum 1)
              else Ok grid) grid) grid) grid in
      let* '(grid, _) :=
        for_each (seqZ (centerX - 4) 9) (fun x st =>
          for_each (seqZ (centerY - 4) 9) (fun y st =>
            for_each (seqZ (centerZ - 4) 9) (fun z '(grid, k) =>
              if (0 <=? x) && (x <? sizeX) && (0 <=? y) && (y <? sizeY)
                 && (0 <=? z) && (z <? sizeZ)
              then if random k
                   then let* grid := set3 grid (Some x) (Some y) (Some z) (JNum 1) in
                        Ok (grid, S k)
                   else Ok (grid, S k)
              else Ok (grid, k)) st) st) (grid, 0%nat) in
      Ok grid in
  let* activeCells :=
    for_each (upto (Some sizeX)) (fun x n =>
      for_each (upto (Some sizeY)) (fun y n =>
        for_each (upto (Some sizeZ)) (fun z n =>
          let* v := get3 grid (Some x) (Some y) (Some z) in
          Ok (if strict_eq_num v 1 then n + 1 else n)) n) n) 0 in
  Ok grid.

(** The three size reads every function starts with. *)
Definition sizes (grid : jsval) : result (jsnum * jsnum * jsnum) :=
  let* sizeX := js_length grid in
  let* g0 := js_get grid (Some 0) in
  let* sizeY := js_length g0 in
  let* g0' := js_get grid (Some 0) in
  let* g00 := js_get g0' (Some 0) in
  let* sizeZ := js_length g00 in
  Ok (sizeX, sizeY, sizeZ).

(** The loop nest over the 26 neighbours, counting those equal to 1. *)
Definition count_neighbours (grid : jsval) (sizeX sizeY sizeZ : jsnum)
    (x y z : Z) : result Z :=
  for_each offsets (fun dx count =>
    for_each offsets (fun dy count =>
      for_each offsets (fun dz count =>
        if (dx =? 0) && (dy =? 0) && (dz =? 0) then Ok count else
        let nx := wrap x dx sizeX in
        let ny := wrap y dy sizeY in
        let nz := wrap z dz sizeZ in
        let* v := get3 grid nx ny nz in
        Ok (if strict_eq_num v 1 then count + 1 else count))
      count)
    count) 0.

Definition countLiveNeighbors3D (grid : jsval) (x y z : Z) : result Z :=
  let* '(sizeX, sizeY, sizeZ) := sizes grid in
  count_neighbours grid sizeX sizeY sizeZ x y z.

Definition calculateBriansBrain3D (currentGrid : jsval) : result jsval :=
  let* '(sizeX, sizeY, sizeZ) := sizes currentGrid in
  let* nextGrid := createEmpty3DGrid sizeX sizeY sizeZ in
  for_each (upto sizeX) (fun x nextGrid =>
    for_each (upto sizeY) (fun y nextGrid =>
      for_each (upto sizeZ) (fun z nextGrid =>
        let* cellState := get3 currentGrid (Some x) (Some y) (Some z) in
        if strict_eq_num cellState 0 then
          let* onNeighbors := count_neighbours currentGrid sizeX sizeY sizeZ x y z in
          set3 nextGrid (Some x) (Some y) (Some z)
               (JNum (if onNeighbors =? 2 then 1 else 0))
        else if strict_eq_num cellState 1 then
          set3 nextGrid (Some x) (Some y) (Some z) (JNum 2)
        else if strict_eq_num cellState 2 then
          set3 nextGrid (Some x) (Some y) (Some z) (JNum 0)
        else Ok nextGrid)
      nextGrid)
    nextGrid) nextGrid.

(** The guard of [calculateNextGeneration3D]; [||] and [!] short-circuit,
    so a later operand is evaluated only when the earlier ones are false. *)
Definition invalid_grid (currentGrid : jsval) : result bool :=
  if negb (truthy currentGrid) then Ok true else
  let* len := js_length currentGrid in
  if bool_decide (len = Some 0) then Ok true else
  let* g0 := js_get currentGrid (Some 0) in
  if negb (truthy g0) then Ok true else
  let* len0 := js_length g0 in
  if bool_decide (len0 = Some 0) then Ok true else
  let* g00 := js_get g0 (Some 0) in
  if negb (truthy g00) then Ok true else
  let* len00 := js_length g00 in
  Ok (bool_decide (len00 = Some 0)).

(** [ruleName = 'conway3d'] is the default of an omitted argument. *)
Definition calculateNextGeneration3D (currentGrid : jsval)
    (ruleName : option string) : result jsval :=
  let ruleName := default "conway3d"%string ruleName in
  let* invalid := invalid_grid currentGrid in
  if invalid then createEmpty3DGrid (Some 1) (Some 1) (Some 1) else
  if bool_decide (ruleName = "briansbrain3d"%string) then
    calculateBriansBrain3D currentGrid
  else if bool_decide (ruleName = "checkerboard"%string) then
    let* '(sizeX, sizeY, sizeZ) := sizes currentGrid in
    let* nextGrid := createEmpty3DGrid sizeX sizeY sizeZ in
    for_each (upto sizeX) (fun x nextGrid =>
      for_each (upto sizeY) (fun y nextGrid =>
        for_each (upto sizeZ) (fun z nextGrid =>
          let* v := get3 currentGrid (Some x) (Some y) (Some z) in
          set3 nextGrid (Some x) (Some y) (Some z) v)
        nextGrid)
      nextGrid) nextGrid
  else
    let rule := lookup_rule ruleName in
    let birth := rule_birth rule in
    let survival := rule_survival rule in
    let* '(sizeX, sizeY, sizeZ) := sizes currentGrid in
    let* nextGrid := createEmpty3DGrid sizeX sizeY sizeZ in
    for_each (upto sizeX) (fun x nextGrid =>
      for_each (upto sizeY) (fun y nextGrid =>
        for_each (upto sizeZ) (fun z nextGrid =>
          let* liveNeighbors := countLiveNeighbors3D currentGrid x y z in
          let* v := get3 currentGrid (Some x) (Some y) (Some z) in
          let cellIsAlive := strict_eq_num v 1 in
          if cellIsAlive then
            let* keep := includes survival liveNeighbors in
            set3 nextGrid (Some x) (Some y) (Some z) (JNum (if keep then 1 else 0))
          else
            let* born := includes birth liveNeighbors in
            set3 nextGrid (Some x) (Some y) (Some z) (JNum (if born then 1 else 0)))
        nextGrid)
      nextGrid) nextGrid.

End CPU.

(** ** Numbers in typed arrays and tensors *)

(** [ToNumber] on the values of the fragment; [None] is NaN.  An array is
    converted through its string: the empty array and an array of one
    [null] or [undefined] give 0, an array of one other element that
    element's number, a longer array NaN. *)
Fixpoint to_number (v : jsval) : option Z :=
  match v with
  | JUndefined | JNaN => None
  | JNull => Some 0
  | JNum n => Some n
  | JArr [] => Some 0
  | JArr [JUndefined] | JArr [JNull] => Some 0
  | JArr [w] => to_number w
  | JArr _ => None
  end.

(** A 32-bit float holding a small integer or a half: an exact rational,
    [None] for NaN.  The cell states 0, 1 and 2, the halves and the
    neighbour sums of grids of such cells are held exactly by a float of 32
    (and of 16) bits; an integer above 2^24 is rounded by the code and kept
    here, so the further cell-by-cell properties of the tensor engine are
    stated for cells 0, 1 and 2. *)
Definition float : Type := option Q.

Definition to_float (v : jsval) : float := inject_Z <$> to_number v.

Definition fadd (a b : float) : float :=
  match a, b with
  | Some p, Some q => Some (Qred (p + q))
  | _, _ => None
  end.

Definition fmul (a b : float) : float :=
  match a, b with
  | Some p, Some q => Some (Qred (p * q))
  | _, _ => None
  end.

(** Comparisons with NaN are false. *)
Definition fcmp (c : comparison) (a : float) (b : Q) : bool :=
  match a with
  | Some q => bool_decide ((q ?= b)%Q = c)
  | None => false
  end.

Definition of_bool (b : bool) : float := Some (if b then 1%Q else 0%Q).

(** [Math.round] *)
Definition js_round (a : float) : jsval :=
  match a with
  | Some q => JNum (Qfloor (q + (1 # 2)))
  | None => JNaN
  end.

(** The length [new Float32Array(n)] or [new Uint8Array(n)] has: NaN gives
    the empty array, a negative length a RangeError. *)
Definition typed_array_length (n : jsnum) : result nat :=
  match n with
  | Some k => if k <? 0 then Throw RangeError else Ok (Z.to_nat k)
  | None => Ok 0%nat
  end.

(** [a * b] on numbers that may be [undefined] *)
Definition jsnum_mul (a b : jsnum) : jsnum :=
  match a, b with
  | Some p, Some q => Some (p * q)
  | _, _ => None
  end.

(** ** Tensor-convolution engine (automataLogic3DTF.js) *)

Module TF.

(** A rank-3 tensor: its shape and its values in row-major order, the
    layout of TensorFlow.js. *)
Record tensor : Type := Tensor {
  shape : Z * Z * Z;
  values : list float
}.

(** [tf.tensor3d(flatData, [sizeX, sizeY, sizeZ])]: the library rejects a
    shape that is not made of numbers or does not match the data. *)
Definition tensor3d (flatData : list float) (sizeX sizeY sizeZ : jsnum)
  : result tensor :=
  match sizeX, sizeY, sizeZ with
  | Some sx, Some sy, Some sz =>
      if bool_decide (Z.of_nat (length flatData) = sx * sy * sz)
      then Ok (Tensor (sx, sy, sz) flatData)
      else Throw Error
  | _, _, _ => Throw Error
  end.

(** The element at [d, h, w], and the zero of the padding outside. *)
Definition at_padded (t : tensor) (d h w : Z) : float :=
  let '(sx, sy, sz) := shape t in
  if (0 <=? d) && (d <? sx) && (0 <=? h) && (h <? sy) && (0 <=? w) && (w <? sz)
  then default (Some 0%Q) (values t !! Z.to_nat ((d * sy + h) * sz + w))
  else Some 0%Q.

(** [createConvolutionKernel]: 27 weights, 1 except the centre. *)
Definition createConvolutionKernel : list float :=
  x ← seqZ 0 3; y ← seqZ 0 3; z ← seqZ 0 3;
  [Some (if (x =? 1) && (y =? 1) && (z =? 1) then 0%Q else 1%Q)].

(** [tf.conv3d(x, kernel, [1,1,1], 'same', 'NDHWC', [1,1,1])] for a 3x3x3
    kernel: with 'same' padding the input is extended by one plane of
    zeros on every side, and output [d,h,w] is the sum over the kernel of
    input [d+i-1, h+j-1, w+k-1] times weight [i,j,k]. *)
Definition conv3d_same (t : tensor) (kernel : list float) : tensor :=
  let '(sx, sy, sz) := shape t in
  Tensor (sx, sy, sz)
    (d ← seqZ 0 sx; h ← seqZ 0 sy; w ← seqZ 0 sz;
     [foldl fadd (Some 0%Q)
        (i ← seqZ 0 3; j ← seqZ 0 3; k ← seqZ 0 3;
         [fmul (at_padded t (d + i - 1) (h + j - 1) (w + k - 1))
               (default None (kernel !! Z.to_nat ((i * 3 + j) * 3 + k)))])]).

(** Elementwise operations. *)
Definition greater (t : tensor) (c : Q) : list bool :=
  (fun a => fcmp Gt a c) <$> values t.
Definition less (t : tensor) (c : Q) : list bool :=
  (fun a => fcmp Lt a c) <$> values t.
Definition equal (t : tensor) (c : Q) : list bool :=
  (fun a => fcmp Eq a c) <$> values t.
Definition logicalAnd (a b : list bool) : list bool := zip_with andb a b.
Definition mul_scalar (m : list bool) (c : Q) : list float :=
  (fun b => fmul (of_bool b) (Some c)) <$> m.
Definition add (a b : list float) : list float := zip_with fadd a b.
Definition zeros (t : tensor) : list float := (fun _ => Some 0%Q) <$> values t.

(** [birthArray] and [survivalArray]: 27 flags, set at the counts of the
    rule that lie in 0..26. *)
Definition rule_flags (set : option (list Z)) : result (list Z) :=
  match set with
  | Some l =>
      Ok (foldl (fun flags v =>
                   if (0 <=? v) && (v <? 27) then <[Z.to_nat v := 1]> flags else flags)
                (replicate 27 0) l)
  | None => Throw TypeError
  end.

Definition processStandardRule (gridTensor : tensor) (convKernel : list float)
    (birthValues survivalValues : option (list Z)) : result tensor :=
  let neighborCount := conv3d_same gridTensor convKernel in
  let currentState := gridTensor in
  let* birthArray := rule_flags birthValues in
  let* survivalArray := rule_flags survivalValues in
  let aliveMask := greater currentState (1 # 2) in
  let deadMask := less currentState (1 # 2) in
  let newState := zeros currentState in
  let newState :=
    foldl (fun newState i =>
      let countMask := equal neighborCount (inject_Z i) in
      let newState :=
        if 0 <? default 0 (birthArray !! Z.to_nat i)
        then add newState (mul_scalar (logicalAnd deadMask countMask) 1)
        else newState in
      if 0 <? default 0 (survivalArray !! Z.to_nat i)
      then add newState (mul_scalar (logicalAnd aliveMask countMask) 1)
      else newState)
      newState (seqZ 0 27) in
  Ok (Tensor (shape currentState) newState).

Definition processBriansBrainRule (gridTensor : tensor) (convKernel : list float)
  : tensor :=
  let neighborCount := conv3d_same gridTensor convKernel in
  let currentState := gridTensor in
  let deadMask := less currentState (1 # 4) in
  let aliveMask := greater currentState (3 # 4) in
  let birthNeighborsMask := equal neighborCount 2 in
  let birthMask := logicalAnd deadMask birthNeighborsMask in
  let birthUpdate := mul_scalar birthMask 1 in
  let dyingUpdate := mul_scalar aliveMask (1 # 2) in
  Tensor (shape currentState) (add birthUpdate dyingUpdate).

(** The fields of a [CellularAutomataTF] object. *)
Record instance : Type := Instance {
  initialized : bool;
  gridTensor : option tensor;
  size : jsnum * jsnum * jsnum;
  currentRule : string;
  convKernel : option (list float)
}.

(** [new CellularAutomataTF()] *)
Definition new_instance : instance :=
  Instance false None (Some 0, Some 0, Some 0) "conway3d" None.

(** The loops that copy [gridData[x][y][z]] into [flatData[i++]]. *)
Definition flatten (gridData : jsval) (sizeX sizeY sizeZ : jsnum)
  : result (list float) :=
  let* n := typed_array_length (jsnum_mul (jsnum_mul sizeX sizeY) sizeZ) in
  let flatData := replicate n (Some 0%Q) in
  let* '(flatData, _) :=
    for_each (upto sizeX) (fun x st =>
      for_each (upto sizeY) (fun y st =>
        for_each (upto sizeZ) (fun z '(flatData, i) =>
          let* v := get3 gridData (Some x) (Some y) (Some z) in
          Ok (<[i := to_float v]> flatData, S i)) st) st) (flatData, 0%nat) in
  Ok flatData.

Definition initialize (this : instance) (gridData : jsval) (ruleName : string)
  : result instance :=
  let* '(sizeX, sizeY, sizeZ) := CPU.sizes gridData in
  let* flatData := flatten gridData sizeX sizeY sizeZ in
  let* t := tensor3d flatData sizeX sizeY sizeZ in
  Ok (Instance true (Some t) (sizeX, sizeY, sizeZ) ruleName
               (Some createConvolutionKernel)).

Definition updateGrid (this : instance) (gridData : jsval) : result instance :=
  if negb (initialized this) then initialize this gridData (currentRule this) else
  let* '(sizeX, sizeY, sizeZ) := CPU.sizes gridData in
  if bool_decide ((sizeX, sizeY, sizeZ) <> size this)
  then initialize this gridData (currentRule this)
  else
    let* flatData := flatten gridData sizeX sizeY sizeZ in
    let* t := tensor3d flatData sizeX sizeY sizeZ in
    Ok (Instance (initialized this) (Some t) (size this) (currentRule this)
                 (convKernel this)).

(** [computeNextGeneration]: the grid returned ([null] when not
    initialized) and the instance afterwards. *)
Definition computeNextGeneration (this : instance) : result (jsval * instance) :=
  match initialized this, gridTensor this with
  | true, Some gridTensor =>
      let kernel := default [] (convKernel this) in
      let* nextGenTensor :=
        if bool_decide (currentRule this = "briansbrain3d"%string) then
          Ok (processBriansBrainRule gridTensor kernel)
        else if bool_decide (currentRule this = "checkerboard"%string) then
          Ok gridTensor
        else
          let rule := lookup_rule (currentRule this) in
          processStandardRule gridTensor kernel (rule_birth rule) (rule_survival rule) in
      let '(sizeX, sizeY, sizeZ) := shape nextGenTensor in
      let* result := CPU.createEmpty3DGrid (Some sizeX) (Some sizeY) (Some sizeZ) in
      let flatData := values nextGenTensor in
      let* '(result, _) :=
        for_each (upto (Some sizeX)) (fun x st =>
          for_each (upto (Some sizeY)) (fun y st =>
            for_each (upto (Some sizeZ)) (fun z '(result, i) =>
              let value := default None (flatData !! i) in
              if bool_decide (currentRule this = "briansbrain3d"%string) then
                if fcmp Gt value (3 # 4) then
                  let* result := set3 result (Some x) (Some y) (Some z) (JNum 1) in
                  Ok (result, S i)
                else if fcmp Gt value (1 # 4) then
                  let* result := set3 result (Some x) (Some y) (Some z) (JNum 2) in
                  Ok (result, S i)
                else Ok (result, S i)
              else
                let* result := set3 result (Some x) (Some y) (Some z) (js_round value) in
                Ok (result, S i)) st) st) (result, 0%nat) in
      Ok (result,
          Instance (initialized this) (Some nextGenTensor) (size this)
                   (currentRule this) (convKernel this))
  | _, _ => Ok (JNull, this)
  end.

(** [calculateNextGeneration3DTF(currentGrid, ruleName = 'conway3d')], with
    the module variable [tfInstance] ([None] is [null]) passed in and out.
    An exception leaves no state behind in this model: the instance a
    call leaves when it throws inside [initialize] (initialized, with its
    kernel disposed) is not represented, and the properties that start
    from an instance ask for [tf_consistent]. *)
Definition calculateNextGeneration3DTF (tfInstance : option instance)
    (currentGrid : jsval) (ruleName : option string)
  : result (jsval * option instance) :=
  let ruleName := default "conway3d"%string ruleName in
  let* invalid := CPU.invalid_grid currentGrid in
  if invalid then
    let* g := CPU.createEmpty3DGrid (Some 1) (Some 1) (Some 1) in
    Ok (g, tfInstance)
  else
    let this := default new_instance tfInstance in
    let* '(sizeX, sizeY, sizeZ) := CPU.sizes currentGrid in
    let* this :=
      if negb (initialized this)
         || bool_decide ((sizeX, sizeY, sizeZ) <> size this)
         || bool_decide (currentRule this <> ruleName)
      then initialize this currentGrid ruleName
      else updateGrid this currentGrid in
    let* '(result, this) := computeNextGeneration this in
    Ok (result, Some this).

End TF.

(** [a + b] on numbers that may be [undefined] *)
Definition jsnum_add (a b : jsnum) : jsnum :=
  match a, b with
  | Some p, Some q => Some (p + q)
  | _, _ => None
  end.

(** [data[index] = v] on a typed array: a write outside the array, or at
    NaN, is dropped. *)
Definition typed_set {A} (data : list A) (index : jsnum) (v : A) : list A :=
  match index with
  | Some k => if k <? 0 then data else <[Z.to_nat k := v]> data
  | None => data
  end.

(** The conversion of a store into a [Uint8Array] and a [Uint32Array]:
    modulo 2^8 and 2^32, NaN stored as 0. *)
Definition to_uint8 (n : jsnum) : Z :=
  match n with
  | Some k => k mod 256
  | None => 0
  end.

Definition to_uint32 (n : jsnum) : Z :=
  match n with
  | Some k => k mod 4294967296
  | None => 0
  end.

(** ** Texture-encoded engine (automataLogic3DGPU.js) *)

Module GPU.

(** The bytes of the RGBA data texture for a grid: the loops of
    [initialize] and of the texture update in [calculateNextGeneration3DGPU].
    The product [v * 255] is a double in the code, equal to the integer
    product as long as that is at most 2^53 in absolute value. *)
Definition texture_data (gridData : jsval) (sizeX sizeY sizeZ : jsnum)
  : result (list Z) :=
  let totalSize := jsnum_mul (jsnum_mul sizeX sizeY) sizeZ in
  let sliceSize := jsnum_mul sizeX sizeY in
  let* n := typed_array_length (jsnum_mul totalSize (Some 4)) in
  for_each (upto sizeZ) (fun z data =>
    for_each (upto sizeY) (fun y data =>
      for_each (upto sizeX) (fun x data =>
        let index :=
          jsnum_mul (jsnum_add (jsnum_add (jsnum_mul (Some z) sliceSize)
                                          (jsnum_mul (Some y) sizeX)) (Some x))
                    (Some 4) in
        let* v := get3 gridData (Some x) (Some y) (Some z) in
        let data := typed_set data index (to_uint8 (jsnum_mul (to_number v) (Some 255))) in
        let data := typed_set data (jsnum_add index (Some 1)) 0 in
        let data := typed_set data (jsnum_add index (Some 2)) 0 in
        let data := typed_set data (jsnum_add index (Some 3)) 255 in
        Ok data) data) data) (replicate n 0).

Section shaders.

(** How the GL implementation rounds a colour that falls halfway between
    two bytes (0.5 * 255 = 127.5) when it writes the render target. *)
Variable round_half_up : bool.

Definition q_gt (a b : Q) : bool := bool_decide ((a ?= b)%Q = Gt).
Definition q_lt (a b : Q) : bool := bool_decide ((a ?= b)%Q = Lt).
Definition q_le (a b : Q) : bool := negb (q_gt a b).
Definition q_ge (a b : Q) : bool := negb (q_lt a b).

(** A colour component written to an unsigned-byte render target:
    clamped to [0,1], scaled by 255 and rounded to the nearest byte. *)
Definition to_unorm8 (q : Q) : Z :=
  let c := if q_lt q 0 then 0%Q else if q_gt q 1 then 1%Q else q in
  let v := Qred (c * 255) in
  let f := Qfloor v in
  if Qeq_bool (v - inject_Z f) (1 # 2)
  then (if round_half_up then f + 1 else f)
  else Qfloor (v + (1 # 2)).

(** The red component of the texel of cell (x,y,z): the texture is
    [sizeX] wide and stacks the z-slices, row [y + z * sizeY]. *)
Definition texel (image : list Z) (sx sy sz : Z) (x y z : Z) : Q :=
  inject_Z (default 0 (image !! Z.to_nat (((y + z * sy) * sx + x) * 4))) / 255.

(** [getCellState(pos)]: GLSL [mod] is the floored modulo. *)
Definition getCellState (image : list Z) (sx sy sz : Z) (x y z : Z) : Q :=
  texel image sx sy sz (x mod sx) (y mod sy) (z mod sz).

Definition neighbour_states (image : list Z) (sx sy sz : Z) (x y z : Z)
  : list Q :=
  dx ← offsets; dy ← offsets; dz ← offsets;
  if (dx =? 0) && (dy =? 0) && (dz =? 0) then []
  else [getCellState image sx sy sz (x + dx) (y + dy) (z + dz)].

(** [standardFragmentShader]: the new state of cell (x,y,z).  The sum of
    the neighbours' colours is exact here; the shader adds 32-bit floats,
    which is exact for the colours 0 and 1 of a grid of 0 and 1. *)
Definition standardFragmentShader (birthValues survivalValues : list Z)
    (image : list Z) (sx sy sz : Z) (x y z : Z) : Q :=
  let currentState := getCellState image sx sy sz x y z in
  let neighbors :=
    foldl (fun acc s => Qred (acc + s)) 0%Q (neighbour_states image sx sy sz x y z) in
  let floorNeighbors := Qfloor neighbors in
  let flags := if q_gt currentState (1 # 2) then survivalValues else birthValues in
  if (3 <=? floorNeighbors) && (floorNeighbors <=? 10)
  then if 0 <? default 0 (flags !! Z.to_nat (floorNeighbors - 3)) then 1%Q else 0%Q
  else 0%Q.

(** [briansBrainFragmentShader] *)
Definition briansBrainFragmentShader (image : list Z) (sx sy sz : Z)
    (x y z : Z) : Q :=
  let currentState := getCellState image sx sy sz x y z in
  if q_lt currentState (1 # 4) then
    let onNeighbors :=
      foldl (fun acc s => if q_gt s (3 # 4) then Qred (acc + 1) else acc) 0%Q
            (neighbour_states image sx sy sz x y z) in
    if q_ge onNeighbors (3 # 2) && q_le onNeighbors (5 # 2) then 1%Q else 0%Q
  else if q_gt currentState (3 # 4) then (1 # 2)%Q
  else 0%Q.

(** One full-screen pass: the RGBA bytes of the render target, one pixel
    per cell, rows [y + z * sizeY] of [sizeX] pixels. *)
Definition render (fragment : Z -> Z -> Z -> list Z) (sx sy sz : Z) : list Z :=
  row ← seqZ 0 (sy * sz); x ← seqZ 0 sx;
  fragment x (row mod sy) (row / sy).

Definition state_pixel (q : Q) : list Z := [to_unorm8 q; 0; 0; 255].

(** [copyFragmentShader]: the pixel of the source texture. *)
Definition copy_pixel (image : list Z) (sx sy sz : Z) (x y z : Z) : list Z :=
  let p := Z.to_nat (((y + z * sy) * sx + x) * 4) in
  (fun c => default 0 (image !! (p + c)%nat)) <$> [0; 1; 2; 3]%nat.

(** The uniform arrays of [setRule]: 8 flags for the counts 3..10. *)
Definition rule_uniform (set : option (list Z)) : result (list Z) :=
  match set with
  | Some l =>
      Ok (foldl (fun flags value =>
                   if (3 <=? value) && (value <=? 10)
                   then <[Z.to_nat (value - 3) := 1]> flags else flags)
                (replicate 8 0) l)
  | None => Throw TypeError
  end.

Inductive texture_name : Type := TextureA | TextureB.

(** The fields of a [CellularAutomataGPU] object that the computation
    uses.  [textureB] is [textureA.clone()], which shares the image of
    [textureA]: [image] is the data both sample. *)
Record instance : Type := Instance {
  initialized : bool;
  size : jsnum * jsnum * jsnum;
  currentRule : string;
  currentTexture : texture_name;
  image : list Z;
  birthValues : list Z;
  survivalValues : list Z
}.

(** [new CellularAutomataGPU()] *)
Definition new_instance : instance :=
  Instance false (Some 0, Some 0, Some 0) "conway3d" TextureA [] [] [].

(** [initialize]; [createComputeShaders] sets the uniforms of the default
    rule.  [dispose] and the first render into [renderTargetA] leave no
    trace in the fields above but [initialized]. *)
Definition initialize (this : instance) (gridData : jsval) (ruleName : string)
  : result instance :=
  let* '(sizeX, sizeY, sizeZ) := CPU.sizes gridData in
  let* data := texture_data gridData sizeX sizeY sizeZ in
  let* birth := rule_uniform (rule_birth conway3d) in
  let* survival := rule_uniform (rule_survival conway3d) in
  Ok (Instance true (sizeX, sizeY, sizeZ) ruleName (currentTexture this)
               data birth survival).

Definition setRule (this : instance) (ruleName : string) : result instance :=
  if bool_decide (ruleName = "briansbrain3d"%string)
     || bool_decide (ruleName = "checkerboard"%string)
  then Ok (Instance (initialized this) (size this) ruleName (currentTexture this)
                    (image this) (birthValues this) (survivalValues this))
  else
    let rule := lookup_rule ruleName in
    let* birth := rule_uniform (rule_birth rule) in
    let* survival := rule_uniform (rule_survival rule) in
    Ok (Instance (initialized this) (size this) ruleName (currentTexture this)
                 (image this) birth survival).

Definition swap (t : texture_name) : texture_name :=
  match t with
  | TextureA => TextureB
  | TextureB => TextureA
  end.

(** [computeNextGeneration]: render with the shader of the rule, swap,
    read the pixels back and decode them. *)
Definition computeNextGeneration (this : instance) : result (jsval * instance) :=
  if negb (initialized this) then Ok (JNull, this) else
  let* this :=
    if bool_decide (currentRule this = "briansbrain3d"%string) then Ok this
    else if bool_decide (currentRule this = "checkerboard"%string) then Ok this
    else setRule this (currentRule this) in
  let '(sizeX, sizeY, sizeZ) := size this in
  let pixelBuffer :=
    match sizeX, sizeY, sizeZ with
    | Some sx, Some sy, Some sz =>
        render
          (if bool_decide (currentRule this = "briansbrain3d"%string) then
             fun x y z => state_pixel (briansBrainFragmentShader (image this) sx sy sz x y z)
           else if bool_decide (currentRule this = "checkerboard"%string) then
             copy_pixel (image this) sx sy sz
           else
             fun x y z => state_pixel
               (standardFragmentShader (birthValues this) (survivalValues this)
                  (image this) sx sy sz x y z))
          sx sy sz
    | _, _, _ => []
    end in
  let this := Instance (initialized this) (size this) (currentRule this)
                       (swap (currentTexture this)) (image this)
                       (birthValues this) (survivalValues this) in
  let* result := CPU.createEmpty3DGrid sizeX sizeY sizeZ in
  let sliceSize := jsnum_mul sizeX sizeY in
  let* result :=
    for_each (upto sizeZ) (fun z result =>
      for_each (upto sizeY) (fun y result =>
        for_each (upto sizeX) (fun x result =>
          let index :=
            (z * default 0 sliceSize + y * default 0 sizeX + x) * 4 in
          set3 result (Some x) (Some y) (Some z)
               (JNum (if 127 <? default 0 (pixelBuffer !! Z.to_nat index)
                      then 1 else 0))) result) result) result in
  Ok (result, this).

(** [calculateNextGeneration3DGPU(currentGrid, ruleName = 'conway3d')],
    with the module variable [gpuInstance] passed in and out.  The
    console logging after the step only reads the result. *)
Definition calculateNextGeneration3DGPU (gpuInstance : option instance)
    (currentGrid : jsval) (ruleName : option string)
  : result (jsval * option instance) :=
  let ruleName := default "conway3d"%string ruleName in
  let* invalid := CPU.invalid_grid currentGrid in
  if invalid then
    let* g := CPU.createEmpty3DGrid (Some 1) (Some 1) (Some 1) in
    Ok (g, gpuInstance)
  else
    let this := default new_instance gpuInstance in
    let* '(sizeX, sizeY, sizeZ) := CPU.sizes currentGrid in
    let* this :=
      if negb (initialized this)
         || bool_decide ((sizeX, sizeY, sizeZ) <> size this)
         || bool_decide (currentRule this <> ruleName)
      then initialize this currentGrid ruleName
      else
        let* data := texture_data currentGrid sizeX sizeY sizeZ in
        Ok (Instance (initialized this) (size this) (currentRule this)
                     (currentTexture this) data
                     (birthValues this) (survivalValues this)) in
    let* '(result, this) := computeNextGeneration this in
    Ok (result, Some this).

End shaders.

End GPU.

(** ** Compute-buffer engine (automataLogic3DWEBGPU.js): marshalling *)

Module WEBGPU.

(** The loops of [setupBuffers] and [computeNextGenerationWebGPU] that fill
    a [Uint32Array] of one element per cell from [grid[x][y][z]]. *)
Definition cell_state_array (grid : jsval) (sizeX sizeY sizeZ : jsnum)
  : result (list Z) :=
  let totalCells := jsnum_mul (jsnum_mul sizeX sizeY) sizeZ in
  let* n := typed_array_length totalCells in
  let* '(cellStateArray, _) :=
    for_each (upto sizeZ) (fun z st =>
      for_each (upto sizeY) (fun y st =>
        for_each (upto sizeX) (fun x '(cellStateArray, cellIndex) =>
          let* v := get3 grid (Some x) (Some y) (Some z) in
          Ok (<[cellIndex := to_uint32 (to_number v)]> cellStateArray, S cellIndex))
          st) st) (replicate n 0, 0%nat) in
  Ok cellStateArray.

(** [setupBuffers(grid)], with [gridSize] set by [initializeWebGPU]. *)
Definition setupBuffers (grid : jsval) : result (list Z) :=
  let* '(sizeX, sizeY, sizeZ) := CPU.sizes grid in
  cell_state_array grid sizeX sizeY sizeZ.

End WEBGPU.

(** ** Well-formed grids *)

(** A grid as the pattern generators make it: nested arrays of numbers,
    indexed [g[x][y][z]]. *)
Abbreviation grid := (list (list (list Z))).

Definition js_of_grid (g : grid) : jsval :=
  JArr ((fun row => JArr ((fun col => JArr (JNum <$> col)) <$> row)) <$> g).

(** The value at [g[x][y][z]], 0 outside the grid. *)
Definition cell (g : grid) (x y z : Z) : Z :=
  match g !! Z.to_nat x with
  | Some row =>
      match row !! Z.to_nat y with
      | Some col => default 0 (col !! Z.to_nat z)
      | None => 0
      end
  | None => 0
  end.

(** All three dimensions are the same in every row and column. *)
Definition rect (sx sy sz : nat) (g : grid) : Prop :=
  length g = sx /\
  Forall (fun row => length row = sy /\ Forall (fun col => length col = sz) row) g.

Definition in_grid (sx sy sz : nat) (x y z : Z) : Prop :=
  0 <= x < Z.of_nat sx /\ 0 <= y < Z.of_nat sy /\ 0 <= z < Z.of_nat sz.

Definition upd3 (g : grid) (x y z : Z) (v : Z) : grid :=
  alter (alter (<[Z.to_nat z := v]>) (Z.to_nat y)) (Z.to_nat x) g.

Definition sumZ (l : list Z) : Z := foldr Z.add 0 l.

(** The 26 offsets of the Moore neighbourhood. *)
Definition neighbour_offsets : list (Z * Z * Z) :=
  filter (fun d => d <> (0, 0, 0))
    (dx ← offsets; dy ← offsets; dz ← offsets; [(dx, dy, dz)]).

(** The specification's neighbour count: the number of the 26 neighbours,
    each axis taken modulo its size, whose value is exactly 1. *)
Definition wrapped_live_count (g : grid) (sx sy sz : nat) (x y z : Z) : Z :=
  Z.of_nat (length (filter
    (fun '(dx, dy, dz) =>
       cell g ((x + dx) mod Z.of_nat sx) ((y + dy) mod Z.of_nat sy)
              ((z + dz) mod Z.of_nat sz) = 1)
    neighbour_offsets)).

(** The cells one step of an axis away from the corner (0,0,0) on the torus. *)
Definition reachable_from_corner (n : nat) (x y z : Z) : bool :=
  bool_decide (Exists (fun '(dx, dy, dz) =>
    x = dx mod Z.of_nat n /\ y = dy mod Z.of_nat n /\ z = dz mod Z.of_nat n)
    neighbour_offsets).

(** ** Running generations and comparing engines *)

(** The orchestration loop: each step is given the grid the previous step
    returned, and the engine's module state is carried along. *)
Fixpoint cpu_generations (n : nat) (ruleName : string) (g : jsval) : result jsval :=
  match n with
  | O => Ok g
  | S n' =>
      let* g' := CPU.calculateNextGeneration3D g (Some ruleName) in
      cpu_generations n' ruleName g'
  end.

Fixpoint tf_generations (n : nat) (ruleName : string) (st : option TF.instance)
    (g : jsval) : result (jsval * option TF.instance) :=
  match n with
  | O => Ok (g, st)
  | S n' =>
      let* '(g', st') := TF.calculateNextGeneration3DTF st g (Some ruleName) in
      tf_generations n' ruleName st' g'
  end.

Definition js_elements (v : jsval) : list jsval :=
  match v with
  | JArr l => l
  | _ => []
  end.

(** The coordinates of the cells with value 1, in order. *)
Definition alive_cells (v : jsval) : list (Z * Z * Z) :=
  '(x, row) ← imap (fun i r => (Z.of_nat i, r)) (js_elements v);
  '(y, col) ← imap (fun i r => (Z.of_nat i, r)) (js_elements row);
  '(z, c) ← imap (fun i r => (Z.of_nat i, r)) (js_elements col);
  if strict_eq_num c 1 then [(x, y, z)] else [].

(** [createInitial3DGrid(6, 6, 6, 'sphere')]; the pattern draws no random
    number. *)
Definition sphere6 : result jsval :=
  CPU.createInitial3DGrid (Some 6) (Some 6) (Some 6) (Some "sphere"%string)
    (fun _ => false).

(** What a step returns, without the engine state. *)
Definition returned {A S} (r : result (A * S)) : result A :=
  match r with
  | Ok (a, _) => Ok a
  | Throw e => Throw e
  end.

(** The alive sets the CPU engine and the tensor engine reach from the
    6x6x6 sphere after [n] generations of a rule. *)
Definition alive_after (n : nat) (ruleName : string)
  : result (list (Z * Z * Z) * list (Z * Z * Z)) :=
  let* g := sphere6 in
  let* a := cpu_generations n ruleName g in
  let* '(b, _) := tf_generations n ruleName None g in
  Ok (alive_cells a, alive_cells b).

(** The neighbour count the tensor engine computes for cell (x,y,z) of a
    grid: the convolution of [processStandardRule] on the tensor that
    [initialize] builds. *)
Definition tf_neighbour_count (g : jsval) (x y z : Z) : result float :=
  let* this := TF.initialize TF.new_instance g "conway3d" in
  match TF.gridTensor this, TF.convKernel this with
  | Some t, Some kernel => Ok (TF.at_padded (TF.conv3d_same t kernel) x y z)
  | _, _ => Ok None
  end.

(** 3x3x3 grids that are 0 except for the centre. *)
Definition centre3 (c : Z) : grid :=
  [ [[0; 0; 0]; [0; 0; 0]; [0; 0; 0]];
    [[0; 0; 0]; [0; c; 0]; [0; 0; 0]];
    [[0; 0; 0]; [0; 0; 0]; [0; 0; 0]] ].

(** The 3x3x3 grid that is 1 except for the centre. *)
Definition shell3 (c : Z) : grid :=
  [ [[1; 1; 1]; [1; 1; 1]; [1; 1; 1]];
    [[1; 1; 1]; [1; c; 1]; [1; 1; 1]];
    [[1; 1; 1]; [1; 1; 1]; [1; 1; 1]] ].

(** ** Vocabulary of the properties *)

(** [before x0 y0 z0 x y z]: the traversal visits (x,y,z) before (x0,y0,z0). *)
Definition before (x0 y0 z0 x y z : Z) : Prop :=
  x < x0 \/ (x = x0 /\ (y < y0 \/ (y = y0 /\ z < z0))).

Definition filled (sx sy sz : nat) (v : Z -> Z -> Z -> Z) (x0 y0 z0 : Z)
    (s : jsval) : Prop :=
  exists G : grid, s = js_of_grid G /\ rect sx sy sz G /\
    forall x y z, in_grid sx sy sz x y z ->
      (before x0 y0 z0 x y z -> cell G x y z = v x y z) /\
      (~ before x0 y0 z0 x y z -> cell G x y z = 0).

Definition zero_grid (sx sy sz : nat) : grid :=
  replicate sx (replicate sy (replicate sz 0)).

(** The indicator the loop nest adds for one offset. *)
Definition live_indicator (g : grid) (sx sy sz : nat) (x y z dx dy dz : Z) : Z :=
  if decide ((dx, dy, dz) = (0, 0, 0)) then 0
  else if decide (cell g ((x + dx) mod Z.of_nat sx) ((y + dy) mod Z.of_nat sy)
                        ((z + dz) mod Z.of_nat sz) = 1) then 1 else 0.

Definition minimal_grid : jsval := JArr [JArr [JArr [JNum 0]]].

(** A ragged grid whose first row and first column are well formed. *)
Definition ragged_grid : jsval :=
  JArr [JArr [JArr [JNum 0]; JArr [JNum 0]]; JArr [JArr [JNum 0]]].

(** The instances the tensor engine itself builds carry its kernel. *)
Definition tf_consistent (st : option TF.instance) : Prop :=
  match st with
  | Some this =>
      TF.initialized this = true ->
      TF.convKernel this = Some TF.createConvolutionKernel
  | None => True
  end.

Definition named_patterns : list string :=
  ["checkerboard"; "default"; "cross"; "random"; "sphere"]%string.

Definition is_zero (a : Z) : Z := if decide (a = 0) then 1 else 0.

Definition near_zero (n : nat) (x : Z) : Prop :=
  x = 0 \/ x = 1 \/ x = Z.of_nat n - 1.

Definition corner2 : grid := [[[1; 0]; [0; 0]]; [[0; 0]; [0; 0]]].

Definition corner3 : grid :=
  [ [[1; 0; 0]; [0; 0; 0]; [0; 0; 0]];
    [[0; 0; 0]; [0; 0; 0]; [0; 0; 0]];
    [[0; 0; 0]; [0; 0; 0]; [0; 0; 0]] ].

Definition two_by_one_by_two : grid := [[[0; 1]]; [[0; 0]]].

(** ** The grids the application creates (App.jsx) *)

Module APP.

(** The pattern [handleReset3D], [handleRuleChange3D] and
    [handleGridSizeChange3D] ask for. *)
Definition pattern_for_rule (rule3D : string) : string :=
  if bool_decide (rule3D = "checkerboard"%string) then "checkerboard"
  else if bool_decide (rule3D = "briansbrain3d"%string) then "random"
  else "sphere".

(** The grid these handlers put in the state: a cube of side [gridSize3D]. *)
Definition reset_grid (rule3D : string) (gridSize3D : Z) (random : nat -> bool)
  : result jsval :=
  CPU.createInitial3DGrid (Some gridSize3D) (Some gridSize3D) (Some gridSize3D)
    (Some (pattern_for_rule rule3D)) random.

End APP.

(** ** One-dimensional automaton (automataLogic.js) *)

(** [ToInt32]: the operand of a bitwise operator, NaN read as 0. *)
Definition to_int32 (n : jsnum) : Z :=
  match n with
  | Some k => (k + 2147483648) mod 4294967296 - 2147483648
  | None => 0
  end.

(** [a << k] on 32-bit integers *)
Definition shl (a k : Z) : Z := to_int32 (Some (a * 2 ^ k)).

(** [a % b] on a non-negative number and a length: the truncated remainder,
    NaN when the divisor is 0 or not a number. *)
Definition js_rem (a : Z) (b : jsnum) : jsnum :=
  match b with
  | Some s => if s =? 0 then None else Some (Z.rem a s)
  | None => None
  end.

Module D1.

(** The digits of [p.toString(2)], most significant first. *)
Fixpoint binary_digits (p : positive) : list ascii :=
  match p with
  | xH => ["1"%char]
  | xO q => binary_digits q ++ ["0"%char]
  | xI q => binary_digits q ++ ["1"%char]
  end.

(** [n.toString(2)] on an integer *)
Definition toString2 (n : Z) : list ascii :=
  match n with
  | Z0 => ["0"%char]
  | Zpos p => binary_digits p
  | Zneg p => "-"%char :: binary_digits p
  end.

(** [Number(c)] on a string of one character: a digit of the binary
    string, or a letter of the string NaN. *)
Definition Number_of_char (c : ascii) : jsval :=
  if Ascii.eqb c "0" then JNum 0
  else if Ascii.eqb c "1" then JNum 1
  else JNaN.

(** [while (binaryString.length < numBits) binaryString = '0' + binaryString];
    every turn makes the string one longer, so [numBits] turns are enough. *)
Fixpoint pad (turns : nat) (numBits : Z) (binaryString : list ascii) : list ascii :=
  match turns with
  | O => binaryString
  | S turns' =>
      if Z.of_nat (length binaryString) <? numBits
      then pad turns' numBits ("0"%char :: binaryString)
      else binaryString
  end.

(** [decimalToBinaryArray(decimalRule, numBits = 8)]; [typeof decimalRule]
    is 'number' on the integers and on NaN, whose comparisons are false. *)
Definition decimalToBinaryArray (decimalRule : jsval) (numBits : option Z)
  : result jsval :=
  let numBits := default 8 numBits in
  let invalid :=
    let* n := js_Array (Some numBits) in Ok (JArr (replicate n (JNum 0))) in
  match decimalRule with
  | JNum n =>
      if (n <? 0) || (255 <? n) then invalid
      else Ok (JArr (Number_of_char <$> pad (Z.to_nat numBits) numBits (toString2 n)))
  | JNaN =>
      Ok (JArr (Number_of_char <$>
                  pad (Z.to_nat numBits) numBits ["N"; "a"; "N"]%char))
  | JUndefined | JNull | JArr _ => invalid
  end.

(** [calculateNextGeneration(currentGeneration, ruleNumber)] *)
Definition calculateNextGeneration (currentGeneration ruleNumber : jsval)
  : result jsval :=
  if negb (truthy currentGeneration) then Ok (JArr []) else
  let* len := js_length currentGeneration in
  if bool_decide (len = Some 0) then Ok (JArr []) else
  let* ruleBinary := decimalToBinaryArray ruleNumber None in
  for_each (upto len) (fun i nextGeneration =>
    let* leftNeighbor := js_get currentGeneration (wrap i (-1) len) in
    let* currentCell := js_get currentGeneration (Some i) in
    let* rightNeighbor := js_get currentGeneration (js_rem (i + 1) len) in
    let pattern :=
      Z.lor (Z.lor (shl (to_int32 (to_number leftNeighbor)) 2)
                   (shl (to_int32 (to_number currentCell)) 1))
            (to_int32 (to_number rightNeighbor)) in
    let* bit := js_get ruleBinary (Some (7 - pattern)) in
    js_set nextGeneration (Some i) bit) (JArr []).

End D1.

(** ** Two-dimensional automaton (automataLogic2D.js) *)

Module D2.

Definition RULE_DEFINITIONS : gmap string rule_def :=
  list_to_map
    [ ("conway"%string, RuleBS [3] [2; 3]);
      ("highlife"%string, RuleBS [3; 6] [2; 3]);
      ("daynight"%string, RuleBS [3; 6; 7; 8] [3; 4; 6; 7; 8]);
      ("seeds"%string, RuleBS [2] []);
      ("maze"%string, RuleBS [3] [1; 2; 3; 4; 5]);
      ("lifewithoutdeath"%string, RuleBS [3] [0; 1; 2; 3; 4; 5; 6; 7; 8]);
      ("replicator"%string, RuleBS [1; 3; 5; 7] [1; 3; 5; 7]);
      ("2x2"%string, RuleBS [3; 6] [1; 2; 5]);
      ("briansbrain"%string, RuleType "special") ].

Definition conway : rule_def := RuleBS [3] [2; 3].

(** [RULE_DEFINITIONS[ruleName] || RULE_DEFINITIONS.conway]: as in the
    three-dimensional table, the lookup also finds the properties
    inherited from [Object.prototype], which are truthy. *)
Definition lookup_rule (ruleName : string) : rule_def :=
  match RULE_DEFINITIONS !! ruleName with
  | Some rule => rule
  | None =>
      if bool_decide (ruleName ∈ object_prototype_names) then RuleInherited
      else conway
  end.

(** [g[r][c]] *)
Definition get2 (g : jsval) (r c : jsnum) : result jsval :=
  let* row := js_get g r in
  js_get row c.

(** [g[r][c] = v] *)
Definition set2 (g : jsval) (r c : jsnum) (v : jsval) : result jsval :=
  let* row := js_get g r in
  let* row' := js_set row c v in
  Ok (js_store g r row').

(** [grid.length] and [grid[0].length] *)
Definition sizes (grid : jsval) : result (jsnum * jsnum) :=
  let* numRows := js_length grid in
  let* g0 := js_get grid (Some 0) in
  let* numCols := js_length g0 in
  Ok (numRows, numCols).

(** [Array(numRows).fill(null).map(() => Array(numCols).fill(0))]: the
    callback runs once per row, so not at all when there is none. *)
Definition empty_grid (numRows numCols : jsnum) : result jsval :=
  let* nr := js_Array numRows in
  if (nr =? 0)%nat then Ok (JArr []) else
  let* nc := js_Array numCols in
  Ok (JArr (replicate nr (JArr (replicate nc (JNum 0))))).

(** The loop nest over the 8 neighbours, counting those equal to 1. *)
Definition count_neighbours (grid : jsval) (numRows numCols : jsnum) (r c : Z)
  : result Z :=
  for_each offsets (fun i count =>
    for_each offsets (fun j count =>
      if (i =? 0) && (j =? 0) then Ok count else
      let nr := wrap r i numRows in
      let nc := wrap c j numCols in
      let* v := get2 grid nr nc in
      Ok (if strict_eq_num v 1 then count + 1 else count))
    count) 0.

Definition countLiveNeighbors (grid : jsval) (r c : Z) : result Z :=
  let* '(numRows, numCols) := sizes grid in
  count_neighbours grid numRows numCols r c.

Definition calculateBriansBrain (currentGrid : jsval) : result jsval :=
  let* '(numRows, numCols) := sizes currentGrid in
  let* nextGrid := empty_grid numRows numCols in
  for_each (upto numRows) (fun r nextGrid =>
    for_each (upto numCols) (fun c nextGrid =>
      let* cellState := get2 currentGrid (Some r) (Some c) in
      if strict_eq_num cellState 0 then
        let* onNeighbors := count_neighbours currentGrid numRows numCols r c in
        set2 nextGrid (Some r) (Some c) (JNum (if onNeighbors =? 2 then 1 else 0))
      else if strict_eq_num cellState 1 then
        set2 nextGrid (Some r) (Some c) (JNum 2)
      else if strict_eq_num cellState 2 then
        set2 nextGrid (Some r) (Some c) (JNum 0)
      else Ok nextGrid)
    nextGrid) nextGrid.

(** The guard of [calculateNextGeneration2D] *)
Definition invalid_grid (currentGrid : jsval) : result bool :=
  if negb (truthy currentGrid) then Ok true else
  let* len := js_length currentGrid in
  if bool_decide (len = Some 0) then Ok true else
  let* g0 := js_get currentGrid (Some 0) in
  if negb (truthy g0) then Ok true else
  let* len0 := js_length g0 in
  Ok (bool_decide (len0 = Some 0)).

(** [calculateNextGeneration2D(currentGrid, ruleName = 'conway')] *)
Definition calculateNextGeneration2D (currentGrid : jsval)
    (ruleName : option string) : result jsval :=
  let ruleName := default "conway"%string ruleName in
  let* invalid := invalid_grid currentGrid in
  if invalid then Ok (JArr []) else
  if bool_decide (ruleName = "briansbrain"%string) then
    calculateBriansBrain currentGrid
  else
    let rule := lookup_rule ruleName in
    let birth := rule_birth rule in
    let survival := rule_survival rule in
    let* '(numRows, numCols) := sizes currentGrid in
    let* nextGrid := empty_grid numRows numCols in
    for_each (upto numRows) (fun r nextGrid =>
      for_each (upto numCols) (fun c nextGrid =>
        let* liveNeighbors := countLiveNeighbors currentGrid r c in
        let* v := get2 currentGrid (Some r) (Some c) in
        let cellIsAlive := strict_eq_num v 1 in
        if cellIsAlive then
          let* keep := includes survival liveNeighbors in
          set2 nextGrid (Some r) (Some c) (JNum (if keep then 1 else 0))
        else
          let* born := includes birth liveNeighbors in
          set2 nextGrid (Some r) (Some c) (JNum (if born then 1 else 0)))
      nextGrid) nextGrid.

End D2.

(** ** Vocabulary of the further properties *)

(** The grid whose cell (x,y,z) is [f x y z]. *)
Definition grid_of (sx sy sz : nat) (f : Z -> Z -> Z -> Z) : grid :=
  (fun x => (fun y => (fun z => f x y z) <$> seqZ 0 (Z.of_nat sz))
              <$> seqZ 0 (Z.of_nat sy)) <$> seqZ 0 (Z.of_nat sx).

(** The grid moved by (a,b,c) on the torus: its cell (x,y,z) is the cell
    (x+a, y+b, z+c) of [g], each axis modulo its size. *)
Definition shift (sx sy sz : nat) (a b c : Z) (g : grid) : grid :=
  grid_of sx sy sz (fun x y z =>
    cell g ((x + a) mod Z.of_nat sx) ((y + b) mod Z.of_nat sy)
           ((z + c) mod Z.of_nat sz)).

(** The entries of the rule table. *)
Definition rule_table : list (string * rule_def) :=
  [ ("conway3d"%string, RuleBS [5; 6; 7] [4; 5; 6]);
    ("life3d"%string, RuleBS [4; 5] [5; 6; 7]);
    ("stability"%string, RuleBS [4; 5; 6; 7] [3; 4; 5; 6]);
    ("crystal"%string, RuleBS [5; 6; 7; 8] [5; 6; 7; 8]);
    ("pyroclastic"%string, RuleBS [4; 5; 6; 7] [6; 7; 8]);
    ("diamoeba3d"%string, RuleBS [5; 6; 7; 8] [5; 6; 7; 8; 9; 10]);
    ("hyper"%string, RuleBS [5; 6; 7] [5; 6; 7; 8; 9; 10]);
    ("briansbrain3d"%string, RuleType "special");
    ("checkerboard"%string, RuleType "static") ].

(** The cell the CPU step writes at (x,y,z), whatever the rule name. *)
Definition cpu_next (ruleName : string) (g : grid) (sx sy sz : nat) (x y z : Z) : Z :=
  let n := wrapped_live_count g sx sy sz x y z in
  if decide (ruleName = "briansbrain3d"%string) then
    if decide (cell g x y z = 0) then (if decide (n = 2) then 1 else 0)
    else if decide (cell g x y z = 1) then 2 else 0
  else if decide (ruleName = "checkerboard"%string) then cell g x y z
  else
    if decide (cell g x y z = 1)
    then (if decide (n ∈ default [] (rule_survival (lookup_rule ruleName))) then 1 else 0)
    else (if decide (n ∈ default [] (rule_birth (lookup_rule ruleName))) then 1 else 0).

(** The index of cell (x,y,z) in the x-major traversal. *)
Definition flat_index (sy sz : nat) (x y z : Z) : nat :=
  Z.to_nat ((x * Z.of_nat sy + y) * Z.of_nat sz + z).

(** What the patterns that need no room put at cell (x,y,z). *)
Definition pattern_cell (pattern : string) (sx sy sz : nat) (random : nat -> bool)
    (x y z : Z) : Z :=
  if decide (pattern = "random"%string) then
    if random (flat_index sy sz x y z) then 1 else 0
  else if decide (pattern = "sphere"%string) then
    let m := Z.min (Z.min (Z.of_nat sx) (Z.of_nat sy)) (Z.of_nat sz) in
    let dx := x - Z.of_nat sx / 2 in
    let dy := y - Z.of_nat sy / 2 in
    let dz := z - Z.of_nat sz / 2 in
    if CPU.near_sphere_surface m (dx * dx + dy * dy + dz * dz) then 1 else 0
  else
    if decide ((x + y + z) mod 2 = 0) then 1 else 0.

Definition total_patterns : list string :=
  ["checkerboard"; "default"; "random"; "sphere"]%string.

(** The checkerboard: 1 where x + y + z is even. *)
Definition checkerboard_grid (sx sy sz : nat) : grid :=
  grid_of sx sy sz (fun x y z => if decide ((x + y + z) mod 2 = 0) then 1 else 0).

(** The value at (x,y,z) when the grid is surrounded by zeros. *)
Definition padded_cell (sx sy sz : nat) (g : grid) (x y z : Z) : Z :=
  if (0 <=? x) && (x <? Z.of_nat sx) && (0 <=? y) && (y <? Z.of_nat sy)
     && (0 <=? z) && (z <? Z.of_nat sz)
  then cell g x y z else 0.

(** The sum of the values of the 26 neighbours, without wraparound. *)
Definition padded_sum (sx sy sz : nat) (g : grid) (x y z : Z) : Z :=
  sumZ ((fun '(dx, dy, dz) => padded_cell sx sy sz g (x + dx) (y + dy) (z + dz))
          <$> neighbour_offsets).

(** The cell the tensor engine's loop over [dataSync()] writes for one
    value of the flat data; [None] when it writes no integer. *)
Definition tf_decoded (ruleName : string) (value : float) : option Z :=
  if bool_decide (ruleName = "briansbrain3d"%string) then
    Some (if fcmp Gt value (3 # 4) then 1 else if fcmp Gt value (1 # 4) then 2 else 0)
  else
    match js_round value with
    | JNum w => Some w
    | _ => None
    end.

(** The cell of the next generation on the tensor engine, for a
    Birth/Survival rule. *)
Definition tf_next_standard (birth survival : list Z) (sx sy sz : nat) (g : grid)
    (x y z : Z) : Z :=
  let n := padded_sum sx sy sz g x y z in
  if decide (1 <= cell g x y z)
  then (if decide (n ∈ survival) then 1 else 0)
  else (if decide (n ∈ birth) then 1 else 0).

(** The cell of the next generation on the tensor engine, for the special
    rule: every cell whose value is at least 1 becomes 2. *)
Definition tf_next_special (sx sy sz : nat) (g : grid) (x y z : Z) : Z :=
  if decide (1 <= cell g x y z) then 2
  else if decide (padded_sum sx sy sz g x y z = 2) then 1 else 0.

(** Every cell is 0 or 1. *)
Definition binary (sx sy sz : nat) (g : grid) : Prop :=
  forall x y z, in_grid sx sy sz x y z -> cell g x y z = 0 \/ cell g x y z = 1.

(** Every cell is one of the states 0, 1 and 2: numbers that the tensors
    and the textures hold exactly, as they do their sums over 26
    neighbours. *)
Definition states (sx sy sz : nat) (g : grid) : Prop :=
  forall x y z, in_grid sx sy sz x y z ->
    cell g x y z = 0 \/ cell g x y z = 1 \/ cell g x y z = 2.

(** The cells with all their 26 neighbours inside the grid. *)
Definition interior (sx sy sz : nat) (x y z : Z) : Prop :=
  1 <= x <= Z.of_nat sx - 2 /\ 1 <= y <= Z.of_nat sy - 2 /\ 1 <= z <= Z.of_nat sz - 2.

(** The pixel the texture engine's pass writes for cell (x,y,z): the
    fragment shader the rule selects, run on the uploaded image with the
    uniforms of the rule. *)
Definition gpu_pixel (round_half_up : bool) (ruleName : string) (image : list Z)
    (sx sy sz : Z) (x y z : Z) : list Z :=
  if bool_decide (ruleName = "briansbrain3d"%string) then
    GPU.state_pixel round_half_up
      (GPU.briansBrainFragmentShader image sx sy sz x y z)
  else if bool_decide (ruleName = "checkerboard"%string) then
    GPU.copy_pixel image sx sy sz x y z
  else
    GPU.state_pixel round_half_up
      (GPU.standardFragmentShader
         (default [] (match GPU.rule_uniform (rule_birth (lookup_rule ruleName)) with
                      | Ok l => Some l | Throw _ => None end))
         (default [] (match GPU.rule_uniform (rule_survival (lookup_rule ruleName)) with
                      | Ok l => Some l | Throw _ => None end))
         image sx sy sz x y z).

(** The cells whose byte the upload computes exactly: the product
    [255 * v] is a double, exact up to 2^53. *)
Definition exact_bytes (sx sy sz : nat) (g : grid) : Prop :=
  forall x y z, in_grid sx sy sz x y z ->
    Z.abs (cell g x y z * 255) <= 9007199254740992.

(** The engine state is carried from one generation to the next. *)
Fixpoint gpu_generations (round_half_up : bool) (n : nat) (ruleName : string)
    (st : option GPU.instance) (g : jsval) : result (jsval * option GPU.instance) :=
  match n with
  | O => Ok (g, st)
  | S n' =>
      let* '(g', st') :=
        GPU.calculateNextGeneration3DGPU round_half_up st g (Some ruleName) in
      gpu_generations round_half_up n' ruleName st' g'
  end.

(** A generation of numbers. *)
Definition cells (gen : list Z) : jsval := JArr (JNum <$> gen).

(** The elementary cellular automaton of Wolfram's numbering: the new cell
    is the bit of the rule number at the position the three cells spell,
    left cell first, on a ring. *)
Definition wolfram_step (rule : Z) (gen : list Z) : list Z :=
  let len := Z.of_nat (length gen) in
  (fun i =>
     let l := default 0 (gen !! Z.to_nat ((i - 1) mod len)) in
     let c := default 0 (gen !! Z.to_nat i) in
     let r := default 0 (gen !! Z.to_nat ((i + 1) mod len)) in
     Z.b2z (Z.testbit rule (4 * l + 2 * c + r))) <$> seqZ 0 len.

(** The rule numbers [decimalToBinaryArray] rejects. *)
Definition rejected_rule (ruleNumber : jsval) : Prop :=
  match ruleNumber with
  | JNum r => r < 0 \/ 255 < r
  | JNaN => False
  | JUndefined | JNull | JArr _ => True
  end.

(** A two-dimensional grid of numbers, indexed [m[r][c]]. *)
Abbreviation grid2 := (list (list Z)).

Definition js_of_grid2 (m : grid2) : jsval :=
  JArr ((fun row => JArr (JNum <$> row)) <$> m).

(** The value at [m[r][c]], 0 outside the grid. *)
Definition cell2 (m : grid2) (r c : Z) : Z :=
  match m !! Z.to_nat r with
  | Some row => default 0 (row !! Z.to_nat c)
  | None => 0
  end.

Definition rect2 (nr nc : nat) (m : grid2) : Prop :=
  length m = nr /\ Forall (fun row => length row = nc) m.

Definition in_grid2 (nr nc : nat) (r c : Z) : Prop :=
  0 <= r < Z.of_nat nr /\ 0 <= c < Z.of_nat nc.

Definition upd2 (m : grid2) (r c : Z) (v : Z) : grid2 :=
  alter (<[Z.to_nat c := v]>) (Z.to_nat r) m.

Definition zero_grid2 (nr nc : nat) : grid2 := replicate nr (replicate nc 0).

(** The 8 offsets of the Moore neighbourhood. *)
Definition neighbour_offsets2 : list (Z * Z) :=
  filter (fun d => d <> (0, 0)) (i ← offsets; j ← offsets; [(i, j)]).

(** The number of the 8 neighbours, each axis taken modulo its size, whose
    value is exactly 1. *)
Definition wrapped_live_count2 (m : grid2) (nr nc : nat) (r c : Z) : Z :=
  Z.of_nat (length (filter
    (fun '(i, j) => cell2 m ((r + i) mod Z.of_nat nr) ((c + j) mod Z.of_nat nc) = 1)
    neighbour_offsets2)).

Definition before2 (r0 c0 r c : Z) : Prop := r < r0 \/ (r = r0 /\ c < c0).

Definition filled2 (nr nc : nat) (v : Z -> Z -> Z) (r0 c0 : Z) (s : jsval) : Prop :=
  exists G : grid2, s = js_of_grid2 G /\ rect2 nr nc G /\
    forall r c, in_grid2 nr nc r c ->
      (before2 r0 c0 r c -> cell2 G r c = v r c) /\
      (~ before2 r0 c0 r c -> cell2 G r c = 0).

(** The cell the two-dimensional step writes at (r,c). *)
Definition next2 (ruleName : string) (m : grid2) (nr nc : nat) (r c : Z) : Z :=
  let n := wrapped_live_count2 m nr nc r c in
  if decide (ruleName = "briansbrain"%string) then
    if decide (cell2 m r c = 0) then (if decide (n = 2) then 1 else 0)
    else if decide (cell2 m r c = 1) then 2 else 0
  else
    if decide (cell2 m r c = 1)
    then (if decide (n ∈ default [] (rule_survival (D2.lookup_rule ruleName)))
          then 1 else 0)
    else (if decide (n ∈ default [] (rule_birth (D2.lookup_rule ruleName)))
          then 1 else 0).

(** A 1x2x2 grid with three live cells. *)
Definition three_of_four : grid := [[[1; 0]; [1; 1]]].

(** A glider on a 5x5 grid. *)
Definition glider5 : grid2 :=
  [ [0; 0; 0; 0; 0];
    [0; 0; 1; 0; 0];
    [0; 0; 0; 1; 0];
    [0; 1; 1; 1; 0];
    [0; 0; 0; 0; 0] ].

(** * Properties *)

(** ** The result monad and loops *)

Lemma for_each_app {St} (xs ys : list Z) (body : Z -> St -> result St) s :
  for_each (xs ++ ys) body s =
  let* s' := for_each xs body s in for_each ys body s'.
Proof.
  revert s. induction xs as [|x xs IH]; intros s; simpl; [done|].
  destruct (body x s); simpl; [apply IH | done].
Qed.

(** A counting loop maintains an invariant indexed by the loop variable. *)
Lemma for_each_upto_inv {St} (I : Z -> St -> Prop) (n : nat)
    (body : Z -> St -> result St) s0 :
  I 0 s0 ->
  (forall i s, 0 <= i < Z.of_nat n -> I i s ->
     exists s', body i s = Ok s' /\ I (i + 1) s') ->
  exists s', for_each (upto (Some (Z.of_nat n))) body s0 = Ok s' /\ I (Z.of_nat n) s'.
Proof.
  intros H0 Hstep. unfold upto.
  induction n as [|n IH].
  - exists s0. split; [done|]. exact H0.
  - destruct IH as (s1 & Hrun & HI).
    { intros i s Hi. apply Hstep. lia. }
    destruct (Hstep (Z.of_nat n) s1) as (s2 & Hb & HI2); [lia | done |].
    exists s2. rewrite seqZ_S, for_each_app, Hrun. simpl.
    rewrite Z.add_0_l, Hb. simpl. split; [done|].
    replace (Z.of_nat (S n)) with (Z.of_nat n + 1) by lia. done.
Qed.

(** Three nested counting loops, with an invariant indexed by the position
    in the traversal. *)
Lemma loop_nest_inv {St} (I : Z -> Z -> Z -> St -> Prop) (nx ny nz : nat)
    (body : Z -> Z -> Z -> St -> result St) s0 :
  I 0 0 0 s0 ->
  (forall x y z s, in_grid nx ny nz x y z -> I x y z s ->
     exists s', body x y z s = Ok s' /\ I x y (z + 1) s') ->
  (forall x y s, I x y (Z.of_nat nz) s -> I x (y + 1) 0 s) ->
  (forall x s, I x (Z.of_nat ny) 0 s -> I (x + 1) 0 0 s) ->
  exists s',
    for_each (upto (Some (Z.of_nat nx))) (fun x s =>
      for_each (upto (Some (Z.of_nat ny))) (fun y s =>
        for_each (upto (Some (Z.of_nat nz))) (fun z s => body x y z s) s) s) s0
    = Ok s' /\ I (Z.of_nat nx) 0 0 s'.
Proof.
  intros H0 Hstep Hz Hy.
  apply (for_each_upto_inv (fun x s => I x 0 0 s)); [done|].
  intros x s Hx HI.
  destruct (for_each_upto_inv (fun y s => I x y 0 s) ny
              (fun y s => for_each (upto (Some (Z.of_nat nz)))
                            (fun z s => body x y z s) s) s) as (s' & Hrun & HI');
    [done| |].
  - intros y s1 Hy1 HI1.
    destruct (for_each_upto_inv (fun z s => I x y z s) nz
                (fun z s => body x y z s) s1) as (s2 & Hrun2 & HI2); [done| |].
    + intros z s2 Hz2 HI2. apply Hstep; [|done]. by repeat split; lia.
    + exists s2. split; [done|]. by apply Hz.
  - exists s'. split; [done|]. by apply Hy.
Qed.

(** ** Reading and writing well-formed grids *)

Lemma rect_lookup sx sy sz (g : grid) x y z :
  rect sx sy sz g -> in_grid sx sy sz x y z ->
  exists row col,
    g !! Z.to_nat x = Some row /\ length row = sy /\
    Forall (fun col => length col = sz) row /\
    row !! Z.to_nat y = Some col /\ length col = sz /\
    col !! Z.to_nat z = Some (cell g x y z).
Proof.
  intros [Hlen Hrows] (Hx & Hy & Hz).
  assert (Z.to_nat x < length g)%nat as Hlx by lia.
  apply lookup_lt_is_Some_2 in Hlx as [row Hrow].
  pose proof (proj1 (Forall_lookup _ _) Hrows _ _ Hrow) as [Hlr Hcols].
  assert (Z.to_nat y < length row)%nat as Hly by lia.
  apply lookup_lt_is_Some_2 in Hly as [col Hcol].
  pose proof (proj1 (Forall_lookup _ _) Hcols _ _ Hcol) as Hlc.
  simpl in Hlc.
  assert (Z.to_nat z < length col)%nat as Hlz by lia.
  apply lookup_lt_is_Some_2 in Hlz as [v Hv].
  exists row, col. unfold cell. rewrite Hrow, Hcol, Hv. done.
Qed.

Lemma get3_grid sx sy sz (g : grid) x y z :
  rect sx sy sz g -> in_grid sx sy sz x y z ->
  get3 (js_of_grid g) (Some x) (Some y) (Some z) = Ok (JNum (cell g x y z)).
Proof.
  intros Hr Hin.
  destruct (rect_lookup _ _ _ _ _ _ _ Hr Hin)
    as (row & col & Hrow & _ & _ & Hcol & _ & Hv).
  destruct Hin as (Hx & Hy & Hz).
  unfold get3, js_of_grid. simpl.
  destruct (Z.ltb_spec x 0); [lia|].
  rewrite list_lookup_fmap, Hrow. simpl.
  destruct (Z.ltb_spec y 0); [lia|].
  rewrite list_lookup_fmap, Hcol. simpl.
  destruct (Z.ltb_spec z 0); [lia|].
  rewrite list_lookup_fmap, Hv. done.
Qed.

Lemma set3_grid sx sy sz (g : grid) x y z v :
  rect sx sy sz g -> in_grid sx sy sz x y z ->
  set3 (js_of_grid g) (Some x) (Some y) (Some z) (JNum v)
  = Ok (js_of_grid (upd3 g x y z v)).
Proof.
  intros Hr Hin.
  destruct (rect_lookup _ _ _ _ _ _ _ Hr Hin)
    as (row & col & Hrow & Hlr & _ & Hcol & Hlc & _).
  destruct Hin as (Hx & Hy & Hz).
  pose proof (lookup_lt_Some _ _ _ Hrow) as Hltx.
  pose proof (lookup_lt_Some _ _ _ Hcol) as Hlty.
  unfold set3, js_of_grid, upd3. simpl.
  destruct (Z.ltb_spec x 0); [lia|].
  rewrite list_lookup_fmap, Hrow. simpl.
  destruct (Z.ltb_spec y 0); [lia|].
  rewrite list_lookup_fmap, Hcol. simpl.
  destruct (Z.ltb_spec z 0); [lia|].
  rewrite length_fmap.
  destruct (Nat.ltb_spec (Z.to_nat z) (length col)); [|lia].
  simpl. f_equal. f_equal.
  apply list_eq. intros i.
  rewrite list_lookup_fmap.
  destruct (decide (i = Z.to_nat x)) as [->|Hne].
  - rewrite list_lookup_insert_eq by (rewrite length_fmap; lia).
    rewrite list_lookup_alter_eq, Hrow. simpl. f_equal. f_equal.
    apply list_eq. intros j.
    rewrite list_lookup_fmap.
    destruct (decide (j = Z.to_nat y)) as [->|Hne].
    + rewrite list_lookup_insert_eq by (rewrite length_fmap; lia).
      rewrite list_lookup_alter_eq, Hcol. simpl.
      by rewrite list_fmap_insert.
    + rewrite list_lookup_insert_ne, list_lookup_alter_ne by done.
      by rewrite list_lookup_fmap.
  - rewrite list_lookup_insert_ne, list_lookup_alter_ne by done.
    by rewrite list_lookup_fmap.
Qed.

Lemma rect_upd3 sx sy sz (g : grid) x y z v :
  rect sx sy sz g -> rect sx sy sz (upd3 g x y z v).
Proof.
  intros [Hlen Hrows]. unfold upd3. split; [by rewrite length_alter|].
  apply Forall_lookup. intros i row Hi.
  destruct (decide (i = Z.to_nat x)) as [->|Hne].
  - rewrite list_lookup_alter_eq in Hi.
    destruct (g !! Z.to_nat x) as [row0|] eqn:Hrow0; simplify_eq/=.
    pose proof (proj1 (Forall_lookup _ _) Hrows _ _ Hrow0) as [Hlr Hcols].
    split; [by rewrite length_alter|].
    apply Forall_lookup. intros j col Hj.
    destruct (decide (j = Z.to_nat y)) as [->|Hne].
    + rewrite list_lookup_alter_eq in Hj.
      destruct (row0 !! Z.to_nat y) as [col0|] eqn:Hcol0; simplify_eq/=.
      rewrite length_insert.
      exact (proj1 (Forall_lookup _ _) Hcols _ _ Hcol0).
    + rewrite list_lookup_alter_ne in Hj by done.
      exact (proj1 (Forall_lookup _ _) Hcols _ _ Hj).
  - rewrite list_lookup_alter_ne in Hi by done.
    exact (proj1 (Forall_lookup _ _) Hrows _ _ Hi).
Qed.

Lemma cell_upd3_eq sx sy sz (g : grid) x y z v :
  rect sx sy sz g -> in_grid sx sy sz x y z ->
  cell (upd3 g x y z v) x y z = v.
Proof.
  intros Hr Hin.
  destruct (rect_lookup _ _ _ _ _ _ _ Hr Hin)
    as (row & col & Hrow & Hlr & _ & Hcol & Hlc & _).
  destruct Hin as (Hx & Hy & Hz).
  unfold cell, upd3.
  rewrite list_lookup_alter_eq, Hrow. simpl.
  rewrite list_lookup_alter_eq, Hcol. simpl.
  rewrite list_lookup_insert_eq by lia. done.
Qed.

Lemma cell_upd3_ne (g : grid) x y z v x' y' z' :
  0 <= x -> 0 <= y -> 0 <= z -> 0 <= x' -> 0 <= y' -> 0 <= z' ->
  (x', y', z') <> (x, y, z) ->
  cell (upd3 g x y z v) x' y' z' = cell g x' y' z'.
Proof.
  intros Hx Hy Hz Hx' Hy' Hz' Hne. unfold cell, upd3.
  destruct (decide (Z.to_nat x = Z.to_nat x')) as [Ex|Ex];
    [|by rewrite list_lookup_alter_ne].
  rewrite <- Ex, list_lookup_alter_eq.
  destruct (g !! Z.to_nat x) as [row|]; simpl; [|done].
  destruct (decide (Z.to_nat y = Z.to_nat y')) as [Ey|Ey];
    [|by rewrite list_lookup_alter_ne].
  rewrite <- Ey, list_lookup_alter_eq.
  destruct (row !! Z.to_nat y) as [col|]; simpl; [|done].
  rewrite list_lookup_insert_ne; [done|].
  intros Ez. apply Hne. f_equal; [f_equal|]; lia.
Qed.

(** Two grids of the same dimensions with the same cells are the same. *)
Lemma rect_ext sx sy sz (g1 g2 : grid) :
  rect sx sy sz g1 -> rect sx sy sz g2 ->
  (forall x y z, in_grid sx sy sz x y z -> cell g1 x y z = cell g2 x y z) ->
  g1 = g2.
Proof.
  intros [Hl1 Hr1] [Hl2 Hr2] Hcells.
  apply list_eq. intros i.
  destruct (decide (i < sx)%nat) as [Hi|Hi];
    [|rewrite !lookup_ge_None_2 by lia; done].
  destruct (lookup_lt_is_Some_2 g1 i) as [r1 E1]; [lia|].
  destruct (lookup_lt_is_Some_2 g2 i) as [r2 E2]; [lia|].
  rewrite E1, E2. f_equal.
  pose proof (proj1 (Forall_lookup _ _) Hr1 _ _ E1) as [Hlr1 Hc1].
  pose proof (proj1 (Forall_lookup _ _) Hr2 _ _ E2) as [Hlr2 Hc2].
  apply list_eq. intros j.
  destruct (decide (j < sy)%nat) as [Hj|Hj];
    [|rewrite !lookup_ge_None_2 by lia; done].
  destruct (lookup_lt_is_Some_2 r1 j) as [c1 F1]; [lia|].
  destruct (lookup_lt_is_Some_2 r2 j) as [c2 F2]; [lia|].
  rewrite F1, F2. f_equal.
  pose proof (proj1 (Forall_lookup _ _) Hc1 _ _ F1) as Hlc1.
  pose proof (proj1 (Forall_lookup _ _) Hc2 _ _ F2) as Hlc2.
  simpl in Hlc1, Hlc2.
  apply list_eq. intros k.
  destruct (decide (k < sz)%nat) as [Hk|Hk];
    [|rewrite !lookup_ge_None_2 by lia; done].
  destruct (lookup_lt_is_Some_2 c1 k) as [v1 G1]; [lia|].
  destruct (lookup_lt_is_Some_2 c2 k) as [v2 G2]; [lia|].
  rewrite G1, G2. f_equal.
  specialize (Hcells (Z.of_nat i) (Z.of_nat j) (Z.of_nat k)).
  unfold cell in Hcells. rewrite !Nat2Z.id in Hcells.
  rewrite E1, E2, F1, F2, G1, G2 in Hcells. simpl in Hcells.
  apply Hcells. unfold in_grid. lia.
Qed.

Lemma sizes_grid sx sy sz (g : grid) :
  rect sx sy sz g -> (0 < sx)%nat -> (0 < sy)%nat ->
  CPU.sizes (js_of_grid g)
  = Ok (Some (Z.of_nat sx), Some (Z.of_nat sy), Some (Z.of_nat sz)).
Proof.
  intros Hr Hx Hy.
  destruct g as [|row g']; [destruct Hr; simpl in *; lia|].
  destruct Hr as [Hl Hrows]. inversion Hrows as [|? ? [Hlr Hcols] _]; subst.
  destruct row as [|col row']; [simpl in *; lia|].
  inversion Hcols; subst.
  unfold CPU.sizes. simpl. rewrite !length_fmap. done.
Qed.

Lemma createEmpty3DGrid_grid (sx sy sz : nat) :
  (0 < sx)%nat -> (0 < sy)%nat ->
  CPU.createEmpty3DGrid (Some (Z.of_nat sx)) (Some (Z.of_nat sy)) (Some (Z.of_nat sz))
  = Ok (js_of_grid (zero_grid sx sy sz)).
Proof.
  intros Hx Hy. unfold CPU.createEmpty3DGrid, js_Array. 
  destruct (Z.ltb_spec (Z.of_nat sx) 0); [lia|].
  destruct (Z.ltb_spec (Z.of_nat sy) 0); [lia|].
  destruct (Z.ltb_spec (Z.of_nat sz) 0); [lia|].
  simpl. rewrite !Nat2Z.id.
  destruct (Nat.eqb_spec sx 0); [lia|].
  destruct (Nat.eqb_spec sy 0); [lia|].
  unfold js_of_grid, zero_grid. by rewrite !fmap_replicate.
Qed.

Lemma rect_zero_grid sx sy sz : rect sx sy sz (zero_grid sx sy sz).
Proof.
  unfold zero_grid. split; [by rewrite length_replicate|].
  apply Forall_replicate. split; [by rewrite length_replicate|].
  apply Forall_replicate. by rewrite length_replicate.
Qed.

Lemma cell_zero_grid sx sy sz x y z : cell (zero_grid sx sy sz) x y z = 0.
Proof.
  unfold cell, zero_grid.
  destruct (replicate sx _ !! Z.to_nat x) as [row|] eqn:E; [|done].
  apply lookup_replicate in E as [-> _].
  destruct (replicate sy _ !! Z.to_nat y) as [col|] eqn:F; [|done].
  apply lookup_replicate in F as [-> _].
  destruct (replicate sz _ !! Z.to_nat z) as [v|] eqn:G; [|done].
  by apply lookup_replicate in G as [-> _].
Qed.

(** ** Filling a fresh grid cell by cell *)

(** A loop nest whose body writes [v x y z] at (x,y,z), or leaves the
    fresh 0 there when [v x y z = 0], builds the grid of the values [v]. *)
Lemma fill_nest (sx sy sz : nat) (v : Z -> Z -> Z -> Z)
    (body : Z -> Z -> Z -> jsval -> result jsval) :
  (forall x y z (G : grid), in_grid sx sy sz x y z -> rect sx sy sz G ->
     cell G x y z = 0 ->
     body x y z (js_of_grid G) = Ok (js_of_grid (upd3 G x y z (v x y z)))) ->
  exists G' : grid,
    for_each (upto (Some (Z.of_nat sx))) (fun x s =>
      for_each (upto (Some (Z.of_nat sy))) (fun y s =>
        for_each (upto (Some (Z.of_nat sz))) (fun z s => body x y z s) s) s)
      (js_of_grid (zero_grid sx sy sz))
    = Ok (js_of_grid G') /\ rect sx sy sz G' /\
    forall x y z, in_grid sx sy sz x y z -> cell G' x y z = v x y z.
Proof.
  intros Hbody.
  destruct (loop_nest_inv (filled sx sy sz v) sx sy sz body
              (js_of_grid (zero_grid sx sy sz))) as (s & Hrun & HI).
  - exists (zero_grid sx sy sz). split; [done|]. split; [apply rect_zero_grid|].
    intros x y z (Hx & Hy & Hz). split.
    + unfold before. lia.
    + intros _. apply cell_zero_grid.
  - intros x y z s Hin (G & -> & Hr & Hcells).
    assert (cell G x y z = 0) as H0.
    { apply (Hcells x y z Hin). unfold before. lia. }
    exists (js_of_grid (upd3 G x y z (v x y z))).
    split; [by apply Hbody|].
    exists (upd3 G x y z (v x y z)). split; [done|].
    split; [by apply rect_upd3|].
    intros x' y' z' Hin'.
    destruct (decide ((x', y', z') = (x, y, z))) as [E|E].
    + simplify_eq. rewrite (cell_upd3_eq sx sy sz) by done.
      split; [done|]. unfold before. lia.
    + destruct Hin as (?&?&?), Hin' as (?&?&?).
      rewrite cell_upd3_ne by (done || lia).
      assert (before x y (z + 1) x' y' z' <-> before x y z x' y' z') as ->.
      { unfold before. split; intros Hb; [|lia].
        destruct (decide (x' = x)); [|lia].
        destruct (decide (y' = y)); [|lia].
        destruct (decide (z' = z)); [|lia]. subst. done. }
      apply Hcells. unfold in_grid. lia.
  - intros x y s (G & -> & Hr & Hcells). exists G. split; [done|]. split; [done|].
    intros x' y' z' Hin'.
    assert (before x (y + 1) 0 x' y' z' <-> before x y (Z.of_nat sz) x' y' z') as ->.
    { destruct Hin' as (?&?&?). unfold before. lia. }
    by apply Hcells.
  - intros x s (G & -> & Hr & Hcells). exists G. split; [done|]. split; [done|].
    intros x' y' z' Hin'.
    assert (before (x + 1) 0 0 x' y' z' <-> before x (Z.of_nat sy) 0 x' y' z') as ->.
    { destruct Hin' as (?&?&?). unfold before. lia. }
    by apply Hcells.
  - destruct HI as (G & -> & Hr & Hcells).
    exists G. split; [done|]. split; [done|].
    intros x y z Hin. apply (Hcells x y z Hin).
    destruct Hin as (?&?&?). unfold before. lia.
Qed.

(** ** The neighbour count of the CPU engine *)

Lemma for_each_sum (xs : list Z) (f : Z -> Z) (body : Z -> Z -> result Z) c :
  (forall i count, i ∈ xs -> body i count = Ok (count + f i)) ->
  for_each xs body c = Ok (c + sumZ (f <$> xs)).
Proof.
  revert c. induction xs as [|x xs IH]; intros c Hbody; simpl.
  - f_equal. lia.
  - rewrite Hbody by (apply elem_of_cons; by left). simpl.
    rewrite IH by (intros; apply Hbody, elem_of_cons; by right).
    f_equal. unfold sumZ. symmetry. apply Z.add_assoc.
Qed.

Lemma length_filter_sum {A} (P : A -> Prop) `{!forall a, Decision (P a)} (l : list A) :
  Z.of_nat (length (filter P l)) = sumZ ((fun a => if decide (P a) then 1 else 0) <$> l).
Proof.
  induction l as [|a l IH]; [done|].
  rewrite filter_cons. change (sumZ (_ <$> a :: l)) with
    ((if decide (P a) then 1 else 0) +
     sumZ ((fun a => if decide (P a) then 1 else 0) <$> l)).
  destruct (decide (P a)); simpl length; lia.
Qed.

Lemma neighbour_offsets_eq :
  neighbour_offsets =
  [ (-1, -1, -1); (-1, -1, 0); (-1, -1, 1); (-1, 0, -1); (-1, 0, 0); (-1, 0, 1);
    (-1, 1, -1); (-1, 1, 0); (-1, 1, 1);
    (0, -1, -1); (0, -1, 0); (0, -1, 1); (0, 0, -1); (0, 0, 1);
    (0, 1, -1); (0, 1, 0); (0, 1, 1);
    (1, -1, -1); (1, -1, 0); (1, -1, 1); (1, 0, -1); (1, 0, 0); (1, 0, 1);
    (1, 1, -1); (1, 1, 0); (1, 1, 1) ].
Proof. reflexivity. Qed.

Lemma elem_of_offsets d : d ∈ offsets <-> d = -1 \/ d = 0 \/ d = 1.
Proof. unfold offsets. rewrite !elem_of_cons, elem_of_nil. tauto. Qed.

(** On a coordinate inside the grid, the truncated remainder of the code
    is the mathematical modulo. *)
Lemma wrap_mod (c d : Z) (s : nat) :
  0 <= c < Z.of_nat s -> d ∈ offsets ->
  wrap c d (Some (Z.of_nat s)) = Some ((c + d) mod Z.of_nat s)
  /\ 0 <= (c + d) mod Z.of_nat s < Z.of_nat s.
Proof.
  intros Hc Hd. unfold wrap.
  assert (-1 <= d <= 1) as Hd' by (apply elem_of_offsets in Hd; lia).
  destruct (Z.eqb_spec (Z.of_nat s) 0); [lia|].
  split; [|apply Z.mod_pos_bound; lia].
  f_equal. rewrite Z.rem_mod_nonneg by lia.
  replace (c + d + Z.of_nat s) with (c + d + 1 * Z.of_nat s) by lia.
  apply Z_mod_plus_full.
Qed.

Lemma strict_eq_num_decide (m n : Z) {A} (a b : A) :
  (if strict_eq_num (JNum m) n then a else b) = if decide (m = n) then a else b.
Proof.
  simpl. destruct (Z.eqb_spec m n), (decide (m = n)); done.
Qed.

(** The loop nest of the code counts exactly the wrapped live neighbours. *)
Lemma count_neighbours_grid sx sy sz (g : grid) x y z :
  rect sx sy sz g -> in_grid sx sy sz x y z ->
  CPU.count_neighbours (js_of_grid g)
    (Some (Z.of_nat sx)) (Some (Z.of_nat sy)) (Some (Z.of_nat sz)) x y z
  = Ok (wrapped_live_count g sx sy sz x y z).
Proof.
  intros Hr (Hx & Hy & Hz). unfold CPU.count_neighbours.
  rewrite (for_each_sum offsets (fun dx =>
    sumZ ((fun dy => sumZ (live_indicator g sx sy sz x y z dx dy <$> offsets))
          <$> offsets))).
  - f_equal. unfold wrapped_live_count.
    rewrite (length_filter_sum _ neighbour_offsets), neighbour_offsets_eq.
    unfold offsets, live_indicator, sumZ. simpl. lia.
  - intros dx c1 Hdx.
    apply (for_each_sum offsets (fun dy =>
      sumZ (live_indicator g sx sy sz x y z dx dy <$> offsets))).
    intros dy c2 Hdy.
    apply (for_each_sum offsets (live_indicator g sx sy sz x y z dx dy)).
    intros dz c3 Hdz. unfold live_indicator.
    destruct (decide ((dx, dy, dz) = (0, 0, 0))) as [E|E].
    + simplify_eq. simpl. f_equal. lia.
    + assert ((dx =? 0) && (dy =? 0) && (dz =? 0) = false) as ->.
      { apply not_true_is_false. intros Hc.
        apply andb_prop in Hc as [Hc ?]. apply andb_prop in Hc as [? ?].
        apply E. f_equal; [f_equal|]; lia. }
      destruct (wrap_mod x dx sx Hx Hdx) as [-> ?].
      destruct (wrap_mod y dy sy Hy Hdy) as [-> ?].
      destruct (wrap_mod z dz sz Hz Hdz) as [-> ?].
      rewrite (get3_grid sx sy sz) by done. cbn [bind].
      rewrite strict_eq_num_decide.
      destruct (decide _); f_equal; lia.
Qed.

(** ** The CPU engine on well-formed grids *)

Lemma invalid_grid_grid sx sy sz (g : grid) :
  rect sx sy sz g -> (0 < sx)%nat -> (0 < sy)%nat -> (0 < sz)%nat ->
  CPU.invalid_grid (js_of_grid g) = Ok false.
Proof.
  intros Hr Hx Hy Hz.
  destruct g as [|row g']; [destruct Hr; simpl in *; lia|].
  destruct Hr as [Hl Hrows]. inversion Hrows as [|? ? [Hlr Hcols] _]; subst.
  destruct row as [|col row']; [simpl in *; lia|].
  inversion Hcols; subst.
  destruct col as [|v col']; [simpl in *; lia|].
  done.
Qed.

Lemma lookup_special : RULE_DEFINITIONS !! "briansbrain3d"%string = Some (RuleType "special").
Proof. reflexivity. Qed.

Lemma lookup_static : RULE_DEFINITIONS !! "checkerboard"%string = Some (RuleType "static").
Proof. reflexivity. Qed.


Lemma existsb_elem_of (n : Z) (l : list Z) : existsb (Z.eqb n) l = bool_decide (n ∈ l).
Proof.
  induction l as [|a l IH]; simpl; [done|].
  rewrite IH. destruct (Z.eqb_spec n a) as [->|Hne]; simpl.
  - symmetry. apply bool_decide_eq_true, elem_of_cons. by left.
  - apply bool_decide_ext. rewrite elem_of_cons.
    split; [by right | by intros [?|?]].
Qed.

(** The standard branch of the CPU step, for a rule of the table or the
    fallback: every cell is decided by its own value and its wrapped count. *)
Lemma cpu_standard_step sx sy sz (g : grid) ruleName birth survival :
  rect sx sy sz g -> (0 < sx)%nat -> (0 < sy)%nat -> (0 < sz)%nat ->
  ruleName <> "briansbrain3d"%string -> ruleName <> "checkerboard"%string ->
  lookup_rule ruleName = RuleBS birth survival ->
  exists g' : grid,
    CPU.calculateNextGeneration3D (js_of_grid g) (Some ruleName) = Ok (js_of_grid g')
    /\ rect sx sy sz g'
    /\ forall x y z, in_grid sx sy sz x y z ->
         cell g' x y z =
         let n := wrapped_live_count g sx sy sz x y z in
         if decide (cell g x y z = 1)
         then (if decide (n ∈ survival) then 1 else 0)
         else (if decide (n ∈ birth) then 1 else 0).
Proof.
  intros Hr Hx Hy Hz Hbb Hst Hrule. unfold CPU.calculateNextGeneration3D.
  rewrite (invalid_grid_grid sx sy sz) by done. simpl.
  rewrite !bool_decide_eq_false_2 by done.
  rewrite Hrule. simpl.
  rewrite (sizes_grid sx sy sz) by done. simpl.
  rewrite createEmpty3DGrid_grid by done. simpl.
  apply fill_nest. intros x y z G Hin HG _.
  unfold CPU.countLiveNeighbors3D.
  rewrite (sizes_grid sx sy sz) by done. simpl.
  rewrite count_neighbours_grid by done. simpl.
  rewrite (get3_grid sx sy sz) by done. simpl.
  rewrite !existsb_elem_of.
  destruct (Z.eqb_spec (cell g x y z) 1) as [E|E].
  - rewrite decide_True by done. simpl.
    rewrite (set3_grid sx sy sz) by done. do 3 f_equal.
    unfold bool_decide. by destruct (decide_rel _ _ _).
  - rewrite decide_False by done. simpl.
    rewrite (set3_grid sx sy sz) by done. do 3 f_equal.
    unfold bool_decide. by destruct (decide_rel _ _ _).
Qed.

Lemma bs_rule_not_special ruleName birth survival :
  RULE_DEFINITIONS !! ruleName = Some (RuleBS birth survival) ->
  ruleName <> "briansbrain3d"%string /\ ruleName <> "checkerboard"%string
  /\ lookup_rule ruleName = RuleBS birth survival.
Proof.
  intros Hl. split; [|split].
  - intros ->. by rewrite lookup_special in Hl.
  - intros ->. by rewrite lookup_static in Hl.
  - unfold lookup_rule. by rewrite Hl.
Qed.

Lemma countLiveNeighbors3D_grid sx sy sz (g : grid) x y z :
  rect sx sy sz g -> in_grid sx sy sz x y z ->
  CPU.countLiveNeighbors3D (js_of_grid g) x y z
  = Ok (wrapped_live_count g sx sy sz x y z).
Proof.
  intros Hr Hin. unfold CPU.countLiveNeighbors3D.
  destruct Hin as (Hx & Hy & Hz).
  rewrite (sizes_grid sx sy sz) by (done || lia). simpl.
  by apply count_neighbours_grid.
Qed.

(** C1. CPU reference engine, Birth/Survival rules: on every valid grid
    and for every Birth/Survival rule of the table, calculateNextGeneration3D
    returns a grid of the same dimensions in which a cell whose current value
    is 1 is 1 iff its count of wrapped 26-neighbours equal to 1 (the value
    countLiveNeighbors3D returns) is in the survival set, a cell whose current
    value is not 1 is 1 iff that count is in the birth set, and every other
    cell is 0. *)
Theorem C1_cpu_birth_survival_step sx sy sz (g : grid) ruleName birth survival :
  rect sx sy sz g -> (0 < sx)%nat -> (0 < sy)%nat -> (0 < sz)%nat ->
  RULE_DEFINITIONS !! ruleName = Some (RuleBS birth survival) ->
  exists g' : grid,
    CPU.calculateNextGeneration3D (js_of_grid g) (Some ruleName) = Ok (js_of_grid g')
    /\ rect sx sy sz g'
    /\ forall x y z, in_grid sx sy sz x y z ->
         let n := wrapped_live_count g sx sy sz x y z in
         CPU.countLiveNeighbors3D (js_of_grid g) x y z = Ok n
         /\ (cell g x y z = 1 -> (cell g' x y z = 1 <-> n ∈ survival))
         /\ (cell g x y z <> 1 -> (cell g' x y z = 1 <-> n ∈ birth))
         /\ (cell g' x y z = 1 \/ cell g' x y z = 0).
Proof.
  intros Hr Hx Hy Hz Hl.
  destruct (bs_rule_not_special _ _ _ Hl) as (Hbb & Hst & Hrule).
  destruct (cpu_standard_step sx sy sz g ruleName birth survival)
    as (g' & Hrun & Hr' & Hcells); try done.
  exists g'. split; [done|]. split; [done|].
  intros x y z Hin n. split; [by apply countLiveNeighbors3D_grid|].
  rewrite (Hcells x y z Hin). cbv zeta. fold n.
  destruct (decide (cell g x y z = 1)), (decide (n ∈ survival)),
    (decide (n ∈ birth)); repeat split; intros; try done; auto.
Qed.

Lemma C1_cpu_birth_survival_step_witness :
  exists g' : grid,
    CPU.calculateNextGeneration3D (js_of_grid [[[1; 0]; [1; 1]]]) (Some "life3d"%string)
    = Ok (js_of_grid g')
    /\ rect 1 2 2 g'
    /\ forall x y z, in_grid 1 2 2 x y z ->
         let n := wrapped_live_count [[[1; 0]; [1; 1]]] 1 2 2 x y z in
         CPU.countLiveNeighbors3D (js_of_grid [[[1; 0]; [1; 1]]]) x y z = Ok n
         /\ (cell [[[1; 0]; [1; 1]]] x y z = 1 -> (cell g' x y z = 1 <-> n ∈ [5; 6; 7]))
         /\ (cell [[[1; 0]; [1; 1]]] x y z <> 1 -> (cell g' x y z = 1 <-> n ∈ [4; 5]))
         /\ (cell g' x y z = 1 \/ cell g' x y z = 0).
Proof.
  apply (C1_cpu_birth_survival_step 1 2 2 [[[1; 0]; [1; 1]]] "life3d" [4; 5] [5; 6; 7]).
  - split; [reflexivity|]. repeat constructor.
  - lia.
  - lia.
  - lia.
  - reflexivity.
Defined.

(** ** Invalid grids *)

(** C8, as stated, fails: the guard only looks at [grid[0]] and
    [grid[0][0]], so a ragged grid passes it and the step throws a
    TypeError when a neighbour lookup reaches the missing column. *)
Lemma C8_ragged_grid_throws :
  CPU.calculateNextGeneration3D ragged_grid (Some "conway3d"%string) = Throw TypeError
  /\ CPU.calculateNextGeneration3D ragged_grid (Some "conway3d"%string) <> Ok minimal_grid.
Proof. split; [reflexivity | discriminate]. Qed.

(** C8, amended. For [null], [undefined], the empty outer array, a first
    row or first cell column that is missing or falsy, and every
    rectangular grid with a zero dimension, calculateNextGeneration3D
    returns the 1x1x1 grid whose cell is 0 and does not throw, for every
    rule identifier. *)
Theorem C8_invalid_grid_minimal (v : jsval) (ruleName : option string) :
  (v = JNull \/ v = JUndefined
   \/ (exists w l, v = JArr (w :: l) /\ truthy w = false)
   \/ (exists w l l', v = JArr (JArr (w :: l) :: l') /\ truthy w = false)
   \/ exists (sx sy sz : nat) (g : grid),
        v = js_of_grid g /\ rect sx sy sz g /\ (sx = 0 \/ sy = 0 \/ sz = 0)%nat) ->
  CPU.calculateNextGeneration3D v ruleName = Ok minimal_grid.
Proof.
  intros [-> | [-> | [(w & l & -> & Hw) | [(w & l & l' & -> & Hw)
                | (sx & sy & sz & g & -> & Hr & Hz)]]]]; [done | done | | |].
  - unfold CPU.calculateNextGeneration3D, CPU.invalid_grid. simpl.
    by rewrite Hw.
  - unfold CPU.calculateNextGeneration3D, CPU.invalid_grid. simpl.
    by rewrite Hw.
  - destruct g as [|row g']; [done|].
    destruct Hr as [Hl Hrows]. inversion Hrows as [|? ? [Hlr Hcols] _]; subst.
    destruct row as [|col row']; [done|].
    inversion Hcols; subst.
    destruct col as [|c col']; [done|].
    simpl in Hz. lia.
Qed.

Lemma C8_invalid_grid_minimal_witness :
  CPU.calculateNextGeneration3D (js_of_grid [[[]; []]]) (Some "life3d"%string)
  = Ok minimal_grid.
Proof.
  apply (C8_invalid_grid_minimal (js_of_grid [[[]; []]]) (Some "life3d"%string)).
  right. right. right. right. exists 1%nat, 2%nat, 0%nat, [[[]; []]].
  split; [reflexivity|]. split.
  - split; [reflexivity|]. repeat constructor.
  - right. right. reflexivity.
Defined.

(** ** Unknown rule identifiers *)



(** When the instance carries the kernel, updating the grid is the same as
    initializing with the rule already set. *)
Lemma tf_updateGrid_initialize (this : TF.instance) (v : jsval) :
  (TF.initialized this = true -> TF.convKernel this = Some TF.createConvolutionKernel) ->
  TF.size this = (Some 0, Some 0, Some 0) \/ TF.initialized this = true ->
  TF.updateGrid this v = TF.initialize this v (TF.currentRule this).
Proof.
  intros Hk _. unfold TF.updateGrid.
  destruct (TF.initialized this) eqn:Hi; simpl; [|done].
  unfold TF.initialize.
  destruct (CPU.sizes v) as [[[sx sy] sz]|]; simpl; [|done].
  case_bool_decide as Hs; [done|].
  rewrite <- Hs, (Hk eq_refl). done.
Qed.

(** The tensor engine's step is the same whether the instance is rebuilt
    or updated. *)
Lemma tf_step_initialize (st : option TF.instance) (v : jsval) (ruleName : string) :
  tf_consistent st ->
  TF.calculateNextGeneration3DTF st v (Some ruleName) =
  let* invalid := CPU.invalid_grid v in
  if invalid then
    let* g := CPU.createEmpty3DGrid (Some 1) (Some 1) (Some 1) in Ok (g, st)
  else
    let* this := TF.initialize (default TF.new_instance st) v ruleName in
    let* '(result, this) := TF.computeNextGeneration this in
    Ok (result, Some this).
Proof.
  intros Hc. unfold TF.calculateNextGeneration3DTF. simpl.
  destruct (CPU.invalid_grid v) as [[|]|]; simpl; [done| |done].
  destruct (CPU.sizes v) as [[[sx sy] sz]|] eqn:Hs; simpl.
  - destruct (negb _ || _ || _) eqn:Hcond; [done|].
    apply orb_false_elim in Hcond as [Hcond Hr].
    apply orb_false_elim in Hcond as [Hi _].
    apply negb_false_iff in Hi.
    apply bool_decide_eq_false, dec_stable in Hr.
    rewrite tf_updateGrid_initialize, Hr; [done| |by right].
    destruct st as [this|]; [apply Hc | done].
  - unfold TF.initialize. by rewrite Hs.
Qed.



Lemma returned_bind_pair {A S} (m : result A) (s1 s2 : S) :
  returned (let* r := m in Ok (r, s1)) = returned (let* r := m in Ok (r, s2)).
Proof. by destruct m. Qed.

Ltac gpu_fields :=
  cbn [bind negb orb GPU.initialized GPU.size GPU.currentRule GPU.currentTexture
       GPU.image GPU.birthValues GPU.survivalValues].

Ltac rule_tests :=
  repeat (gpu_fields;
          match goal with H : bool_decide _ = _ |- _ => rewrite H end);
  gpu_fields.

(** The texture engine's pass depends on the rule name only through the
    shader it selects and the rule it looks up; the uniforms left by an
    earlier call and the texture in turn do not matter. *)
Lemma gpu_compute_rule_ext round b s r1 r2 t1 t2 img b1 s1 b2 s2 :
  bool_decide (r1 = "briansbrain3d"%string) = bool_decide (r2 = "briansbrain3d"%string) ->
  bool_decide (r1 = "checkerboard"%string) = bool_decide (r2 = "checkerboard"%string) ->
  lookup_rule r1 = lookup_rule r2 ->
  returned (GPU.computeNextGeneration round (GPU.Instance b s r1 t1 img b1 s1))
  = returned (GPU.computeNextGeneration round (GPU.Instance b s r2 t2 img b2 s2)).
Proof.
  intros Hbb Hcb Hrule. unfold GPU.computeNextGeneration, GPU.setRule.
  gpu_fields.
  destruct b; gpu_fields; [|reflexivity].
  rewrite Hrule.
  destruct s as [[sx sy] sz].
  destruct (bool_decide (r2 = "briansbrain3d"%string)) eqn:Ebb; rule_tests.
  { destruct (CPU.createEmpty3DGrid _ _ _); gpu_fields; [|reflexivity].
    apply returned_bind_pair. }
  destruct (bool_decide (r2 = "checkerboard"%string)) eqn:Ecb; rule_tests.
  { destruct (CPU.createEmpty3DGrid _ _ _); gpu_fields; [|reflexivity].
    apply returned_bind_pair. }
  destruct (GPU.rule_uniform (rule_birth _)); gpu_fields; [|reflexivity].
  destruct (GPU.rule_uniform (rule_survival _)); gpu_fields; [|reflexivity].
  rule_tests.
  destruct (CPU.createEmpty3DGrid _ _ _); gpu_fields; [|reflexivity].
  apply returned_bind_pair.
Qed.



(** ** The pattern generator *)

(** C10, as stated, fails at its example: with the pattern argument
    omitted the default parameter 'checkerboard' applies, and on 1x1x1 the
    call returns the grid [[[1]]] instead of throwing. *)
Lemma C10_omitted_pattern_returns_grid :
  CPU.createInitial3DGrid (Some 1) (Some 1) (Some 1) None (fun _ => true)
  = Ok (JArr [JArr [JArr [JNum 1]]])
  /\ CPU.createInitial3DGrid (Some 1) (Some 1) (Some 1) None (fun _ => true)
     <> Throw TypeError.
Proof. split; [reflexivity | discriminate]. Qed.

(** C10, amended. createInitial3DGrid is not total on positive dimensions:
    with a pattern argument that names none of the patterns (the composite
    pattern of the last branch) and dimensions 1x1x1, the centred cross
    writes [grid[centerX - 2]] = [grid[-2]] without a bounds check and the
    call throws a TypeError, whatever the random draws; and the 'cross'
    pattern, whose arm length comes from sizeX alone, throws on 4x1x1. *)
Theorem C10_createInitial3DGrid_not_total (pattern : string) (random : nat -> bool) :
  pattern ∉ named_patterns ->
  CPU.createInitial3DGrid (Some 1) (Some 1) (Some 1) (Some pattern) random
  = Throw TypeError
  /\ CPU.createInitial3DGrid (Some 4) (Some 1) (Some 1) (Some "cross"%string) random
     = Throw TypeError.
Proof.
  intros Hp. split; [|reflexivity].
  unfold named_patterns in Hp. rewrite !not_elem_of_cons in Hp.
  destruct Hp as (H1 & H2 & H3 & H4 & H5 & _).
  unfold CPU.createInitial3DGrid. cbn [default from_option id].
  rewrite !(bool_decide_eq_false_2 (pattern = _)) by done.
  reflexivity.
Qed.

Lemma C10_createInitial3DGrid_not_total_witness :
  CPU.createInitial3DGrid (Some 1) (Some 1) (Some 1) (Some "composite"%string)
    (fun _ => false) = Throw TypeError
  /\ CPU.createInitial3DGrid (Some 4) (Some 1) (Some 1) (Some "cross"%string)
       (fun _ => false) = Throw TypeError.
Proof.
  apply (C10_createInitial3DGrid_not_total "composite" (fun _ => false)).
  unfold named_patterns. rewrite !not_elem_of_cons. repeat split; try discriminate.
  apply not_elem_of_nil.
Defined.

(** ** Toroidal wraparound at the corner *)

Lemma elem_of_neighbour_offsets dx dy dz :
  (dx, dy, dz) ∈ neighbour_offsets
  <-> dx ∈ offsets /\ dy ∈ offsets /\ dz ∈ offsets /\ (dx, dy, dz) <> (0, 0, 0).
Proof.
  unfold neighbour_offsets. rewrite list_elem_of_filter. split.
  - intros [Hne Hin].
    apply list_elem_of_bind in Hin as (a & Hin & Ha).
    apply list_elem_of_bind in Hin as (b & Hin & Hb).
    apply list_elem_of_bind in Hin as (c & Hin & Hc).
    apply list_elem_of_singleton in Hin. by simplify_eq.
  - intros (Hx & Hy & Hz & Hne). split; [done|].
    apply list_elem_of_bind. exists dx. split; [|done].
    apply list_elem_of_bind. exists dy. split; [|done].
    apply list_elem_of_bind. exists dz. split; [|done].
    by apply list_elem_of_singleton.
Qed.

Lemma offset_mod (n : nat) d :
  (3 <= n)%nat -> d ∈ offsets ->
  near_zero n (d mod Z.of_nat n) /\ (d mod Z.of_nat n = 0 -> d = 0).
Proof.
  intros Hn Hd. unfold near_zero.
  apply elem_of_offsets in Hd as [->|[->| ->]].
  - assert ((-1) mod Z.of_nat n = Z.of_nat n - 1) as ->
      by (symmetry; apply (Z.mod_unique_pos _ _ (-1)); lia).
    lia.
  - rewrite Z.mod_0_l by lia. lia.
  - rewrite Z.mod_1_l by lia. lia.
Qed.

Lemma near_zero_offset (n : nat) x :
  (3 <= n)%nat -> near_zero n x ->
  exists d, d ∈ offsets /\ x = d mod Z.of_nat n /\ (d = 0 -> x = 0).
Proof.
  intros Hn [->|[->| ->]].
  - exists 0. rewrite elem_of_offsets, Z.mod_0_l by lia. lia.
  - exists 1. rewrite elem_of_offsets, Z.mod_1_l by lia. lia.
  - exists (-1). rewrite elem_of_offsets. split; [lia|]. split; [|lia].
    apply (Z.mod_unique_pos _ _ (-1)); lia.
Qed.

Lemma reachable_from_corner_spec (n : nat) x y z :
  (3 <= n)%nat ->
  reachable_from_corner n x y z =
  bool_decide (near_zero n x /\ near_zero n y /\ near_zero n z
               /\ ~ (x = 0 /\ y = 0 /\ z = 0)).
Proof.
  intros Hn. unfold reachable_from_corner.
  apply bool_decide_ext. rewrite Exists_exists. split.
  - intros ([[dx dy] dz] & Hin & Hq). destruct Hq as (-> & -> & ->).
    apply elem_of_neighbour_offsets in Hin as (Hx & Hy & Hz & Hne).
    destruct (offset_mod n dx Hn Hx) as [? Hx0].
    destruct (offset_mod n dy Hn Hy) as [? Hy0].
    destruct (offset_mod n dz Hn Hz) as [? Hz0].
    repeat split; try done.
    intros (Ex & Ey & Ez). apply Hne.
    by rewrite (Hx0 Ex), (Hy0 Ey), (Hz0 Ez).
  - intros (Hx & Hy & Hz & Hnz).
    destruct (near_zero_offset n x Hn Hx) as (dx & Hdx & Ex & Hx0).
    destruct (near_zero_offset n y Hn Hy) as (dy & Hdy & Ey & Hy0).
    destruct (near_zero_offset n z Hn Hz) as (dz & Hdz & Ez & Hz0).
    exists (dx, dy, dz). split; [|done].
    apply elem_of_neighbour_offsets. repeat split; try done.
    intros E. simplify_eq. apply Hnz. auto.
Qed.

Section corner.

Variable n : nat.
Variable g : grid.
Hypothesis Hn : (3 <= n)%nat.
Hypothesis Hrect : rect n n n g.
Hypothesis Hcorner : cell g 0 0 0 = 1.
Hypothesis Hothers :
  forall x y z, in_grid n n n x y z -> (x, y, z) <> (0, 0, 0) -> cell g x y z <> 1.

Lemma corner_indicator a b c :
  in_grid n n n a b c ->
  (if decide (cell g a b c = 1) then 1 else 0) = is_zero a * is_zero b * is_zero c.
Proof using Hcorner Hothers.
  intros Hin. unfold is_zero.
  destruct (decide (a = 0)) as [->|Ha], (decide (b = 0)) as [->|Hb],
           (decide (c = 0)) as [->|Hc];
    try (rewrite decide_True by done; done);
    rewrite decide_False; try done; apply Hothers; try done; congruence.
Qed.

(** Along one axis, at most one of the three offsets lands on 0. *)
Lemma axis_indicators x :
  0 <= x < Z.of_nat n ->
  let a := is_zero ((x + -1) mod Z.of_nat n) in
  let b := is_zero ((x + 0) mod Z.of_nat n) in
  let c := is_zero ((x + 1) mod Z.of_nat n) in
  (x = 0 /\ a = 0 /\ b = 1 /\ c = 0)
  \/ (x = 1 /\ a = 1 /\ b = 0 /\ c = 0)
  \/ (x = Z.of_nat n - 1 /\ a = 0 /\ b = 0 /\ c = 1)
  \/ (2 <= x <= Z.of_nat n - 2 /\ a = 0 /\ b = 0 /\ c = 0).
Proof using Hn.
  intros Hx. cbv zeta. unfold is_zero.
  assert ((x + 0) mod Z.of_nat n = x) as -> by (rewrite Z.add_0_r; apply Z.mod_small; lia).
  assert ((x + -1) mod Z.of_nat n = if decide (x = 0) then Z.of_nat n - 1 else x - 1) as ->.
  { destruct (decide (x = 0)) as [->|?].
    - symmetry. apply (Z.mod_unique_pos _ _ (-1)); lia.
    - apply Z.mod_small. lia. }
  assert ((x + 1) mod Z.of_nat n = if decide (x = Z.of_nat n - 1) then 0 else x + 1) as ->.
  { destruct (decide (x = Z.of_nat n - 1)) as [->|?].
    - symmetry. apply (Z.mod_unique_pos _ _ 1); lia.
    - apply Z.mod_small. lia. }
  repeat case_decide; lia.
Qed.

Lemma corner_wrapped_live_count x y z :
  in_grid n n n x y z ->
  wrapped_live_count g n n n x y z = if reachable_from_corner n x y z then 1 else 0.
Proof using Hn Hrect Hcorner Hothers.
  intros Hin. rewrite reachable_from_corner_spec by done.
  destruct Hin as (Hx & Hy & Hz).
  unfold wrapped_live_count.
  rewrite (length_filter_sum _ neighbour_offsets), neighbour_offsets_eq.
  unfold sumZ. simpl.
  rewrite !corner_indicator
    by (unfold in_grid; repeat split; apply Z.mod_pos_bound; lia).
  pose proof (axis_indicators x Hx) as Hax.
  pose proof (axis_indicators y Hy) as Hay.
  pose proof (axis_indicators z Hz) as Haz.
  cbv zeta in Hax, Hay, Haz.
  unfold near_zero.
  destruct Hax as [(?&->&->&->)|[(?&->&->&->)|[(?&->&->&->)|(?&->&->&->)]]];
  destruct Hay as [(?&->&->&->)|[(?&->&->&->)|[(?&->&->&->)|(?&->&->&->)]]];
  destruct Haz as [(?&->&->&->)|[(?&->&->&->)|[(?&->&->&->)|(?&->&->&->)]]];
  case_bool_decide; lia.
Qed.

End corner.

(** C6, as stated, fails for N = 2: the cell (1,0,0) is one step from the
    corner, and the corner is counted twice for it, once through the offset
    -1 and once through +1, which wrap to the same cell. *)
Lemma C6_size_two_counts_twice :
  rect 2 2 2 corner2
  /\ reachable_from_corner 2 1 0 0 = true
  /\ CPU.countLiveNeighbors3D (js_of_grid corner2) 1 0 0 = Ok 2
  /\ CPU.countLiveNeighbors3D (js_of_grid corner2) 1 0 0 <> Ok 1.
Proof.
  assert (CPU.countLiveNeighbors3D (js_of_grid corner2) 1 0 0 = Ok 2) as E
    by (vm_compute; reflexivity).
  split; [|split; [|split]].
  - split; [reflexivity|]. repeat constructor.
  - vm_compute. reflexivity.
  - exact E.
  - rewrite E. discriminate.
Qed.

(** C6, amended. Neighbour counting is toroidal on all three axes: for
    every N >= 3 and every NxNxN grid whose only cell with value 1 is the
    corner (0,0,0), countLiveNeighbors3D returns 1 for every cell one step
    from the corner with wraparound (coordinates N-1 included), and 0 for
    every other cell. *)
Theorem C6_corner_neighbour_counts (n : nat) (g : grid) x y z :
  (3 <= n)%nat -> rect n n n g -> cell g 0 0 0 = 1 ->
  (forall x y z, in_grid n n n x y z -> (x, y, z) <> (0, 0, 0) -> cell g x y z <> 1) ->
  in_grid n n n x y z ->
  CPU.countLiveNeighbors3D (js_of_grid g) x y z
  = Ok (if reachable_from_corner n x y z then 1 else 0).
Proof.
  intros Hn Hr Hc Ho Hin.
  rewrite (countLiveNeighbors3D_grid n n n) by done.
  f_equal. by apply corner_wrapped_live_count.
Qed.

Lemma C6_corner_neighbour_counts_witness :
  CPU.countLiveNeighbors3D (js_of_grid corner3) 2 2 2
  = Ok (if reachable_from_corner 3 2 2 2 then 1 else 0).
Proof.
  apply (C6_corner_neighbour_counts 3 corner3 2 2 2).
  - lia.
  - split; [reflexivity|]. repeat constructor.
  - reflexivity.
  - intros x y z (Hx & Hy & Hz) Hne.
    assert (x = 0 \/ x = 1 \/ x = 2) as Hx' by lia.
    assert (y = 0 \/ y = 1 \/ y = 2) as Hy' by lia.
    assert (z = 0 \/ z = 1 \/ z = 2) as Hz' by lia.
    destruct Hx' as [->|[->| ->]], Hy' as [->|[->| ->]], Hz' as [->|[->| ->]];
      (discriminate || (exfalso; apply Hne; reflexivity)).
  - unfold in_grid. lia.
Defined.

(** ** Marshalling to flat buffers *)

Lemma flat_index_lt (nb nc a b c a0 b0 c0 : Z) :
  0 <= b < nb -> 0 <= c < nc -> 0 <= b0 -> 0 <= c0 ->
  before a0 b0 c0 a b c ->
  (a * nb + b) * nc + c < (a0 * nb + b0) * nc + c0.
Proof.
  intros Hb Hc Hb0 Hc0 Hbefore.
  assert (a * nb + b < a0 * nb + b0 \/ (a * nb + b = a0 * nb + b0 /\ c < c0)) as [Hlt|[-> ?]].
  { destruct Hbefore as [Ha|[-> [Hlt|[-> Hlt]]]]; [left; nia | left; lia | right; lia]. }
  - assert ((a * nb + b + 1) * nc <= (a0 * nb + b0) * nc)
      by (apply Z.mul_le_mono_nonneg_r; lia).
    lia.
  - lia.
Qed.

Lemma flat_index_bound (na nb nc : nat) a b c :
  in_grid na nb nc a b c ->
  0 <= (a * Z.of_nat nb + b) * Z.of_nat nc + c < Z.of_nat (na * nb * nc).
Proof.
  intros (Ha & Hb & Hc). split; [nia|].
  pose proof (flat_index_lt (Z.of_nat nb) (Z.of_nat nc) a b c (Z.of_nat na) 0 0) as H.
  rewrite !Nat2Z.inj_mul. unfold before in H. lia.
Qed.

(** A loop nest that stores one value at [arr[i++]] per iteration fills the
    array in the order of the traversal: the value of iteration (a,b,c)
    ends at index (a * nb + b) * nc + c. *)
Lemma fill_sequential {A} (na nb nc : nat) (val : Z -> Z -> Z -> A)
    (body : Z -> Z -> Z -> list A * nat -> result (list A * nat))
    (arr0 : list A) :
  length arr0 = (na * nb * nc)%nat ->
  (forall a b c arr i, in_grid na nb nc a b c ->
     body a b c (arr, i) = Ok (<[i := val a b c]> arr, S i)) ->
  exists arr,
    for_each (upto (Some (Z.of_nat na))) (fun a st =>
      for_each (upto (Some (Z.of_nat nb))) (fun b st =>
        for_each (upto (Some (Z.of_nat nc))) (fun c st => body a b c st) st) st)
      (arr0, 0%nat)
    = Ok (arr, (na * nb * nc)%nat)
    /\ length arr = (na * nb * nc)%nat
    /\ forall a b c, in_grid na nb nc a b c ->
         arr !! Z.to_nat ((a * Z.of_nat nb + b) * Z.of_nat nc + c) = Some (val a b c).
Proof.
  intros Hlen Hbody.
  set (pos := fun a b c : Z => (a * Z.of_nat nb + b) * Z.of_nat nc + c).
  destruct (loop_nest_inv
    (fun a0 b0 c0 (st : list A * nat) =>
       Z.of_nat (snd st) = pos a0 b0 c0 /\
       length (fst st) = (na * nb * nc)%nat /\
       forall a b c, in_grid na nb nc a b c -> before a0 b0 c0 a b c ->
         fst st !! Z.to_nat (pos a b c) = Some (val a b c))
    na nb nc body (arr0, 0%nat)) as ([arr i] & Hrun & Hi & Hl & Hcells).
  - split; [done|]. split; [done|].
    intros a b c (?&?&?) Hb. unfold before in Hb. lia.
  - intros a0 b0 c0 [arr i] Hin (Hi & Hl & Hcells). simpl in *.
    exists (<[i := val a0 b0 c0]> arr, S i). split; [by apply Hbody|]. simpl.
    split; [unfold pos in *; lia|]. split; [by rewrite length_insert|].
    intros a b c Hin' Hb.
    pose proof (flat_index_bound na nb nc a0 b0 c0 Hin) as Hbound0.
    pose proof (flat_index_bound na nb nc a b c Hin') as Hbound.
    fold (pos a0 b0 c0) in Hbound0. fold (pos a b c) in Hbound.
    destruct (decide ((a, b, c) = (a0, b0, c0))) as [E|E].
    + simplify_eq. rewrite <- Hi, Nat2Z.id.
      apply list_lookup_insert_eq. lia.
    + assert (before a0 b0 c0 a b c) as Hb'.
      { unfold before in *.
        destruct (decide (a = a0)); [|lia].
        destruct (decide (b = b0)); [|lia].
        destruct (decide (c = c0)); [|lia]. subst. done. }
      destruct Hin as (?&?&?), Hin' as (?&?&?).
      assert (pos a b c < pos a0 b0 c0) as Hlt
        by (unfold pos; apply flat_index_lt; (lia || done)).
      rewrite list_lookup_insert_ne by lia.
      apply Hcells; [unfold in_grid; lia | done].
  - intros a0 b0 [arr i] (Hi & Hl & Hcells). simpl in *.
    split; [unfold pos in *; lia|]. split; [done|].
    intros a b c Hin' Hb. apply Hcells; [done|].
    destruct Hin' as (?&?&?). unfold before in *. lia.
  - intros a0 [arr i] (Hi & Hl & Hcells). simpl in *.
    split; [unfold pos in *; lia|]. split; [done|].
    intros a b c Hin' Hb. apply Hcells; [done|].
    destruct Hin' as (?&?&?). unfold before in *. lia.
  - simpl in *. exists arr.
    assert (i = (na * nb * nc)%nat) as -> by (unfold pos in Hi; lia).
    split; [done|]. split; [done|].
    intros a b c Hin. apply Hcells; [done|].
    destruct Hin as (?&?&?). unfold before. lia.
Qed.

(** The cell [g[x][y][z]] when the loops run z outermost and x innermost. *)
Lemma get3_grid_zyx sx sy sz (g : grid) z y x :
  rect sx sy sz g -> in_grid sz sy sx z y x ->
  get3 (js_of_grid g) (Some x) (Some y) (Some z) = Ok (JNum (cell g x y z)).
Proof.
  intros Hr (?&?&?). apply (get3_grid sx sy sz); [done|]. unfold in_grid. lia.
Qed.

Lemma webgpu_cell_state_array sx sy sz (g : grid) :
  rect sx sy sz g ->
  exists buf,
    WEBGPU.cell_state_array (js_of_grid g)
      (Some (Z.of_nat sx)) (Some (Z.of_nat sy)) (Some (Z.of_nat sz)) = Ok buf
    /\ forall x y z, in_grid sx sy sz x y z ->
         buf !! Z.to_nat (z * Z.of_nat sy * Z.of_nat sx + y * Z.of_nat sx + x)
         = Some (cell g x y z mod 4294967296).
Proof.
  intros Hr. unfold WEBGPU.cell_state_array, typed_array_length. simpl.
  destruct (Z.ltb_spec (Z.of_nat sx * Z.of_nat sy * Z.of_nat sz) 0); [lia|].
  simpl.
  destruct (fill_sequential sz sy sx (fun z y x => cell g x y z mod 4294967296)
    (fun z y x '(cellStateArray, cellIndex) =>
       let* v := get3 (js_of_grid g) (Some x) (Some y) (Some z) in
       Ok (<[cellIndex := to_uint32 (to_number v)]> cellStateArray, S cellIndex))
    (replicate (Z.to_nat (Z.of_nat sx * Z.of_nat sy * Z.of_nat sz)) 0))
    as (buf & Hrun & _ & Hcells).
  - rewrite length_replicate. lia.
  - intros z y x arr i Hin. by rewrite (get3_grid_zyx sx sy sz).
  - exists buf. unfold upto in Hrun. rewrite Hrun. split; [done|].
    intros x y z (?&?&?).
    replace (z * Z.of_nat sy * Z.of_nat sx + y * Z.of_nat sx + x)
      with ((z * Z.of_nat sy + y) * Z.of_nat sx + x) by lia.
    apply Hcells. unfold in_grid. lia.
Qed.

Lemma tf_flatten sx sy sz (g : grid) :
  rect sx sy sz g ->
  exists flat,
    TF.flatten (js_of_grid g)
      (Some (Z.of_nat sx)) (Some (Z.of_nat sy)) (Some (Z.of_nat sz)) = Ok flat
    /\ length flat = (sx * sy * sz)%nat
    /\ forall x y z, in_grid sx sy sz x y z ->
         flat !! Z.to_nat (x * Z.of_nat sy * Z.of_nat sz + y * Z.of_nat sz + z)
         = Some (Some (inject_Z (cell g x y z))).
Proof.
  intros Hr. unfold TF.flatten, typed_array_length. simpl.
  destruct (Z.ltb_spec (Z.of_nat sx * Z.of_nat sy * Z.of_nat sz) 0); [lia|].
  simpl.
  destruct (fill_sequential sx sy sz (fun x y z => Some (inject_Z (cell g x y z)))
    (fun x y z '(flatData, i) =>
       let* v := get3 (js_of_grid g) (Some x) (Some y) (Some z) in
       Ok (<[i := to_float v]> flatData, S i))
    (replicate (Z.to_nat (Z.of_nat sx * Z.of_nat sy * Z.of_nat sz)) (Some 0%Q)))
    as (flat & Hrun & Hlen & Hcells).
  - rewrite length_replicate. lia.
  - intros x y z arr i Hin. by rewrite (get3_grid sx sy sz).
  - exists flat. unfold upto in Hrun. rewrite Hrun. split; [done|]. split; [done|].
    intros x y z Hin.
    replace (x * Z.of_nat sy * Z.of_nat sz + y * Z.of_nat sz + z)
      with ((x * Z.of_nat sy + y) * Z.of_nat sz + z) by lia.
    by apply Hcells.
Qed.

Lemma gpu_texture_data sx sy sz (g : grid) :
  rect sx sy sz g ->
  exists data,
    GPU.texture_data (js_of_grid g)
      (Some (Z.of_nat sx)) (Some (Z.of_nat sy)) (Some (Z.of_nat sz)) = Ok data
    /\ length data = (sx * sy * sz * 4)%nat
    /\ forall x y z, in_grid sx sy sz x y z ->
         data !! Z.to_nat ((z * Z.of_nat sy * Z.of_nat sx + y * Z.of_nat sx + x) * 4)
         = Some ((cell g x y z * 255) mod 256).
Proof.
  intros Hr. unfold GPU.texture_data, typed_array_length. simpl.
  destruct (Z.ltb_spec (Z.of_nat sx * Z.of_nat sy * Z.of_nat sz * 4) 0); [lia|].
  simpl.
  set (pos := fun z y x : Z => (z * Z.of_nat sy + y) * Z.of_nat sx + x).
  destruct (loop_nest_inv
    (fun z0 y0 x0 (data : list Z) =>
       length data = (sx * sy * sz * 4)%nat /\
       forall z y x, in_grid sz sy sx z y x -> before z0 y0 x0 z y x ->
         data !! Z.to_nat (pos z y x * 4) = Some ((cell g x y z * 255) mod 256))
    sz sy sx
    (fun z y x data =>
       let* v := get3 (js_of_grid g) (Some x) (Some y) (Some z) in
       let index := (z * (Z.of_nat sx * Z.of_nat sy) + y * Z.of_nat sx + x) * 4 in
       let data := typed_set data (Some index)
                     (to_uint8 (jsnum_mul (to_number v) (Some 255))) in
       let data := typed_set data (Some (index + 1)) 0 in
       let data := typed_set data (Some (index + 2)) 0 in
       let data := typed_set data (Some (index + 3)) 255 in
       Ok data)
    (replicate (Z.to_nat (Z.of_nat sx * Z.of_nat sy * Z.of_nat sz * 4)) 0))
    as (data & Hrun & Hl & Hcells).
  - split; [rewrite length_replicate; lia|].
    intros z y x (?&?&?) Hb. unfold before in Hb. lia.
  - intros z0 y0 x0 data Hin (Hl & Hcells).
    rewrite (get3_grid_zyx sx sy sz) by done. cbn [bind].
    eexists. split; [reflexivity|].
    pose proof (flat_index_bound sz sy sx z0 y0 x0 Hin) as Hbound0.
    fold (pos z0 y0 x0) in Hbound0.
    replace (z0 * (Z.of_nat sx * Z.of_nat sy) + y0 * Z.of_nat sx + x0)
      with (pos z0 y0 x0) by (unfold pos; lia).
    unfold typed_set.
    destruct (Z.ltb_spec (pos z0 y0 x0 * 4) 0); [lia|].
    destruct (Z.ltb_spec (pos z0 y0 x0 * 4 + 1) 0); [lia|].
    destruct (Z.ltb_spec (pos z0 y0 x0 * 4 + 2) 0); [lia|].
    destruct (Z.ltb_spec (pos z0 y0 x0 * 4 + 3) 0); [lia|].
    split; [by rewrite !length_insert|].
    intros z y x Hin' Hb.
    pose proof (flat_index_bound sz sy sx z y x Hin') as Hbound.
    fold (pos z y x) in Hbound.
    destruct (decide ((z, y, x) = (z0, y0, x0))) as [E|E].
    + injection E as -> -> ->.
      rewrite !list_lookup_insert_ne by lia.
      rewrite list_lookup_insert_eq by lia. done.
    + assert (before z0 y0 x0 z y x) as Hb'
        by (unfold before in *; destruct (decide (z = z0)); [|lia];
            destruct (decide (y = y0)); [|lia];
            destruct (decide (x = x0)); [|lia]; subst z y x; done).
      destruct Hin as (?&?&?), Hin' as (?&?&?).
      assert (pos z y x < pos z0 y0 x0) as Hlt
        by (unfold pos; apply flat_index_lt; (lia || done)).
      rewrite !list_lookup_insert_ne by lia.
      apply Hcells; [unfold in_grid; lia | done].
  - intros z0 y0 data (Hl & Hcells). split; [done|].
    intros z y x Hin' Hb. apply Hcells; [done|].
    destruct Hin' as (?&?&?). unfold before in *. lia.
  - intros z0 data (Hl & Hcells). split; [done|].
    intros z y x Hin' Hb. apply Hcells; [done|].
    destruct Hin' as (?&?&?). unfold before in *. lia.
  - exists data. split; [exact Hrun|]. split; [done|].
    intros x y z (?&?&?).
    replace (z * Z.of_nat sy * Z.of_nat sx + y * Z.of_nat sx + x)
      with (pos z y x) by (unfold pos; lia).
    apply Hcells; [unfold in_grid; lia|]. unfold before. lia.
Qed.

(** C7, as stated, fails for the tensor engine: its flat data is in the
    row-major order of the tensor shape [sizeX, sizeY, sizeZ], x outermost.
    In the 2x1x2 grid whose only live cell is (0,0,1), the z-major index
    1*1*2 + 0*2 + 0 = 2 holds the value of cell (1,0,0), not of (0,0,1). *)
Lemma C7_tensor_data_is_x_major :
  cell two_by_one_by_two 0 0 1 = 1
  /\ TF.flatten (js_of_grid two_by_one_by_two) (Some 2) (Some 1) (Some 2)
     = Ok [Some 0%Q; Some 1%Q; Some 0%Q; Some 0%Q]
  /\ [Some 0%Q; Some 1%Q; Some 0%Q; Some 0%Q] !! Z.to_nat (1 * 1 * 2 + 0 * 2 + 0)
     <> Some (Some (inject_Z (cell two_by_one_by_two 0 0 1))).
Proof. repeat split; discriminate. Qed.

(** C7, amended. The compute-buffer engine's storage buffer and the
    texture engine's pixel data use the z-major ordering: cell (x,y,z) is
    at flat index z*sizeY*sizeX + y*sizeX + x (times 4 for the RGBA bytes of
    a pixel, the state in the red byte).  The tensor engine's flat data is
    x-major, the row-major order of its shape: cell (x,y,z) is at index
    x*sizeY*sizeZ + y*sizeZ + z. *)
Theorem C7_flat_orderings sx sy sz (g : grid) :
  rect sx sy sz g -> (0 < sx)%nat -> (0 < sy)%nat -> (0 < sz)%nat ->
  exists (buf data : list Z) (flat : list float),
    WEBGPU.setupBuffers (js_of_grid g) = Ok buf
    /\ GPU.texture_data (js_of_grid g)
         (Some (Z.of_nat sx)) (Some (Z.of_nat sy)) (Some (Z.of_nat sz)) = Ok data
    /\ TF.flatten (js_of_grid g)
         (Some (Z.of_nat sx)) (Some (Z.of_nat sy)) (Some (Z.of_nat sz)) = Ok flat
    /\ forall x y z, in_grid sx sy sz x y z ->
         buf !! Z.to_nat (z * Z.of_nat sy * Z.of_nat sx + y * Z.of_nat sx + x)
         = Some (cell g x y z mod 4294967296)
         /\ data !! Z.to_nat ((z * Z.of_nat sy * Z.of_nat sx + y * Z.of_nat sx + x) * 4)
            = Some ((cell g x y z * 255) mod 256)
         /\ flat !! Z.to_nat (x * Z.of_nat sy * Z.of_nat sz + y * Z.of_nat sz + z)
            = Some (Some (inject_Z (cell g x y z))).
Proof.
  intros Hr Hx Hy Hz.
  destruct (webgpu_cell_state_array sx sy sz g Hr) as (buf & Hbuf & Hb).
  destruct (gpu_texture_data sx sy sz g Hr) as (data & Hdata & _ & Hd).
  destruct (tf_flatten sx sy sz g Hr) as (flat & Hflat & _ & Hf).
  exists buf, data, flat.
  split; [|split; [done|split; [done|]]].
  - unfold WEBGPU.setupBuffers. by rewrite (sizes_grid sx sy sz).
  - intros x y z Hin. split; [by apply Hb|]. split; [by apply Hd | by apply Hf].
Qed.

Lemma C7_flat_orderings_witness :
  exists (buf data : list Z) (flat : list float),
    WEBGPU.setupBuffers (js_of_grid two_by_one_by_two) = Ok buf
    /\ GPU.texture_data (js_of_grid two_by_one_by_two)
         (Some (Z.of_nat 2)) (Some (Z.of_nat 1)) (Some (Z.of_nat 2)) = Ok data
    /\ TF.flatten (js_of_grid two_by_one_by_two)
         (Some (Z.of_nat 2)) (Some (Z.of_nat 1)) (Some (Z.of_nat 2)) = Ok flat
    /\ forall x y z, in_grid 2 1 2 x y z ->
         buf !! Z.to_nat (z * Z.of_nat 1 * Z.of_nat 2 + y * Z.of_nat 2 + x)
         = Some (cell two_by_one_by_two x y z mod 4294967296)
         /\ data !! Z.to_nat ((z * Z.of_nat 1 * Z.of_nat 2 + y * Z.of_nat 2 + x) * 4)
            = Some ((cell two_by_one_by_two x y z * 255) mod 256)
         /\ flat !! Z.to_nat (x * Z.of_nat 1 * Z.of_nat 2 + y * Z.of_nat 2 + z)
            = Some (Some (inject_Z (cell two_by_one_by_two x y z))).
Proof.
  apply (C7_flat_orderings 2 1 2 two_by_one_by_two).
  - split; [reflexivity|]. repeat constructor.
  - lia.
  - lia.
  - lia.
Defined.

(** ** The special and static rules on the CPU engine *)

Lemma upd3_same sx sy sz (G : grid) x y z :
  rect sx sy sz G -> in_grid sx sy sz x y z ->
  upd3 G x y z (cell G x y z) = G.
Proof.
  intros Hr Hin. apply (rect_ext sx sy sz); [by apply rect_upd3 | done |].
  intros x' y' z' Hin'.
  destruct (decide ((x', y', z') = (x, y, z))) as [E|E].
  - injection E as -> -> ->. by apply (cell_upd3_eq sx sy sz).
  - destruct Hin as (?&?&?), Hin' as (?&?&?). apply cell_upd3_ne; (lia || done).
Qed.

(** One step of the special rule on the CPU engine: 0 becomes 1 iff
    exactly 2 wrapped neighbours are 1, 1 becomes 2, and 2 becomes 0. *)
Lemma cpu_special_step sx sy sz (g : grid) :
  rect sx sy sz g -> (0 < sx)%nat -> (0 < sy)%nat -> (0 < sz)%nat ->
  exists g' : grid,
    CPU.calculateNextGeneration3D (js_of_grid g) (Some "briansbrain3d"%string)
    = Ok (js_of_grid g')
    /\ rect sx sy sz g'
    /\ forall x y z, in_grid sx sy sz x y z ->
         cell g' x y z =
         if decide (cell g x y z = 0)
         then (if decide (wrapped_live_count g sx sy sz x y z = 2) then 1 else 0)
         else if decide (cell g x y z = 1) then 2 else 0.
Proof.
  intros Hr Hx Hy Hz. unfold CPU.calculateNextGeneration3D.
  rewrite (invalid_grid_grid sx sy sz) by done.
  cbn [default from_option id bind]. rewrite bool_decide_eq_true_2 by done.
  unfold CPU.calculateBriansBrain3D.
  rewrite (sizes_grid sx sy sz) by done. cbn [bind].
  rewrite createEmpty3DGrid_grid by done. cbn [bind].
  apply fill_nest. intros x y z G Hin HG H0.
  rewrite (get3_grid sx sy sz) by done. cbn [bind].
  rewrite !strict_eq_num_decide.
  destruct (decide (cell g x y z = 0)) as [E0|E0].
  - rewrite count_neighbours_grid by done. cbn [bind].
    rewrite (set3_grid sx sy sz) by done. do 3 f_equal.
    destruct (Z.eqb_spec (wrapped_live_count g sx sy sz x y z) 2);
      [by rewrite decide_True | by rewrite decide_False].
  - destruct (decide (cell g x y z = 1)) as [E1|E1].
    + by rewrite (set3_grid sx sy sz).
    + destruct (decide (cell g x y z = 2)) as [E2|E2].
      * by rewrite (set3_grid sx sy sz).
      * do 2 f_equal. symmetry. rewrite <- H0. by apply (upd3_same sx sy sz).
Qed.

(** One step of the static rule on the CPU engine returns the grid. *)
Lemma cpu_static_step sx sy sz (g : grid) :
  rect sx sy sz g -> (0 < sx)%nat -> (0 < sy)%nat -> (0 < sz)%nat ->
  CPU.calculateNextGeneration3D (js_of_grid g) (Some "checkerboard"%string)
  = Ok (js_of_grid g).
Proof.
  intros Hr Hx Hy Hz. unfold CPU.calculateNextGeneration3D.
  rewrite (invalid_grid_grid sx sy sz) by done.
  cbn [default from_option id bind].
  rewrite bool_decide_eq_false_2 by discriminate.
  rewrite bool_decide_eq_true_2 by done.
  rewrite (sizes_grid sx sy sz) by done. cbn [bind].
  rewrite createEmpty3DGrid_grid by done. cbn [bind].
  destruct (fill_nest sx sy sz (cell g)
    (fun x y z nextGrid =>
       let* v := get3 (js_of_grid g) (Some x) (Some y) (Some z) in
       set3 nextGrid (Some x) (Some y) (Some z) v)) as (g' & Hrun & Hr' & Hcells).
  - intros x y z G Hin HG _.
    rewrite (get3_grid sx sy sz) by done. cbn [bind].
    by apply (set3_grid sx sy sz).
  - rewrite Hrun. do 2 f_equal. by apply (rect_ext sx sy sz).
Qed.

(** ** Where the tensor and texture engines leave the CPU engine *)

(** C2. The claim fails on the code: [tf.conv3d] with 'same' padding pads
    with zeros and does not wrap.  On the 6x6x6 sphere under 'conway3d',
    cell (0,3,3) has 10 wrapped live neighbours for the CPU engine but
    neighbour count 5 for the tensor engine, which gives it birth; after one
    generation the two alive sets differ (24 cells against 15). *)
Theorem C2_tensor_engine_pads_with_zeros :
  (let* g := sphere6 in CPU.countLiveNeighbors3D g 0 3 3) = Ok 10
  /\ (let* g := sphere6 in tf_neighbour_count g 0 3 3) = Ok (Some 5%Q)
  /\ alive_after 1 "conway3d" =
     Ok ([(0, 2, 2); (0, 2, 4); (0, 4, 2); (0, 4, 4); (1, 1, 3); (1, 3, 1);
          (1, 3, 5); (1, 5, 3); (2, 0, 2); (2, 0, 4); (2, 2, 0); (2, 4, 0);
          (3, 1, 1); (3, 1, 5); (3, 5, 1); (3, 5, 5); (4, 0, 2); (4, 0, 4);
          (4, 2, 0); (4, 4, 0); (5, 1, 3); (5, 3, 1); (5, 3, 5); (5, 5, 3)],
         [(0, 3, 3); (1, 1, 3); (1, 3, 1); (1, 3, 5); (1, 5, 3); (3, 0, 3);
          (3, 1, 1); (3, 1, 5); (3, 3, 0); (3, 5, 1); (3, 5, 5); (5, 1, 3);
          (5, 3, 1); (5, 3, 5); (5, 5, 3)]).
Proof. repeat split; vm_compute; reflexivity. Qed.

(** The disagreement holds for every Birth/Survival rule of the table and
    for the fallback, after 1, 2 and 3 generations. *)
Lemma tensor_engine_disagrees_on_sphere :
  Forall (fun ruleName =>
    Forall (fun n =>
      exists a b, alive_after n ruleName = Ok (a, b) /\ a <> b) [1; 2; 3]%nat)
    ["conway3d"; "life3d"; "stability"; "crystal"; "pyroclastic"; "diamoeba3d";
     "hyper"; "unknown"]%string.
Proof.
  repeat (apply List.Forall_cons || apply List.Forall_nil);
    do 2 eexists; (split; [vm_compute; reflexivity | discriminate]).
Qed.

(** C3. The claim fails on the texture engine: a cell with value 2 is
    stored as the byte 2 * 255 mod 256 = 254, the copy shader copies it, and
    the readback decodes every byte above 127 as 1.  The static step of the
    1x1x1 grid [[[2]]] returns [[[1]]]; the CPU and tensor engines return
    the grid unchanged. *)
Theorem C3_texture_static_step_loses_dying (round_half_up : bool) :
  returned (GPU.calculateNextGeneration3DGPU round_half_up None
              (js_of_grid [[[2]]]) (Some "checkerboard"%string))
  = Ok (js_of_grid [[[1]]])
  /\ CPU.calculateNextGeneration3D (js_of_grid [[[2]]]) (Some "checkerboard"%string)
     = Ok (js_of_grid [[[2]]])
  /\ returned (TF.calculateNextGeneration3DTF None
                 (js_of_grid [[[2]]]) (Some "checkerboard"%string))
     = Ok (js_of_grid [[[2]]]).
Proof. destruct round_half_up; repeat split; vm_compute; reflexivity. Qed.

(** C4. The claim holds on the CPU engine and fails on the other two.
    From a single alive cell in a 3x3x3 grid the CPU engine gives dying,
    then dead.  The tensor engine is handed the grid back with the literal
    2, reads it as alive (2 > 0.75) and as two alive neighbours (the
    convolution sums values): after the second step the cell is still 2 and
    all its 26 dead neighbours are 1.  The texture engine decodes the dying
    colour 0.5 as 1 or 0, according to the rounding of 127.5, never as 2. *)
Theorem C4_special_rule_off_the_cpu (round_half_up : bool) :
  cpu_generations 1 "briansbrain3d" (js_of_grid (centre3 1)) = Ok (js_of_grid (centre3 2))
  /\ cpu_generations 2 "briansbrain3d" (js_of_grid (centre3 1)) = Ok (js_of_grid (centre3 0))
  /\ returned (tf_generations 1 "briansbrain3d" None (js_of_grid (centre3 1)))
     = Ok (js_of_grid (centre3 2))
  /\ returned (tf_generations 2 "briansbrain3d" None (js_of_grid (centre3 1)))
     = Ok (js_of_grid (shell3 2))
  /\ returned (GPU.calculateNextGeneration3DGPU round_half_up None
                 (js_of_grid (centre3 1)) (Some "briansbrain3d"%string))
     = Ok (js_of_grid (centre3 (if round_half_up then 1 else 0))).
Proof. destruct round_half_up; repeat split; vm_compute; reflexivity. Qed.

(** C5. The claim holds on the tensor engine and fails on the texture
    engine, whose readback [pixelBuffer[index] > 127 ? 1 : 0] has no case
    for the dying state: the alive cell of [[[1]]] is dying after a
    special-rule step, and is returned as 1 or 0, where the tensor and CPU
    engines return 2. *)
Theorem C5_texture_readback_has_no_dying (round_half_up : bool) :
  returned (GPU.calculateNextGeneration3DGPU round_half_up None
              (js_of_grid [[[1]]]) (Some "briansbrain3d"%string))
  = Ok (js_of_grid [[[if round_half_up then 1 else 0]]])
  /\ returned (TF.calculateNextGeneration3DTF None
                 (js_of_grid [[[1]]]) (Some "briansbrain3d"%string))
     = Ok (js_of_grid [[[2]]])
  /\ CPU.calculateNextGeneration3D (js_of_grid [[[1]]]) (Some "briansbrain3d"%string)
     = Ok (js_of_grid [[[2]]]).
Proof. destruct round_half_up; repeat split; vm_compute; reflexivity. Qed.

(** * Further properties *)

Ltac small_grid_cases :=
  let x := fresh "x" in let y := fresh "y" in let z := fresh "z" in
  let Hx := fresh "Hx" in let Hy := fresh "Hy" in let Hz := fresh "Hz" in
  intros x y z (Hx & Hy & Hz);
  assert (x = 0 \/ x = 1 \/ x = 2) as [-> | [-> | ->]] by lia;
  assert (y = 0 \/ y = 1 \/ y = 2) as [-> | [-> | ->]] by lia;
  assert (z = 0 \/ z = 1 \/ z = 2) as [-> | [-> | ->]] by lia;
  first [ left; reflexivity | right; reflexivity
        | right; left; reflexivity | right; right; reflexivity
        | vm_compute; discriminate ].

Ltac not_inherited := apply (bool_decide_unpack _); vm_compute; exact I.

Ltac rect_literal := split; [reflexivity | repeat constructor].

(** ** The CPU engine on every rule name *)

Lemma lookup_rule_table ruleName d :
  RULE_DEFINITIONS !! ruleName = Some d -> (ruleName, d) ∈ rule_table.
Proof. intros H. by apply elem_of_list_to_map_2 in H. Qed.

(** Every name that the table does not inherit resolves to a
    Birth/Survival rule whose sets lie in 3..10, the two special names
    apart. *)
Lemma lookup_rule_bs ruleName :
  ruleName <> "briansbrain3d"%string -> ruleName <> "checkerboard"%string ->
  ruleName ∉ object_prototype_names ->
  exists b s, lookup_rule ruleName = RuleBS b s
    /\ Forall (fun v => 3 <= v <= 10) b /\ Forall (fun v => 3 <= v <= 10) s.
Proof.
  intros Hbb Hcb Hni. unfold lookup_rule.
  destruct (RULE_DEFINITIONS !! ruleName) as [d|] eqn:E; simpl.
  - apply lookup_rule_table in E. unfold rule_table in E.
    repeat (apply elem_of_cons in E as [E|E];
            [injection E as -> ->;
             first [congruence
                   | do 2 eexists; split; [reflexivity|];
                     split; repeat constructor; lia]|]).
    by apply elem_of_nil in E.
  - rewrite bool_decide_eq_false_2 by done.
    do 2 eexists. split; [reflexivity|]. split; repeat constructor; lia.
Qed.

(** The keys of the table are none of the inherited names. *)
Lemma table_key_not_inherited ruleName d :
  RULE_DEFINITIONS !! ruleName = Some d -> ruleName ∉ object_prototype_names.
Proof.
  intros Hl Hin. unfold object_prototype_names in Hin.
  repeat (apply elem_of_cons in Hin as [->|Hin]; [discriminate|]).
  by apply elem_of_nil in Hin.
Qed.

Lemma special_not_inherited : "briansbrain3d"%string ∉ object_prototype_names.
Proof. exact (table_key_not_inherited _ _ lookup_special). Qed.

Lemma static_not_inherited : "checkerboard"%string ∉ object_prototype_names.
Proof. exact (table_key_not_inherited _ _ lookup_static). Qed.

(** A name that the table inherits resolves to a value without sets. *)
Lemma lookup_rule_inherited ruleName :
  ruleName ∈ object_prototype_names -> lookup_rule ruleName = RuleInherited.
Proof.
  intros Hin. unfold object_prototype_names in Hin.
  repeat (apply elem_of_cons in Hin as [->|Hin]; [reflexivity|]).
  by apply elem_of_nil in Hin.
Qed.

Lemma Forall_not_elem (lo hi n : Z) (l : list Z) :
  Forall (fun v => lo <= v <= hi) l -> ~ (lo <= n <= hi) -> n ∉ l.
Proof.
  intros Hl Hn Hin. apply (proj1 (Forall_forall _ _) Hl) in Hin. lia.
Qed.

Lemma rect_grid_of sx sy sz f : rect sx sy sz (grid_of sx sy sz f).
Proof.
  unfold grid_of. split; [by rewrite length_fmap, length_seqZ, Nat2Z.id|].
  apply Forall_fmap, Forall_forall. intros x _. simpl.
  split; [by rewrite length_fmap, length_seqZ, Nat2Z.id|].
  apply Forall_fmap, Forall_forall. intros y _. simpl.
  by rewrite length_fmap, length_seqZ, Nat2Z.id.
Qed.

Lemma cell_grid_of sx sy sz f x y z :
  in_grid sx sy sz x y z -> cell (grid_of sx sy sz f) x y z = f x y z.
Proof.
  intros (Hx & Hy & Hz). unfold cell, grid_of.
  rewrite list_lookup_fmap, lookup_seqZ_lt by lia. simpl.
  rewrite list_lookup_fmap, lookup_seqZ_lt by lia. simpl.
  rewrite list_lookup_fmap, lookup_seqZ_lt by lia. simpl.
  f_equal; lia.
Qed.

Lemma filter_length_ext {A} (P Q : A -> Prop) `{!forall a, Decision (P a)}
    `{!forall a, Decision (Q a)} (l : list A) :
  (forall a, a ∈ l -> (P a <-> Q a)) -> length (filter P l) = length (filter Q l).
Proof.
  induction l as [|a l IH]; intros Hext; [done|].
  rewrite !filter_cons.
  assert (P a <-> Q a) as Ha by (apply Hext, elem_of_cons; by left).
  assert (length (filter P l) = length (filter Q l)) as Hl
    by (apply IH; intros; apply Hext, elem_of_cons; by right).
  destruct (decide (P a)), (decide (Q a)); simpl; tauto || lia.
Qed.

Lemma wrapped_live_count_shift sx sy sz a b c (g : grid) x y z :
  (0 < sx)%nat -> (0 < sy)%nat -> (0 < sz)%nat ->
  wrapped_live_count (shift sx sy sz a b c g) sx sy sz x y z
  = wrapped_live_count g sx sy sz
      ((x + a) mod Z.of_nat sx) ((y + b) mod Z.of_nat sy) ((z + c) mod Z.of_nat sz).
Proof.
  intros Hx Hy Hz. unfold wrapped_live_count. f_equal.
  apply filter_length_ext. intros [[dx dy] dz] _.
  unfold shift. rewrite cell_grid_of
    by (unfold in_grid; repeat split; apply Z.mod_pos_bound; lia).
  rewrite !Zplus_mod_idemp_l.
  replace (x + dx + a) with (x + a + dx) by lia.
  replace (y + dy + b) with (y + b + dy) by lia.
  replace (z + dz + c) with (z + c + dz) by lia.
  done.
Qed.

Lemma in_grid_mod sx sy sz x y z :
  (0 < sx)%nat -> (0 < sy)%nat -> (0 < sz)%nat ->
  in_grid sx sy sz (x mod Z.of_nat sx) (y mod Z.of_nat sy) (z mod Z.of_nat sz).
Proof. intros. unfold in_grid. repeat split; apply Z.mod_pos_bound; lia. Qed.

(** One step of the CPU engine, for every rule name that the table does
    not inherit: a grid of the same dimensions whose cells are given by
    [cpu_next]. *)
Lemma cpu_step_cells sx sy sz (g : grid) ruleName :
  rect sx sy sz g -> (0 < sx)%nat -> (0 < sy)%nat -> (0 < sz)%nat ->
  ruleName ∉ object_prototype_names ->
  exists g' : grid,
    CPU.calculateNextGeneration3D (js_of_grid g) (Some ruleName) = Ok (js_of_grid g')
    /\ rect sx sy sz g'
    /\ forall x y z, in_grid sx sy sz x y z ->
         cell g' x y z = cpu_next ruleName g sx sy sz x y z.
Proof.
  intros Hr Hx Hy Hz Hni. unfold cpu_next.
  destruct (decide (ruleName = "briansbrain3d"%string)) as [->|Hbb].
  { destruct (cpu_special_step sx sy sz g) as (g' & Hrun & Hr' & Hc); try done.
    exists g'. done. }
  destruct (decide (ruleName = "checkerboard"%string)) as [->|Hcb].
  { exists g. split; [by apply (cpu_static_step sx sy sz)|]. done. }
  destruct (lookup_rule_bs ruleName Hbb Hcb Hni) as (b & s & Hrule & _).
  destruct (cpu_standard_step sx sy sz g ruleName b s) as (g' & Hrun & Hr' & Hc);
    try done.
  exists g'. split; [done|]. split; [done|].
  intros x y z Hin. rewrite (Hc x y z Hin), Hrule. done.
Qed.

(** X1. CPU engine, the states of the next generation: on a rectangular grid
    of positive dimensions and of any numbers, and for every rule name but
    'checkerboard' that Object.prototype does not define,
    calculateNextGeneration3D returns a grid of the same dimensions.  Under
    'briansbrain3d' every cell that was 1 becomes 2 and every other cell
    becomes 0 or 1; under every other name every cell becomes 0 or 1. *)
Theorem X1_cpu_step_keeps_shape_and_states sx sy sz (g : grid) ruleName :
  rect sx sy sz g -> (0 < sx)%nat -> (0 < sy)%nat -> (0 < sz)%nat ->
  ruleName <> "checkerboard"%string -> ruleName ∉ object_prototype_names ->
  exists g' : grid,
    CPU.calculateNextGeneration3D (js_of_grid g) (Some ruleName) = Ok (js_of_grid g')
    /\ rect sx sy sz g'
    /\ forall x y z, in_grid sx sy sz x y z ->
         (ruleName <> "briansbrain3d"%string ->
            cell g' x y z = 0 \/ cell g' x y z = 1)
         /\ (ruleName = "briansbrain3d"%string ->
               (cell g x y z = 1 -> cell g' x y z = 2)
               /\ (cell g x y z <> 1 -> cell g' x y z = 0 \/ cell g' x y z = 1)).
Proof.
  intros Hr Hx Hy Hz Hcb Hni.
  destruct (cpu_step_cells sx sy sz g ruleName) as (g' & Hrun & Hr' & Hc); try done.
  exists g'. split; [done|]. split; [done|].
  intros x y z Hin. rewrite (Hc x y z Hin). unfold cpu_next.
  repeat case_decide; repeat split; intros;
    first [done | congruence | by left | by right].
Qed.

Lemma X1_cpu_step_keeps_shape_and_states_witness :
  exists g' : grid,
    CPU.calculateNextGeneration3D (js_of_grid three_of_four) (Some "briansbrain3d"%string)
    = Ok (js_of_grid g')
    /\ rect 1 2 2 g'
    /\ forall x y z, in_grid 1 2 2 x y z ->
         ("briansbrain3d"%string <> "briansbrain3d"%string ->
            cell g' x y z = 0 \/ cell g' x y z = 1)
         /\ ("briansbrain3d"%string = "briansbrain3d"%string ->
               (cell three_of_four x y z = 1 -> cell g' x y z = 2)
               /\ (cell three_of_four x y z <> 1 ->
                   cell g' x y z = 0 \/ cell g' x y z = 1)).
Proof.
  apply (X1_cpu_step_keeps_shape_and_states 1 2 2 three_of_four "briansbrain3d").
  - rect_literal.
  - lia.
  - lia.
  - lia.
  - discriminate.
  - not_inherited.
Defined.

Lemma wrapped_live_count_zero sx sy sz x y z :
  wrapped_live_count (zero_grid sx sy sz) sx sy sz x y z = 0.
Proof.
  unfold wrapped_live_count.
  rewrite (filter_length_ext _ (fun _ => False)); [|].
  - by induction neighbour_offsets.
  - intros [[dx dy] dz] _. rewrite cell_zero_grid. split; [lia|done].
Qed.

(** X2. CPU engine, the dead grid: for every rule name that Object.prototype
    does not define, key of the table or not, the step of the all-zero grid
    of positive dimensions is the all-zero grid (no birth set of the table
    contains 0). *)
Theorem X2_cpu_dead_grid_is_fixed (sx sy sz : nat) ruleName :
  (0 < sx)%nat -> (0 < sy)%nat -> (0 < sz)%nat ->
  ruleName ∉ object_prototype_names ->
  CPU.calculateNextGeneration3D (js_of_grid (zero_grid sx sy sz)) (Some ruleName)
  = Ok (js_of_grid (zero_grid sx sy sz)).
Proof.
  intros Hx Hy Hz Hni.
  destruct (cpu_step_cells sx sy sz (zero_grid sx sy sz) ruleName)
    as (g' & Hrun & Hr' & Hc); try done; [apply rect_zero_grid|].
  rewrite Hrun. do 2 f_equal.
  apply (rect_ext sx sy sz); [done | apply rect_zero_grid |].
  intros x y z Hin. rewrite (Hc x y z Hin). unfold cpu_next.
  rewrite wrapped_live_count_zero, !cell_zero_grid.
  destruct (decide (ruleName = "briansbrain3d"%string)) as [|Hbb]; [done|].
  destruct (decide (ruleName = "checkerboard"%string)) as [|Hcb]; [done|].
  destruct (lookup_rule_bs ruleName Hbb Hcb Hni) as (b & s & -> & Hb & Hs). simpl.
  rewrite decide_False; [done|]. apply (Forall_not_elem 3 10); [done | lia].
Qed.

Lemma X2_cpu_dead_grid_is_fixed_witness :
  CPU.calculateNextGeneration3D (js_of_grid (zero_grid 2 3 2)) (Some "crystal"%string)
  = Ok (js_of_grid (zero_grid 2 3 2)).
Proof.
  apply (X2_cpu_dead_grid_is_fixed 2 3 2 "crystal").
  - lia.
  - lia.
  - lia.
  - not_inherited.
Defined.

(** X3. CPU engine, symmetry of the torus: moving a rectangular grid by any
    vector (a,b,c), every axis modulo its size, and then stepping gives the
    step of the grid moved by the same vector, for every rule name that
    Object.prototype does not define. *)
Theorem X3_cpu_step_commutes_with_shift sx sy sz (g : grid) ruleName a b c :
  rect sx sy sz g -> (0 < sx)%nat -> (0 < sy)%nat -> (0 < sz)%nat ->
  ruleName ∉ object_prototype_names ->
  exists g' : grid,
    CPU.calculateNextGeneration3D (js_of_grid g) (Some ruleName) = Ok (js_of_grid g')
    /\ CPU.calculateNextGeneration3D (js_of_grid (shift sx sy sz a b c g)) (Some ruleName)
       = Ok (js_of_grid (shift sx sy sz a b c g')).
Proof.
  intros Hr Hx Hy Hz Hni.
  destruct (cpu_step_cells sx sy sz g ruleName) as (g' & Hrun & Hr' & Hc); try done.
  destruct (cpu_step_cells sx sy sz (shift sx sy sz a b c g) ruleName)
    as (g'' & Hrun' & Hr'' & Hc'); try done; [apply rect_grid_of|].
  exists g'. split; [done|]. rewrite Hrun'. do 2 f_equal.
  apply (rect_ext sx sy sz); [done | apply rect_grid_of |].
  intros x y z Hin. rewrite (Hc' x y z Hin).
  unfold shift at 2. rewrite cell_grid_of by done.
  rewrite Hc by (by apply in_grid_mod).
  unfold cpu_next. rewrite wrapped_live_count_shift by done.
  unfold shift. rewrite cell_grid_of by done. done.
Qed.

Lemma X3_cpu_step_commutes_with_shift_witness :
  exists g' : grid,
    CPU.calculateNextGeneration3D (js_of_grid (shell3 0)) (Some "life3d"%string)
    = Ok (js_of_grid g')
    /\ CPU.calculateNextGeneration3D (js_of_grid (shift 3 3 3 1 0 2 (shell3 0)))
         (Some "life3d"%string)
       = Ok (js_of_grid (shift 3 3 3 1 0 2 g')).
Proof.
  apply (X3_cpu_step_commutes_with_shift 3 3 3 (shell3 0) "life3d" 1 0 2).
  - rect_literal.
  - lia.
  - lia.
  - lia.
  - not_inherited.
Defined.

(** X4. CPU engine, iteration: from a rectangular grid of positive
    dimensions, any number of steps with a rule name that Object.prototype
    does not define, each fed the grid the previous one returned, never
    throws and ends in a grid of the same dimensions. *)
Theorem X4_cpu_generations_never_fail (n : nat) sx sy sz (g : grid) ruleName :
  rect sx sy sz g -> (0 < sx)%nat -> (0 < sy)%nat -> (0 < sz)%nat ->
  ruleName ∉ object_prototype_names ->
  exists g' : grid,
    cpu_generations n ruleName (js_of_grid g) = Ok (js_of_grid g')
    /\ rect sx sy sz g'.
Proof.
  intros Hr Hx Hy Hz Hni. revert g Hr.
  induction n as [|n IH]; intros g Hr.
  - by exists g.
  - destruct (cpu_step_cells sx sy sz g ruleName) as (g1 & Hrun & Hr1 & _); try done.
    destruct (IH g1 Hr1) as (g' & Hgen & Hr').
    exists g'. simpl. rewrite Hrun. done.
Qed.

Lemma X4_cpu_generations_never_fail_witness :
  exists g' : grid,
    cpu_generations 3 "briansbrain3d" (js_of_grid three_of_four) = Ok (js_of_grid g')
    /\ rect 1 2 2 g'.
Proof.
  apply (X4_cpu_generations_never_fail 3 1 2 2 three_of_four "briansbrain3d").
  - rect_literal.
  - lia.
  - lia.
  - lia.
  - not_inherited.
Defined.

(** ** The patterns that fit every grid *)

Lemma createEmpty3DGrid_zero_grid (sx sy sz : nat) :
  CPU.createEmpty3DGrid (Some (Z.of_nat sx)) (Some (Z.of_nat sy)) (Some (Z.of_nat sz))
  = Ok (js_of_grid (zero_grid sx sy sz)).
Proof.
  unfold CPU.createEmpty3DGrid, js_Array.
  destruct (Z.ltb_spec (Z.of_nat sx) 0); [lia|].
  destruct (Z.ltb_spec (Z.of_nat sy) 0); [lia|].
  destruct (Z.ltb_spec (Z.of_nat sz) 0); [lia|].
  cbn [bind]. rewrite !Nat2Z.id.
  unfold js_of_grid, zero_grid.
  destruct (Nat.eqb_spec sx 0) as [->|?]; [done|].
  destruct (Nat.eqb_spec sy 0) as [->|?]; [by rewrite !fmap_replicate|].
  by rewrite !fmap_replicate.
Qed.

(** The steps of the invariant [filled]. *)
Lemma filled_start sx sy sz v :
  filled sx sy sz v 0 0 0 (js_of_grid (zero_grid sx sy sz)).
Proof.
  exists (zero_grid sx sy sz). split; [done|]. split; [apply rect_zero_grid|].
  intros x y z (Hx & Hy & Hz). split.
  - unfold before. lia.
  - intros _. apply cell_zero_grid.
Qed.

Lemma filled_write sx sy sz v x y z (G : grid) :
  in_grid sx sy sz x y z -> rect sx sy sz G ->
  (forall x' y' z', in_grid sx sy sz x' y' z' ->
     (before x y z x' y' z' -> cell G x' y' z' = v x' y' z') /\
     (~ before x y z x' y' z' -> cell G x' y' z' = 0)) ->
  filled sx sy sz v x y (z + 1) (js_of_grid (upd3 G x y z (v x y z))).
Proof.
  intros Hin Hr Hcells.
  exists (upd3 G x y z (v x y z)). split; [done|].
  split; [by apply rect_upd3|].
  intros x' y' z' Hin'.
  destruct (decide ((x', y', z') = (x, y, z))) as [E|E].
  - injection E as -> -> ->. rewrite (cell_upd3_eq sx sy sz) by done.
    split; [done|]. unfold before. lia.
  - destruct Hin as (?&?&?), Hin' as (?&?&?).
    rewrite cell_upd3_ne by (done || lia).
    assert (before x y (z + 1) x' y' z' <-> before x y z x' y' z') as ->.
    { unfold before. split; intros Hb; [|lia].
      destruct (decide (x' = x)); [|lia].
      destruct (decide (y' = y)); [|lia].
      destruct (decide (z' = z)); [|lia]. subst. done. }
    apply Hcells. unfold in_grid. lia.
Qed.

Lemma filled_next_row sx sy sz v x y s :
  filled sx sy sz v x y (Z.of_nat sz) s -> filled sx sy sz v x (y + 1) 0 s.
Proof.
  intros (G & -> & Hr & Hcells). exists G. split; [done|]. split; [done|].
  intros x' y' z' Hin'.
  assert (before x (y + 1) 0 x' y' z' <-> before x y (Z.of_nat sz) x' y' z') as ->.
  { destruct Hin' as (?&?&?). unfold before. lia. }
  by apply Hcells.
Qed.

Lemma filled_next_plane sx sy sz v x s :
  filled sx sy sz v x (Z.of_nat sy) 0 s -> filled sx sy sz v (x + 1) 0 0 s.
Proof.
  intros (G & -> & Hr & Hcells). exists G. split; [done|]. split; [done|].
  intros x' y' z' Hin'.
  assert (before (x + 1) 0 0 x' y' z' <-> before x (Z.of_nat sy) 0 x' y' z') as ->.
  { destruct Hin' as (?&?&?). unfold before. lia. }
  by apply Hcells.
Qed.

Lemma filled_end sx sy sz v s :
  filled sx sy sz v (Z.of_nat sx) 0 0 s ->
  exists G : grid, s = js_of_grid G /\ rect sx sy sz G /\
    forall x y z, in_grid sx sy sz x y z -> cell G x y z = v x y z.
Proof.
  intros (G & -> & Hr & Hcells). exists G. split; [done|]. split; [done|].
  intros x y z Hin. apply (Hcells x y z Hin).
  destruct Hin as (?&?&?). unfold before. lia.
Qed.

(** A loop nest that also counts its iterations: when cell (x,y,z) is
    reached the count is the flat index of the cell. *)
Lemma fill_nest_counting (sx sy sz : nat) (v : Z -> Z -> Z -> Z)
    (body : Z -> Z -> Z -> jsval * nat -> result (jsval * nat)) :
  (forall x y z (G : grid), in_grid sx sy sz x y z -> rect sx sy sz G ->
     cell G x y z = 0 ->
     body x y z (js_of_grid G, flat_index sy sz x y z)
     = Ok (js_of_grid (upd3 G x y z (v x y z)), S (flat_index sy sz x y z))) ->
  exists G' : grid,
    for_each (upto (Some (Z.of_nat sx))) (fun x s =>
      for_each (upto (Some (Z.of_nat sy))) (fun y s =>
        for_each (upto (Some (Z.of_nat sz))) (fun z s => body x y z s) s) s)
      (js_of_grid (zero_grid sx sy sz), 0%nat)
    = Ok (js_of_grid G', (sx * sy * sz)%nat) /\ rect sx sy sz G' /\
    forall x y z, in_grid sx sy sz x y z -> cell G' x y z = v x y z.
Proof.
  intros Hbody.
  destruct (loop_nest_inv
    (fun x y z (st : jsval * nat) =>
       Z.of_nat (snd st) = (x * Z.of_nat sy + y) * Z.of_nat sz + z
       /\ filled sx sy sz v x y z (fst st))
    sx sy sz body (js_of_grid (zero_grid sx sy sz), 0%nat))
    as ([s i] & Hrun & Hi & HI).
  - split; [simpl; lia | apply filled_start].
  - intros x y z [s i] Hin [Hi HI]. simpl in Hi, HI.
    destruct HI as (G & -> & Hr & Hcells).
    assert (cell G x y z = 0) as H0.
    { apply (Hcells x y z Hin). unfold before. lia. }
    assert (i = flat_index sy sz x y z) as ->
      by (unfold flat_index; rewrite <- Hi, Nat2Z.id; done).
    eexists. split; [by apply Hbody|]. simpl. split; [lia|].
    by apply filled_write.
  - intros x y [s i] [Hi HI]. simpl in *. split; [lia|]. by apply filled_next_row.
  - intros x [s i] [Hi HI]. simpl in *. split; [lia|]. by apply filled_next_plane.
  - simpl in *. apply filled_end in HI as (G & -> & Hr & Hcells).
    exists G. replace (sx * sy * sz)%nat with i by lia. done.
Qed.

(** The loops that count the active cells for the log read inside the
    grid and return. *)
Lemma count_active_cells sx sy sz (G : grid) :
  rect sx sy sz G ->
  exists n : Z,
    for_each (upto (Some (Z.of_nat sx))) (fun x n =>
      for_each (upto (Some (Z.of_nat sy))) (fun y n =>
        for_each (upto (Some (Z.of_nat sz))) (fun z n =>
          let* v := get3 (js_of_grid G) (Some x) (Some y) (Some z) in
          Ok (if strict_eq_num v 1 then n + 1 else n)) n) n) 0 = Ok n.
Proof.
  intros Hr.
  destruct (loop_nest_inv (fun _ _ _ (_ : Z) => True) sx sy sz
    (fun x y z n =>
       let* v := get3 (js_of_grid G) (Some x) (Some y) (Some z) in
       Ok (if strict_eq_num v 1 then n + 1 else n)) 0) as (n & Hrun & _); try done.
  - intros x y z n Hin _. rewrite (get3_grid sx sy sz) by done. cbn [bind].
    by eexists.
  - by exists n.
Qed.

Lemma conditional_write sx sy sz (G : grid) x y z (c : bool) :
  in_grid sx sy sz x y z -> rect sx sy sz G -> cell G x y z = 0 ->
  (if c then set3 (js_of_grid G) (Some x) (Some y) (Some z) (JNum 1)
   else Ok (js_of_grid G))
  = Ok (js_of_grid (upd3 G x y z (if c then 1 else 0))).
Proof.
  intros Hin Hr H0. destruct c.
  - by apply (set3_grid sx sy sz).
  - rewrite <- H0. by rewrite (upd3_same sx sy sz).
Qed.

(** The patterns that write only inside their loops over the grid. *)
Lemma createInitial3DGrid_pattern_cell (sx sy sz : nat) pattern random :
  pattern ∈ total_patterns ->
  exists G : grid,
    CPU.createInitial3DGrid (Some (Z.of_nat sx)) (Some (Z.of_nat sy))
      (Some (Z.of_nat sz)) (Some pattern) random = Ok (js_of_grid G)
    /\ rect sx sy sz G
    /\ forall x y z, in_grid sx sy sz x y z ->
         cell G x y z = pattern_cell pattern sx sy sz random x y z.
Proof.
  intros Hp. unfold CPU.createInitial3DGrid. cbn [default from_option id].
  rewrite createEmpty3DGrid_zero_grid. cbn [bind].
  assert (exists G : grid,
    (if bool_decide (pattern = "checkerboard"%string)
        || bool_decide (pattern = "default"%string) then
       for_each (upto (Some (Z.of_nat sx))) (fun x grid =>
         for_each (upto (Some (Z.of_nat sy))) (fun y grid =>
           for_each (upto (Some (Z.of_nat sz))) (fun z grid =>
             if Z.rem (x + y + z) 2 =? 0
             then set3 grid (Some x) (Some y) (Some z) (JNum 1)
             else Ok grid) grid) grid) (js_of_grid (zero_grid sx sy sz))
     else if bool_decide (pattern = "cross"%string) then
       let arm := Z.min 3 (Z.of_nat sx / 4) in
       for_each (seqZ (- arm) (arm - (- arm) + 1)) (fun i grid =>
         let* grid := set3 grid (Some (Z.of_nat sx / 2 + i)) (Some (Z.of_nat sy / 2))
                        (Some (Z.of_nat sz / 2)) (JNum 1) in
         let* grid := set3 grid (Some (Z.of_nat sx / 2)) (Some (Z.of_nat sy / 2 + i))
                        (Some (Z.of_nat sz / 2)) (JNum 1) in
         set3 grid (Some (Z.of_nat sx / 2)) (Some (Z.of_nat sy / 2))
              (Some (Z.of_nat sz / 2 + i)) (JNum 1)) (js_of_grid (zero_grid sx sy sz))
     else if bool_decide (pattern = "random"%string) then
       let* '(grid, _) :=
         for_each (upto (Some (Z.of_nat sx))) (fun x st =>
           for_each (upto (Some (Z.of_nat sy))) (fun y st =>
             for_each (upto (Some (Z.of_nat sz))) (fun z '(grid, k) =>
               if random k
               then let* grid := set3 grid (Some x) (Some y) (Some z) (JNum 1) in
                    Ok (grid, S k)
               else Ok (grid, S k)) st) st) (js_of_grid (zero_grid sx sy sz), 0%nat) in
       Ok grid
     else if bool_decide (pattern = "sphere"%string) then
       let m := Z.min (Z.min (Z.of_nat sx) (Z.of_nat sy)) (Z.of_nat sz) in
       for_each (upto (Some (Z.of_nat sx))) (fun x grid =>
         for_each (upto (Some (Z.of_nat sy))) (fun y grid =>
           for_each (upto (Some (Z.of_nat sz))) (fun z grid =>
             let dx := x - Z.of_nat sx / 2 in
             let dy := y - Z.of_nat sy / 2 in
             let dz := z - Z.of_nat sz / 2 in
             if CPU.near_sphere_surface m (dx * dx + dy * dy + dz * dz)
             then set3 grid (Some x) (Some y) (Some z) (JNum 1)
             else Ok grid) grid) grid) (js_of_grid (zero_grid sx sy sz))
     else Throw Error) = Ok (js_of_grid G)
    /\ rect sx sy sz G
    /\ forall x y z, in_grid sx sy sz x y z ->
         cell G x y z = pattern_cell pattern sx sy sz random x y z) as HG.
  { unfold pattern_cell.
    destruct (decide (pattern = "random"%string)) as [->|Hrnd].
    { cbn [bool_decide decide_rel orb]. simpl bool_decide.
      destruct (fill_nest_counting sx sy sz
        (fun x y z => if random (flat_index sy sz x y z) then 1 else 0)
        (fun x y z '(grid, k) =>
           if random k
           then let* grid := set3 grid (Some x) (Some y) (Some z) (JNum 1) in
                Ok (grid, S k)
           else Ok (grid, S k))) as (G & Hrun & Hr & Hcells).
      - intros x y z G Hin Hr H0. destruct (random _).
        + by rewrite (set3_grid sx sy sz).
        + rewrite <- H0. by rewrite (upd3_same sx sy sz).
      - exists G. rewrite Hrun. done. }
    destruct (decide (pattern = "sphere"%string)) as [->|Hsph].
    { simpl bool_decide. cbn [orb].
      apply (fill_nest sx sy sz (fun x y z =>
        if CPU.near_sphere_surface
             (Z.min (Z.min (Z.of_nat sx) (Z.of_nat sy)) (Z.of_nat sz))
             ((x - Z.of_nat sx / 2) * (x - Z.of_nat sx / 2)
              + (y - Z.of_nat sy / 2) * (y - Z.of_nat sy / 2)
              + (z - Z.of_nat sz / 2) * (z - Z.of_nat sz / 2))
        then 1 else 0)).
      intros x y z G Hin Hr H0. cbv zeta. by apply (conditional_write sx sy sz). }
    assert (bool_decide (pattern = "checkerboard"%string)
            || bool_decide (pattern = "default"%string) = true) as ->.
    { unfold total_patterns in Hp. rewrite !elem_of_cons, elem_of_nil in Hp.
      destruct Hp as [->|[->|[->|[->|[]]]]]; done. }
    apply (fill_nest sx sy sz (fun x y z =>
      if decide ((x + y + z) mod 2 = 0) then 1 else 0)).
    intros x y z G Hin Hr H0.
    assert (0 <= x + y + z) by (destruct Hin as (?&?&?); lia).
    rewrite Z.rem_mod_nonneg by lia.
    rewrite (conditional_write sx sy sz) by done. do 3 f_equal.
    destruct (Z.eqb_spec ((x + y + z) mod 2) 0);
      [by rewrite decide_True | by rewrite decide_False]. }
  destruct HG as (G & HG & Hr & Hcells).
  exists G. split; [|done].
  match goal with
  | |- context [bind ?m _] =>
      match m with
      | (if _ then _ else _) => replace m with (Ok (js_of_grid G) : result jsval)
      end
  end.
  - cbn [bind]. destruct (count_active_cells sx sy sz G Hr) as (n & ->). done.
  - rewrite <- HG. unfold total_patterns in Hp.
    rewrite !elem_of_cons, elem_of_nil in Hp.
    destruct Hp as [->|[->|[->|[->|[]]]]]; reflexivity.
Qed.

(** X5. Pattern generator, checkerboard: with the pattern omitted,
    'checkerboard' or 'default', createInitial3DGrid returns for all
    dimensions below 2^32 (zero included) the grid that is 1 exactly where
    x + y + z is even, and does not throw. *)
Theorem X5_checkerboard_pattern (sx sy sz : nat) (pattern : option string) random :
  Z.of_nat sx < 4294967296 -> Z.of_nat sy < 4294967296 -> Z.of_nat sz < 4294967296 ->
  pattern = None \/ pattern = Some "checkerboard"%string
  \/ pattern = Some "default"%string ->
  CPU.createInitial3DGrid (Some (Z.of_nat sx)) (Some (Z.of_nat sy))
    (Some (Z.of_nat sz)) pattern random
  = Ok (js_of_grid (checkerboard_grid sx sy sz)).
Proof.
  intros _ _ _ Hp.
  assert (exists p, p ∈ total_patterns /\ p <> "random"%string /\ p <> "sphere"%string
    /\ CPU.createInitial3DGrid (Some (Z.of_nat sx)) (Some (Z.of_nat sy))
         (Some (Z.of_nat sz)) pattern random
       = CPU.createInitial3DGrid (Some (Z.of_nat sx)) (Some (Z.of_nat sy))
           (Some (Z.of_nat sz)) (Some p) random) as (p & Hin & Hr & Hs & ->).
  { unfold total_patterns.
    destruct Hp as [->|[->| ->]];
      [exists "checkerboard"%string | exists "checkerboard"%string
       | exists "default"%string];
      rewrite !elem_of_cons; repeat split; auto; discriminate. }
  destruct (createInitial3DGrid_pattern_cell sx sy sz p random Hin)
    as (G & -> & Hrect & Hcells).
  do 2 f_equal. apply (rect_ext sx sy sz); [done | apply rect_grid_of |].
  intros x y z Hxyz. rewrite (Hcells x y z Hxyz).
  unfold checkerboard_grid. rewrite cell_grid_of by done.
  unfold pattern_cell. rewrite (decide_False (P := p = "random"%string)) by done.
  by rewrite (decide_False (P := p = "sphere"%string)) by done.
Qed.

Lemma X5_checkerboard_pattern_witness :
  CPU.createInitial3DGrid (Some (Z.of_nat 2)) (Some (Z.of_nat 3)) (Some (Z.of_nat 2))
    (Some "default"%string) (fun _ => true)
  = Ok (js_of_grid (checkerboard_grid 2 3 2)).
Proof.
  apply (X5_checkerboard_pattern 2 3 2 (Some "default"%string) (fun _ => true)).
  - lia.
  - lia.
  - lia.
  - right. right. reflexivity.
Defined.

(** X6. Pattern generator, random: for dimensions below 2^32,
    createInitial3DGrid with 'random' returns a grid of the dimensions asked
    for, having drawn once per cell in the order of the loops: cell (x,y,z)
    is 1 iff draw number x*sizeY*sizeZ + y*sizeZ + z came out below 0.3. *)
Theorem X6_random_pattern_draws (sx sy sz : nat) random :
  Z.of_nat sx < 4294967296 -> Z.of_nat sy < 4294967296 -> Z.of_nat sz < 4294967296 ->
  exists G : grid,
    CPU.createInitial3DGrid (Some (Z.of_nat sx)) (Some (Z.of_nat sy))
      (Some (Z.of_nat sz)) (Some "random"%string) random = Ok (js_of_grid G)
    /\ rect sx sy sz G
    /\ forall x y z, in_grid sx sy sz x y z ->
         cell G x y z =
         if random (Z.to_nat (x * Z.of_nat sy * Z.of_nat sz + y * Z.of_nat sz + z))
         then 1 else 0.
Proof.
  intros _ _ _.
  destruct (createInitial3DGrid_pattern_cell sx sy sz "random" random)
    as (G & HG & Hrect & Hcells).
  { unfold total_patterns. rewrite !elem_of_cons. auto. }
  exists G. split; [done|]. split; [done|].
  intros x y z Hxyz. rewrite (Hcells x y z Hxyz).
  unfold pattern_cell, flat_index. rewrite decide_True by done.
  replace ((x * Z.of_nat sy + y) * Z.of_nat sz + z)
    with (x * Z.of_nat sy * Z.of_nat sz + y * Z.of_nat sz + z) by lia.
  done.
Qed.

Lemma X6_random_pattern_draws_witness :
  exists G : grid,
    CPU.createInitial3DGrid (Some (Z.of_nat 2)) (Some (Z.of_nat 1))
      (Some (Z.of_nat 2)) (Some "random"%string) Nat.even = Ok (js_of_grid G)
    /\ rect 2 1 2 G
    /\ forall x y z, in_grid 2 1 2 x y z ->
         cell G x y z =
         if Nat.even (Z.to_nat (x * Z.of_nat 1 * Z.of_nat 2 + y * Z.of_nat 2 + z))
         then 1 else 0.
Proof.
  apply (X6_random_pattern_draws 2 1 2 Nat.even).
  - lia.
  - lia.
  - lia.
Defined.

Lemma pattern_for_rule_total rule3D : APP.pattern_for_rule rule3D ∈ total_patterns.
Proof.
  unfold APP.pattern_for_rule, total_patterns. rewrite !elem_of_cons.
  repeat case_bool_decide; auto.
Qed.

Lemma pattern_cell_binary pattern sx sy sz random x y z :
  pattern_cell pattern sx sy sz random x y z = 0
  \/ pattern_cell pattern sx sy sz random x y z = 1.
Proof.
  unfold pattern_cell. repeat case_decide; cbv zeta;
    repeat match goal with |- context [if ?c then _ else _] => destruct c end; auto.
Qed.

(** X7. Application, the grids it creates: the grid that handleReset3D,
    handleRuleChange3D and handleGridSizeChange3D build for a rule and a grid
    size n below 2^32 (pattern 'checkerboard', 'random' or 'sphere') is
    always returned, is an n x n x n grid of 0 and 1, and for n > 0 passes
    the guard of the step functions. *)
Theorem X7_app_reset_grid_is_valid (n : nat) rule3D random :
  Z.of_nat n < 4294967296 ->
  exists G : grid,
    APP.reset_grid rule3D (Z.of_nat n) random = Ok (js_of_grid G)
    /\ rect n n n G
    /\ (forall x y z, in_grid n n n x y z -> cell G x y z = 0 \/ cell G x y z = 1)
    /\ ((0 < n)%nat -> CPU.invalid_grid (js_of_grid G) = Ok false).
Proof.
  intros _. unfold APP.reset_grid.
  destruct (createInitial3DGrid_pattern_cell n n n (APP.pattern_for_rule rule3D) random
              (pattern_for_rule_total rule3D)) as (G & HG & Hrect & Hcells).
  exists G. split; [done|]. split; [done|]. split.
  - intros x y z Hxyz. rewrite (Hcells x y z Hxyz). apply pattern_cell_binary.
  - intros Hn. by apply (invalid_grid_grid n n n).
Qed.

Lemma X7_app_reset_grid_is_valid_witness :
  exists G : grid,
    APP.reset_grid "briansbrain3d" (Z.of_nat 3) Nat.even = Ok (js_of_grid G)
    /\ rect 3 3 3 G
    /\ (forall x y z, in_grid 3 3 3 x y z -> cell G x y z = 0 \/ cell G x y z = 1)
    /\ ((0 < 3)%nat -> CPU.invalid_grid (js_of_grid G) = Ok false).
Proof.
  apply (X7_app_reset_grid_is_valid 3 "briansbrain3d" Nat.even).
  lia.
Defined.

(** On a torus of even sizes the checkerboard has 12 live neighbours at
    every live cell and 14 at every dead cell. *)
Lemma mod_even_parity (a : Z) (s : nat) :
  (0 < s)%nat -> Z.of_nat s mod 2 = 0 -> (a mod Z.of_nat s) mod 2 = a mod 2.
Proof.
  intros Hs He.
  assert (Z.of_nat s = 2 * (Z.of_nat s / 2)) as Hs2
    by (apply Z_div_exact_full_2; lia).
  rewrite (Z.mod_eq a (Z.of_nat s)) by lia.
  rewrite Hs2 at 1.
  replace (a - 2 * (Z.of_nat s / 2) * (a / Z.of_nat s))
    with (a + (- (Z.of_nat s / 2 * (a / Z.of_nat s))) * 2) by lia.
  apply Z_mod_plus_full.
Qed.

Lemma parity_count (p : Z) :
  p = 0 \/ p = 1 ->
  Z.of_nat (length (filter (fun '(dx, dy, dz) => (p + dx + dy + dz) mod 2 = 0)
                           neighbour_offsets))
  = if decide (p = 0) then 12 else 14.
Proof. intros [->| ->]; vm_compute; reflexivity. Qed.

Lemma checkerboard_count (sx sy sz : nat) x y z :
  (0 < sx)%nat -> (0 < sy)%nat -> (0 < sz)%nat ->
  Z.of_nat sx mod 2 = 0 -> Z.of_nat sy mod 2 = 0 -> Z.of_nat sz mod 2 = 0 ->
  wrapped_live_count (checkerboard_grid sx sy sz) sx sy sz x y z
  = if decide ((x + y + z) mod 2 = 0) then 12 else 14.
Proof.
  intros Hx Hy Hz Ex Ey Ez.
  assert ((x + y + z) mod 2 = 0 \/ (x + y + z) mod 2 = 1) as Hp
    by (pose proof (Z.mod_pos_bound (x + y + z) 2); lia).
  rewrite <- (parity_count _ Hp). unfold wrapped_live_count. f_equal.
  apply filter_length_ext. intros [[dx dy] dz] _.
  unfold checkerboard_grid. rewrite cell_grid_of by (by apply in_grid_mod).
  assert (((x + dx) mod Z.of_nat sx + (y + dy) mod Z.of_nat sy
           + (z + dz) mod Z.of_nat sz) mod 2
          = ((x + y + z) mod 2 + dx + dy + dz) mod 2) as ->.
  { rewrite (Z.add_mod (_ + _) _ 2), (Z.add_mod ((x + dx) mod _) _ 2) by lia.
    rewrite !mod_even_parity by done.
    rewrite <- (Z.add_mod (x + dx)), <- Z.add_mod by lia.
    replace ((x + y + z) mod 2 + dx + dy + dz)
      with ((x + y + z) mod 2 + (dx + dy + dz)) by lia.
    rewrite Zplus_mod_idemp_l. f_equal. lia. }
  case_decide; split; intros; (done || lia).
Qed.

(** X8. The checkerboard under the Birth/Survival rules: on a grid of even
    positive dimensions below 2^32 every live cell of the checkerboard
    pattern has 12 live neighbours and every dead cell 14, counts that are in
    no set of the table; so one CPU step with any rule name other than
    'briansbrain3d' and 'checkerboard' that Object.prototype does not define
    turns the pattern into the all-zero grid. *)
Theorem X8_checkerboard_dies_in_one_step (sx sy sz : nat) ruleName random :
  (0 < sx)%nat -> (0 < sy)%nat -> (0 < sz)%nat ->
  Z.of_nat sx < 4294967296 -> Z.of_nat sy < 4294967296 -> Z.of_nat sz < 4294967296 ->
  Z.of_nat sx mod 2 = 0 -> Z.of_nat sy mod 2 = 0 -> Z.of_nat sz mod 2 = 0 ->
  ruleName <> "briansbrain3d"%string -> ruleName <> "checkerboard"%string ->
  ruleName ∉ object_prototype_names ->
  (let* g := CPU.createInitial3DGrid (Some (Z.of_nat sx)) (Some (Z.of_nat sy))
               (Some (Z.of_nat sz)) (Some "checkerboard"%string) random in
   CPU.calculateNextGeneration3D g (Some ruleName))
  = Ok (js_of_grid (zero_grid sx sy sz)).
Proof.
  intros Hx Hy Hz _ _ _ Ex Ey Ez Hbb Hcb Hni.
  destruct (createInitial3DGrid_pattern_cell sx sy sz "checkerboard" random)
    as (G & -> & Hrect & Hcells).
  { unfold total_patterns. rewrite !elem_of_cons. auto. }
  assert (G = checkerboard_grid sx sy sz) as ->.
  { apply (rect_ext sx sy sz); [done | apply rect_grid_of |].
    intros x y z Hxyz. rewrite (Hcells x y z Hxyz).
    unfold checkerboard_grid. by rewrite cell_grid_of. }
  cbn [bind].
  destruct (cpu_step_cells sx sy sz (checkerboard_grid sx sy sz) ruleName)
    as (g' & -> & Hr' & Hc); try done.
  do 2 f_equal. apply (rect_ext sx sy sz); [done | apply rect_zero_grid |].
  intros x y z Hxyz. rewrite (Hc x y z Hxyz), cell_zero_grid.
  unfold cpu_next. rewrite !decide_False by done.
  rewrite checkerboard_count by done.
  destruct (lookup_rule_bs ruleName Hbb Hcb Hni) as (b & s & -> & Hb & Hs). simpl.
  unfold checkerboard_grid. rewrite cell_grid_of by done.
  destruct (decide ((x + y + z) mod 2 = 0)).
  - rewrite decide_True by done.
    rewrite decide_False; [done|]. apply (Forall_not_elem 3 10); [done | lia].
  - rewrite decide_False by done.
    rewrite decide_False; [done|]. apply (Forall_not_elem 3 10); [done | lia].
Qed.

Lemma X8_checkerboard_dies_in_one_step_witness :
  (let* g := CPU.createInitial3DGrid (Some (Z.of_nat 4)) (Some (Z.of_nat 2))
               (Some (Z.of_nat 2)) (Some "checkerboard"%string) (fun _ => false) in
   CPU.calculateNextGeneration3D g (Some "hyper"%string))
  = Ok (js_of_grid (zero_grid 4 2 2)).
Proof.
  apply (X8_checkerboard_dies_in_one_step 4 2 2 "hyper" (fun _ => false)).
  - lia.
  - lia.
  - lia.
  - lia.
  - lia.
  - lia.
  - reflexivity.
  - reflexivity.
  - reflexivity.
  - discriminate.
  - discriminate.
  - not_inherited.
Defined.

(** ** The tensor engine on well-formed grids *)

(** *** Exact arithmetic on integer-valued floats *)

Lemma Qred_inject_Z (n : Z) : Qred (inject_Z n) = inject_Z n.
Proof.
  unfold Qred, inject_Z.
  pose proof (Z.ggcd_gcd n 1) as Hg.
  pose proof (Z.ggcd_correct_divisors n 1) as Hd.
  destruct (Z.ggcd n 1) as [g [aa bb]]. simpl in *.
  rewrite Z.gcd_1_r in Hg. subst g. destruct Hd as [Ha Hb].
  assert (aa = n) as -> by lia. assert (bb = 1) as -> by lia. done.
Qed.

Lemma fadd_Z (a b : Z) :
  fadd (Some (inject_Z a)) (Some (inject_Z b)) = Some (inject_Z (a + b)).
Proof.
  unfold fadd. f_equal. rewrite <- (Qred_inject_Z (a + b)).
  apply Qred_complete. by rewrite inject_Z_plus.
Qed.

Lemma fmul_Z (a b : Z) :
  fmul (Some (inject_Z a)) (Some (inject_Z b)) = Some (inject_Z (a * b)).
Proof.
  unfold fmul. f_equal. rewrite <- (Qred_inject_Z (a * b)).
  apply Qred_complete. by rewrite inject_Z_mult.
Qed.

Lemma fcmp_Z (c : comparison) (n a : Z) (b : positive) :
  fcmp c (Some (inject_Z n)) (a # b) = bool_decide ((n * Z.pos b ?= a) = c).
Proof.
  unfold fcmp, Qcompare. simpl. by rewrite Z.mul_1_r.
Qed.

Lemma js_round_Z (n : Z) : js_round (Some (inject_Z n)) = JNum n.
Proof.
  unfold js_round. f_equal.
  unfold Qfloor, Qplus, inject_Z. simpl.
  rewrite Z.mul_1_r.
  replace (n * 2 + 1) with (1 + n * 2) by lia.
  rewrite Z.div_add by lia. done.
Qed.

(** *** Flat lists made by nested traversals *)

Lemma lookup_bind_uniform {A B} (f : A -> list B) (n : nat) (l : list A) i j x :
  (forall a, length (f a) = n) -> l !! i = Some x -> (j < n)%nat ->
  (l ≫= f) !! (i * n + j)%nat = f x !! j.
Proof.
  intros Hf. revert i. induction l as [|a l IH]; intros i Hi Hj; [done|].
  rewrite bind_cons. destruct i as [|i]; simpl in *.
  - simplify_eq. apply lookup_app_l. by rewrite Hf.
  - rewrite lookup_app_r by (rewrite Hf; lia).
    rewrite Hf. replace (n + i * n + j - n)%nat with (i * n + j)%nat by lia.
    by apply IH.
Qed.

Lemma length_bind_uniform {A B} (f : A -> list B) (n : nat) (l : list A) :
  (forall a, length (f a) = n) -> length (l ≫= f) = (length l * n)%nat.
Proof.
  intros Hf. induction l as [|a l IH]; [done|].
  rewrite bind_cons, length_app, Hf, IH. simpl. lia.
Qed.

(** The list a traversal of an [na] x [nb] x [nc] box produces holds the
    element of (a,b,c) at index (a * nb + b) * nc + c. *)
Lemma lookup_nest3 {A} (F : Z -> Z -> Z -> A) (na nb nc : nat) a b c :
  in_grid na nb nc a b c ->
  (a ← seqZ 0 (Z.of_nat na); b ← seqZ 0 (Z.of_nat nb); c ← seqZ 0 (Z.of_nat nc);
   [F a b c]) !! flat_index nb nc a b c = Some (F a b c).
Proof.
  intros (Ha & Hb & Hc). unfold flat_index.
  assert (forall a b, length (c ← seqZ 0 (Z.of_nat nc); [F a b c]) = nc) as Hlc.
  { intros a' b'. rewrite (length_bind_uniform _ 1) by done.
    rewrite length_seqZ. lia. }
  assert (forall a, length (b ← seqZ 0 (Z.of_nat nb); c ← seqZ 0 (Z.of_nat nc);
                           [F a b c]) = (nb * nc)%nat) as Hlb.
  { intros a'. rewrite (length_bind_uniform _ nc) by done.
    by rewrite length_seqZ, Nat2Z.id. }
  replace (Z.to_nat ((a * Z.of_nat nb + b) * Z.of_nat nc + c))
    with (Z.to_nat a * (nb * nc) + (Z.to_nat b * nc + Z.to_nat c))%nat by nia.
  rewrite (lookup_bind_uniform _ (nb * nc) _ _ _ a); [|done| |nia].
  2: { rewrite lookup_seqZ_lt by lia. f_equal. lia. }
  rewrite (lookup_bind_uniform _ nc _ _ _ b); [|done| |lia].
  2: { rewrite lookup_seqZ_lt by lia. f_equal. lia. }
  replace (Z.to_nat c) with (Z.to_nat c * 1 + 0)%nat by lia.
  rewrite (lookup_bind_uniform _ 1 _ _ _ c); [done|done| |lia].
  rewrite lookup_seqZ_lt by lia. f_equal. lia.
Qed.

Lemma length_nest3 {A} (F : Z -> Z -> Z -> A) (na nb nc : nat) :
  length (a ← seqZ 0 (Z.of_nat na); b ← seqZ 0 (Z.of_nat nb);
          c ← seqZ 0 (Z.of_nat nc); [F a b c]) = (na * nb * nc)%nat.
Proof.
  rewrite (length_bind_uniform _ (nb * nc)).
  - rewrite length_seqZ. lia.
  - intros a. rewrite (length_bind_uniform _ nc).
    + rewrite length_seqZ. lia.
    + intros b. rewrite (length_bind_uniform _ 1) by done.
      rewrite length_seqZ. lia.
Qed.

(** *** The tensor of a grid and its convolution *)

Lemma tf_initialize_grid sx sy sz (g : grid) (this : TF.instance) ruleName :
  rect sx sy sz g -> (0 < sx)%nat -> (0 < sy)%nat ->
  exists flat,
    TF.initialize this (js_of_grid g) ruleName
    = Ok (TF.Instance true
            (Some (TF.Tensor (Z.of_nat sx, Z.of_nat sy, Z.of_nat sz) flat))
            (Some (Z.of_nat sx), Some (Z.of_nat sy), Some (Z.of_nat sz)) ruleName
            (Some TF.createConvolutionKernel))
    /\ length flat = (sx * sy * sz)%nat
    /\ forall x y z, in_grid sx sy sz x y z ->
         flat !! flat_index sy sz x y z = Some (Some (inject_Z (cell g x y z))).
Proof.
  intros Hr Hx Hy.
  destruct (tf_flatten sx sy sz g Hr) as (flat & Hflat & Hlen & Hcells).
  exists flat. split; [|split; [done|]].
  - unfold TF.initialize. rewrite (sizes_grid sx sy sz) by done. cbn [bind].
    rewrite Hflat. cbn [bind]. unfold TF.tensor3d.
    rewrite bool_decide_eq_true_2 by (rewrite Hlen; lia). done.
  - intros x y z Hin. rewrite <- (Hcells x y z Hin). unfold flat_index.
    do 2 f_equal. lia.
Qed.

Lemma at_padded_grid sx sy sz (g : grid) flat x y z :
  (forall x y z, in_grid sx sy sz x y z ->
     flat !! flat_index sy sz x y z = Some (Some (inject_Z (cell g x y z)))) ->
  TF.at_padded (TF.Tensor (Z.of_nat sx, Z.of_nat sy, Z.of_nat sz) flat) x y z
  = Some (inject_Z (padded_cell sx sy sz g x y z)).
Proof.
  intros Hcells. unfold TF.at_padded, padded_cell. simpl.
  destruct (_ && _) eqn:E; [|done].
  fold (flat_index sy sz x y z). rewrite Hcells; [done|].
  repeat (apply andb_prop in E as [E ?]). unfold in_grid. lia.
Qed.

(** The convolution with the kernel adds up the 26 neighbours. *)
Lemma conv_kernel_sum (a : Z -> Z -> Z -> float) (q : Z -> Z -> Z -> Z) :
  (forall i j k, a i j k = Some (inject_Z (q i j k))) ->
  foldl fadd (Some 0%Q)
    (i ← seqZ 0 3; j ← seqZ 0 3; k ← seqZ 0 3;
     [fmul (a i j k)
           (default None (TF.createConvolutionKernel !! Z.to_nat ((i * 3 + j) * 3 + k)))])
  = Some (inject_Z (sumZ ((fun '(dx, dy, dz) => q (dx + 1) (dy + 1) (dz + 1))
                            <$> neighbour_offsets))).
Proof.
  intros Ha. rewrite neighbour_offsets_eq.
  match goal with
  | |- ?l = _ => let l' := eval cbv -[fmul fadd] in l in change l with l'
  end.
  rewrite !Ha.
  change (Some (0 # 1)%Q) with (Some (inject_Z 0)).
  change (Some (1 # 1)%Q) with (Some (inject_Z 1)).
  rewrite !fmul_Z, !fadd_Z. do 2 f_equal.
  unfold sumZ. cbn [fmap list_fmap foldr].
  change (-1 + 1) with 0. change (0 + 1) with 1. change (1 + 1) with 2.
  lia.
Qed.

Lemma conv_grid sx sy sz (g : grid) flat x y z :
  (forall x y z, in_grid sx sy sz x y z ->
     flat !! flat_index sy sz x y z = Some (Some (inject_Z (cell g x y z)))) ->
  in_grid sx sy sz x y z ->
  TF.values (TF.conv3d_same (TF.Tensor (Z.of_nat sx, Z.of_nat sy, Z.of_nat sz) flat)
               TF.createConvolutionKernel) !! flat_index sy sz x y z
  = Some (Some (inject_Z (padded_sum sx sy sz g x y z))).
Proof.
  intros Hcells Hin. unfold TF.conv3d_same. cbn [TF.shape TF.values].
  rewrite (lookup_nest3 _ sx sy sz) by done. f_equal.
  rewrite (conv_kernel_sum _ (fun i j k =>
    padded_cell sx sy sz g (x + i - 1) (y + j - 1) (z + k - 1)))
    by (intros; by apply at_padded_grid).
  do 2 f_equal. unfold padded_sum. f_equal.
  apply list_fmap_ext. intros _ [[dx dy] dz] _. f_equal; lia.
Qed.

(** *** The rule on one element of the tensor *)

Lemma rule_flags_lookup (l : list Z) (init : list Z) (i : Z) :
  0 <= i < 27 -> length init = 27%nat ->
  (0 <? default 0 (foldl (fun flags v =>
           if (0 <=? v) && (v <? 27) then <[Z.to_nat v := 1]> flags else flags)
         init l !! Z.to_nat i))
  = (0 <? default 0 (init !! Z.to_nat i)) || bool_decide (i ∈ l).
Proof.
  intros Hi. revert init. induction l as [|v l IH]; intros init Hlen; simpl.
  - by rewrite orb_false_r.
  - destruct ((0 <=? v) && (v <? 27)) eqn:E.
    + apply andb_prop in E as [E1 E2].
      rewrite IH by (by rewrite length_insert).
      destruct (decide (i = v)) as [->|Hne].
      * rewrite list_lookup_insert_eq by lia. simpl.
        rewrite bool_decide_eq_true_2 by (apply elem_of_cons; by left).
        by rewrite orb_true_r.
      * rewrite list_lookup_insert_ne by lia. f_equal.
        apply bool_decide_ext. rewrite elem_of_cons.
        split; [by right|]. by intros [?|?].
    + rewrite IH by done. f_equal.
      apply bool_decide_ext. rewrite elem_of_cons.
      split; [by right|]. intros [->|?]; [|done].
      apply andb_false_iff in E. lia.
Qed.

Lemma rule_flags_spec (l : list Z) :
  exists flags, TF.rule_flags (Some l) = Ok flags
    /\ forall i, 0 <= i < 27 ->
         (0 <? default 0 (flags !! Z.to_nat i)) = bool_decide (i ∈ l).
Proof.
  eexists. split; [reflexivity|]. intros i Hi.
  rewrite rule_flags_lookup by (done || by rewrite length_replicate).
  rewrite lookup_replicate_2 by lia. done.
Qed.

(** A fold of elementwise steps that add an integer is, at one index, the
    sum of what the steps add. *)
Lemma foldl_elementwise (step : list float -> Z -> list float) (f : Z -> Z)
    (k : nat) (l : list Z) (ns : list float) (m : Z) :
  (forall ns i m, i ∈ l -> ns !! k = Some (Some (inject_Z m)) ->
     step ns i !! k = Some (Some (inject_Z (m + f i)))) ->
  ns !! k = Some (Some (inject_Z m)) ->
  foldl step ns l !! k = Some (Some (inject_Z (foldl (fun a i => a + f i) m l))).
Proof.
  revert ns m. induction l as [|i l IH]; intros ns m Hstep Hk; [done|].
  simpl. apply IH.
  - intros ns' j a' Hj. apply Hstep, elem_of_cons. by right.
  - apply Hstep; [apply elem_of_cons; by left | done].
Qed.

Lemma foldl_select (w : Z -> Z) (c : Z) (n : nat) :
  foldl (fun a i => a + (if decide (c = i) then w i else 0)) 0 (seqZ 0 (Z.of_nat n))
  = if decide (0 <= c < Z.of_nat n) then w c else 0.
Proof.
  induction n as [|n IH].
  - simpl. rewrite decide_False by lia. done.
  - rewrite seqZ_S, foldl_app, IH. simpl. rewrite Z.add_0_l.
    destruct (decide (c = Z.of_nat n)) as [->|Hne].
    + rewrite decide_False by lia. rewrite decide_True by lia. lia.
    + destruct (decide (0 <= c < Z.of_nat n)).
      * rewrite decide_True by lia. lia.
      * rewrite decide_False by lia. lia.
Qed.

Lemma fmul_of_bool (b : bool) :
  fmul (of_bool b) (Some 1%Q) = Some (inject_Z (if b then 1 else 0)).
Proof. by destruct b. Qed.

Lemma fcmp_Z_lt_half (v : Z) :
  fcmp Lt (Some (inject_Z v)) (1 # 2) = bool_decide (v <= 0).
Proof.
  rewrite fcmp_Z. apply bool_decide_ext. rewrite Z.compare_lt_iff. lia.
Qed.

Lemma fcmp_Z_gt_half (v : Z) :
  fcmp Gt (Some (inject_Z v)) (1 # 2) = bool_decide (1 <= v).
Proof.
  rewrite fcmp_Z. apply bool_decide_ext. rewrite Z.compare_gt_iff. lia.
Qed.

Lemma fcmp_Z_eq (n i : Z) :
  fcmp Eq (Some (inject_Z n)) (inject_Z i) = bool_decide (n = i).
Proof.
  unfold inject_Z at 2. rewrite fcmp_Z. apply bool_decide_ext.
  rewrite Z.compare_eq_iff. lia.
Qed.

(** A lookup in a list of floats, whichever way its element type is written. *)
Ltac float_lookup H :=
  match type of H with
  | @lookup _ _ _ _ ?k ?l = ?r =>
      change (@lookup nat float (list float) (@list_lookup float) k l = r) in H
  end.

Ltac option_lookup H :=
  match type of H with
  | @lookup _ _ _ _ ?k ?l = ?r =>
      change (@lookup nat (option Q) (list float) (@list_lookup float) k l = r) in H
  end.

Ltac rewrite_lookup H :=
  first [rewrite H | float_lookup H; rewrite H | option_lookup H; rewrite H].

Lemma mask_lookup (t : TF.tensor) (nc : TF.tensor) (k : nat) (v n i : Z)
    (c : comparison) (q : Q) :
  TF.values t !! k = Some (Some (inject_Z v)) ->
  TF.values nc !! k = Some (Some (inject_Z n)) ->
  TF.mul_scalar
    (TF.logicalAnd ((fun a => fcmp c a q) <$> TF.values t) (TF.equal nc (inject_Z i))) 1
  !! k
  = Some (Some (inject_Z (if fcmp c (Some (inject_Z v)) q && bool_decide (n = i)
                          then 1 else 0))).
Proof.
  intros Hv Hn. float_lookup Hv. float_lookup Hn.
  assert (((fun a => fcmp c a q) <$> TF.values t) !! k
          = Some (fcmp c (Some (inject_Z v)) q)) as H1
    by (by rewrite list_lookup_fmap, Hv).
  assert (TF.equal nc (inject_Z i) !! k = Some (bool_decide (n = i))) as H2.
  { unfold TF.equal. rewrite list_lookup_fmap, Hn.
    cbn [fmap option_fmap option_map]. by rewrite fcmp_Z_eq. }
  unfold TF.mul_scalar, TF.logicalAnd.
  rewrite list_lookup_fmap.
  rewrite (proj2 (lookup_zip_with_Some andb _ _ k
                    (fcmp c (Some (inject_Z v)) q && bool_decide (n = i))))
    by (do 2 eexists; split; [reflexivity|]; by split).
  cbn [fmap option_fmap option_map]. by rewrite fmul_of_bool.
Qed.

Lemma add_lookup (ns ms : list float) (k : nat) (a b : Z) :
  ns !! k = Some (Some (inject_Z a)) -> ms !! k = Some (Some (inject_Z b)) ->
  TF.add ns ms !! k = Some (Some (inject_Z (a + b))).
Proof.
  intros Ha Hb. unfold TF.add.
  rewrite (proj2 (lookup_zip_with_Some fadd _ _ k
                    (fadd (Some (inject_Z a)) (Some (inject_Z b)))))
    by (do 2 eexists; split; [reflexivity|]; by split).
  by rewrite fadd_Z.
Qed.

(** [processStandardRule] at one cell: the new value is 1 when the rule
    gives birth or survival for the sum the convolution found, else 0. *)
Lemma processStandardRule_grid sx sy sz (g : grid) flat birth survival :
  length flat = (sx * sy * sz)%nat ->
  (forall x y z, in_grid sx sy sz x y z ->
     flat !! flat_index sy sz x y z = Some (Some (inject_Z (cell g x y z)))) ->
  exists next,
    TF.processStandardRule (TF.Tensor (Z.of_nat sx, Z.of_nat sy, Z.of_nat sz) flat)
      TF.createConvolutionKernel (Some birth) (Some survival)
    = Ok (TF.Tensor (Z.of_nat sx, Z.of_nat sy, Z.of_nat sz) next)
    /\ forall x y z, in_grid sx sy sz x y z ->
         next !! flat_index sy sz x y z =
         Some (Some (inject_Z (
           let n := padded_sum sx sy sz g x y z in
           if decide (0 <= n < 27) then
             (if bool_decide (cell g x y z <= 0) && bool_decide (n ∈ birth) then 1 else 0)
             + (if bool_decide (1 <= cell g x y z) && bool_decide (n ∈ survival)
                then 1 else 0)
           else 0))).
Proof.
  intros Hlen Hcells. unfold TF.processStandardRule.
  destruct (rule_flags_spec birth) as (fb & -> & Hfb).
  destruct (rule_flags_spec survival) as (fs & -> & Hfs).
  cbn [bind TF.shape]. eexists. split; [reflexivity|].
  intros x y z Hin.
  set (t := TF.Tensor (Z.of_nat sx, Z.of_nat sy, Z.of_nat sz) flat).
  set (k := flat_index sy sz x y z).
  set (v := cell g x y z).
  set (n := padded_sum sx sy sz g x y z).
  assert (TF.values t !! k = Some (Some (inject_Z v))) as Hv by (by apply Hcells).
  assert (TF.values (TF.conv3d_same t TF.createConvolutionKernel) !! k
          = Some (Some (inject_Z n))) as Hn by (by apply conv_grid).
  clearbody t k v n.
  rewrite (foldl_elementwise _
    (fun i =>
       if decide (n = i) then
         (if bool_decide (v <= 0) && bool_decide (i ∈ birth) then 1 else 0)
         + (if bool_decide (1 <= v) && bool_decide (i ∈ survival) then 1 else 0)
       else 0) k (seqZ 0 27) _ 0).
  - do 3 f_equal. change 27 with (Z.of_nat 27).
    rewrite (foldl_select (fun i =>
      (if bool_decide (v <= 0) && bool_decide (i ∈ birth) then 1 else 0)
      + (if bool_decide (1 <= v) && bool_decide (i ∈ survival) then 1 else 0))).
    done.
  - intros ns i m Hi Ha. apply elem_of_seqZ in Hi.
    rewrite Hfb, Hfs by lia.
    pose proof (mask_lookup t _ k v n i Lt (1 # 2) Hv Hn) as Hdead.
    pose proof (mask_lookup t _ k v n i Gt (1 # 2) Hv Hn) as Halive.
    rewrite fcmp_Z_lt_half in Hdead. rewrite fcmp_Z_gt_half in Halive.
    fold (TF.less t (1 # 2)) in Hdead. fold (TF.greater t (1 # 2)) in Halive.
    destruct (bool_decide (i ∈ birth)), (bool_decide (i ∈ survival));
      rewrite ?andb_true_r, ?andb_false_r.
    + rewrite (add_lookup _ _ k _ _ (add_lookup _ _ k _ _ Ha Hdead) Halive).
      do 3 f_equal. repeat case_bool_decide; repeat case_decide; simpl; lia.
    + rewrite (add_lookup _ _ k _ _ Ha Hdead).
      do 3 f_equal. repeat case_bool_decide; repeat case_decide; simpl; lia.
    + rewrite (add_lookup _ _ k _ _ Ha Halive).
      do 3 f_equal. repeat case_bool_decide; repeat case_decide; simpl; lia.
    + rewrite Ha. do 3 f_equal. repeat case_decide; lia.
  - float_lookup Hv. unfold TF.zeros. by rewrite list_lookup_fmap, Hv.
Qed.

(** *** Reading the tensor back *)

Lemma tf_decode sx sy sz (ruleName : string) (next : list float)
    (r : Z -> Z -> Z -> Z) :
  (forall x y z, in_grid sx sy sz x y z ->
     exists value, next !! flat_index sy sz x y z = Some value
       /\ tf_decoded ruleName value = Some (r x y z)) ->
  exists G' : grid,
    for_each (upto (Some (Z.of_nat sx))) (fun x st =>
      for_each (upto (Some (Z.of_nat sy))) (fun y st =>
        for_each (upto (Some (Z.of_nat sz))) (fun z '(result, i) =>
          let value := default None (next !! i) in
          if bool_decide (ruleName = "briansbrain3d"%string) then
            if fcmp Gt value (3 # 4) then
              let* result := set3 result (Some x) (Some y) (Some z) (JNum 1) in
              Ok (result, S i)
            else if fcmp Gt value (1 # 4) then
              let* result := set3 result (Some x) (Some y) (Some z) (JNum 2) in
              Ok (result, S i)
            else Ok (result, S i)
          else
            let* result := set3 result (Some x) (Some y) (Some z) (js_round value) in
            Ok (result, S i)) st) st) (js_of_grid (zero_grid sx sy sz), 0%nat)
    = Ok (js_of_grid G', (sx * sy * sz)%nat) /\ rect sx sy sz G' /\
    forall x y z, in_grid sx sy sz x y z -> cell G' x y z = r x y z.
Proof.
  intros Hnext.
  apply (fill_nest_counting sx sy sz r
    (fun x y z '(result, i) =>
       let value := default None (next !! i) in
       if bool_decide (ruleName = "briansbrain3d"%string) then
         if fcmp Gt value (3 # 4) then
           let* result := set3 result (Some x) (Some y) (Some z) (JNum 1) in
           Ok (result, S i)
         else if fcmp Gt value (1 # 4) then
           let* result := set3 result (Some x) (Some y) (Some z) (JNum 2) in
           Ok (result, S i)
         else Ok (result, S i)
       else
         let* result := set3 result (Some x) (Some y) (Some z) (js_round value) in
         Ok (result, S i))).
  intros x y z G Hin Hr H0.
  destruct (Hnext x y z Hin) as (value & Hv & Hd).
  cbv beta iota zeta. rewrite_lookup Hv. cbn [default from_option id].
  unfold tf_decoded in Hd.
  destruct (bool_decide (ruleName = "briansbrain3d"%string)).
  - injection Hd as <-.
    destruct (fcmp Gt value (3 # 4)); [by rewrite (set3_grid sx sy sz)|].
    destruct (fcmp Gt value (1 # 4)); [by rewrite (set3_grid sx sy sz)|].
    rewrite <- H0 at 1. by rewrite (upd3_same sx sy sz).
  - destruct (js_round value) as [| | |w|]; try done. injection Hd as <-.
    by rewrite (set3_grid sx sy sz).
Qed.

Lemma tf_decoded_round ruleName (v : Z) :
  ruleName <> "briansbrain3d"%string ->
  tf_decoded ruleName (Some (inject_Z v)) = Some v.
Proof.
  intros Hbb. unfold tf_decoded. rewrite bool_decide_eq_false_2 by done.
  by rewrite js_round_Z.
Qed.

(** What a step of the tensor engine returns on a valid grid, from the
    tensor that the step computes. *)
Lemma tf_step_grid sx sy sz (g : grid) ruleName (st : option TF.instance)
    (r : Z -> Z -> Z -> Z) :
  rect sx sy sz g -> (0 < sx)%nat -> (0 < sy)%nat -> (0 < sz)%nat ->
  tf_consistent st ->
  (forall flat,
     length flat = (sx * sy * sz)%nat ->
     (forall x y z, in_grid sx sy sz x y z ->
        flat !! flat_index sy sz x y z = Some (Some (inject_Z (cell g x y z)))) ->
     exists next,
       (if bool_decide (ruleName = "briansbrain3d"%string) then
          Ok (TF.processBriansBrainRule
                (TF.Tensor (Z.of_nat sx, Z.of_nat sy, Z.of_nat sz) flat)
                TF.createConvolutionKernel)
        else if bool_decide (ruleName = "checkerboard"%string) then
          Ok (TF.Tensor (Z.of_nat sx, Z.of_nat sy, Z.of_nat sz) flat)
        else
          TF.processStandardRule
            (TF.Tensor (Z.of_nat sx, Z.of_nat sy, Z.of_nat sz) flat)
            TF.createConvolutionKernel
            (rule_birth (lookup_rule ruleName)) (rule_survival (lookup_rule ruleName)))
       = Ok (TF.Tensor (Z.of_nat sx, Z.of_nat sy, Z.of_nat sz) next)
       /\ forall x y z, in_grid sx sy sz x y z ->
            exists value, next !! flat_index sy sz x y z = Some value
              /\ tf_decoded ruleName value = Some (r x y z)) ->
  exists (g' : grid) (st' : option TF.instance),
    TF.calculateNextGeneration3DTF st (js_of_grid g) (Some ruleName)
    = Ok (js_of_grid g', st')
    /\ tf_consistent st'
    /\ rect sx sy sz g'
    /\ forall x y z, in_grid sx sy sz x y z -> cell g' x y z = r x y z.
Proof.
  intros Hr Hx Hy Hz Hc Hrule.
  rewrite tf_step_initialize by done.
  rewrite (invalid_grid_grid sx sy sz) by done. cbn [bind].
  destruct (tf_initialize_grid sx sy sz g (default TF.new_instance st) ruleName)
    as (flat & -> & Hlen & Hcells); try done.
  cbn [bind]. unfold TF.computeNextGeneration.
  cbn [TF.initialized TF.gridTensor TF.convKernel TF.currentRule TF.size
       default from_option id].
  destruct (Hrule flat Hlen Hcells) as (next & -> & Hnext).
  cbn [bind TF.shape TF.values].
  rewrite createEmpty3DGrid_zero_grid. cbn [bind].
  destruct (tf_decode sx sy sz ruleName next r Hnext) as (G & Hrun & HrG & HcG).
  exists G. eexists.
  match goal with
  | |- bind (bind ?m _) _ = _ /\ _ =>
      replace m with (Ok (js_of_grid G, (sx * sy * sz)%nat) : result (jsval * nat))
        by (symmetry; exact Hrun)
  end.
  cbn [bind]. split; [reflexivity|]. split; [|done]. by intros _.
Qed.

(** *** One step of the tensor engine, rule by rule *)

Lemma tf_static_grid sx sy sz (g : grid) (st : option TF.instance) :
  rect sx sy sz g -> (0 < sx)%nat -> (0 < sy)%nat -> (0 < sz)%nat ->
  tf_consistent st ->
  exists st',
    TF.calculateNextGeneration3DTF st (js_of_grid g) (Some "checkerboard"%string)
    = Ok (js_of_grid g, st') /\ tf_consistent st'.
Proof.
  intros Hr Hx Hy Hz Hc.
  destruct (tf_step_grid sx sy sz g "checkerboard" st (cell g))
    as (g' & st' & Hrun & Hc' & Hr' & Hcells); try done.
  - intros flat Hlen Hflat. exists flat. split; [done|].
    intros x y z Hin. eexists. split; [by apply Hflat|].
    by apply tf_decoded_round.
  - exists st'. split; [|done]. rewrite Hrun. do 3 f_equal.
    by apply (rect_ext sx sy sz).
Qed.

Lemma tf_standard_grid sx sy sz (g : grid) ruleName (st : option TF.instance) :
  rect sx sy sz g -> (0 < sx)%nat -> (0 < sy)%nat -> (0 < sz)%nat ->
  tf_consistent st ->
  ruleName <> "briansbrain3d"%string -> ruleName <> "checkerboard"%string ->
  ruleName ∉ object_prototype_names ->
  exists (g' : grid) (st' : option TF.instance),
    TF.calculateNextGeneration3DTF st (js_of_grid g) (Some ruleName)
    = Ok (js_of_grid g', st')
    /\ tf_consistent st'
    /\ rect sx sy sz g'
    /\ forall x y z, in_grid sx sy sz x y z ->
         cell g' x y z =
         tf_next_standard (default [] (rule_birth (lookup_rule ruleName)))
           (default [] (rule_survival (lookup_rule ruleName))) sx sy sz g x y z.
Proof.
  intros Hr Hx Hy Hz Hc Hbb Hcb Hni.
  destruct (lookup_rule_bs ruleName Hbb Hcb Hni) as (b & s & Hrule & Hb & Hs).
  apply tf_step_grid; try done.
  intros flat Hlen Hflat.
  rewrite !bool_decide_eq_false_2 by done. rewrite Hrule.
  cbn [rule_birth rule_survival default from_option id].
  destruct (processStandardRule_grid sx sy sz g flat b s Hlen Hflat)
    as (next & -> & Hnext).
  exists next. split; [done|].
  intros x y z Hin. eexists. split; [by apply Hnext|].
  rewrite tf_decoded_round by done. f_equal.
  unfold tf_next_standard. cbv zeta.
  set (n := padded_sum sx sy sz g x y z).
  assert (n ∈ b -> 0 <= n < 27)
    by (intros Hn; apply (proj1 (Forall_forall _ _) Hb) in Hn; lia).
  assert (n ∈ s -> 0 <= n < 27)
    by (intros Hn; apply (proj1 (Forall_forall _ _) Hs) in Hn; lia).
  repeat case_bool_decide; repeat case_decide; simpl; try lia; tauto.
Qed.

Lemma fcmp_Z_lt_quarter (v : Z) :
  fcmp Lt (Some (inject_Z v)) (1 # 4) = bool_decide (v <= 0).
Proof.
  rewrite fcmp_Z. apply bool_decide_ext. rewrite Z.compare_lt_iff. lia.
Qed.

Lemma fcmp_Z_gt_three_quarters (v : Z) :
  fcmp Gt (Some (inject_Z v)) (3 # 4) = bool_decide (1 <= v).
Proof.
  rewrite fcmp_Z. apply bool_decide_ext. rewrite Z.compare_gt_iff. lia.
Qed.

Lemma tf_special_grid sx sy sz (g : grid) (st : option TF.instance) :
  rect sx sy sz g -> (0 < sx)%nat -> (0 < sy)%nat -> (0 < sz)%nat ->
  tf_consistent st ->
  exists (g' : grid) (st' : option TF.instance),
    TF.calculateNextGeneration3DTF st (js_of_grid g) (Some "briansbrain3d"%string)
    = Ok (js_of_grid g', st')
    /\ tf_consistent st'
    /\ rect sx sy sz g'
    /\ forall x y z, in_grid sx sy sz x y z ->
         cell g' x y z = tf_next_special sx sy sz g x y z.
Proof.
  intros Hr Hx Hy Hz Hc.
  apply tf_step_grid; try done.
  intros flat Hlen Hflat. rewrite bool_decide_eq_true_2 by done.
  eexists. split; [reflexivity|].
  intros x y z Hin.
  set (t := TF.Tensor (Z.of_nat sx, Z.of_nat sy, Z.of_nat sz) flat).
  set (k := flat_index sy sz x y z).
  set (v := cell g x y z).
  set (n := padded_sum sx sy sz g x y z).
  assert (TF.values t !! k = Some (Some (inject_Z v))) as Hv by (by apply Hflat).
  assert (TF.values (TF.conv3d_same t TF.createConvolutionKernel) !! k
          = Some (Some (inject_Z n))) as Hn by (by apply conv_grid).
  pose proof (mask_lookup t _ k v n 2 Lt (1 # 4) Hv Hn) as Hbirth.
  rewrite fcmp_Z_lt_quarter in Hbirth.
  assert (TF.mul_scalar (TF.greater t (3 # 4)) (1 # 2) !! k
          = Some (fmul (of_bool (bool_decide (1 <= v))) (Some (1 # 2)%Q))) as Hdying.
  { float_lookup Hv. unfold TF.mul_scalar, TF.greater.
    rewrite !list_lookup_fmap, Hv. cbn [fmap option_fmap option_map].
    by rewrite fcmp_Z_gt_three_quarters. }
  eexists. split.
  - unfold TF.processBriansBrainRule. cbn [TF.values]. unfold TF.add.
    apply lookup_zip_with_Some. do 2 eexists. split; [reflexivity|].
    split; [exact Hbirth | exact Hdying].
  - unfold tf_next_special. fold v n. clearbody v n.
    unfold tf_decoded. rewrite bool_decide_eq_true_2 by done. f_equal.
    repeat case_bool_decide; repeat case_decide; try lia; reflexivity.
Qed.





(** X10. Tensor engine, static rule: under 'checkerboard' the step returns
    the rectangular grid of cells 0, 1 and 2 it was given, cell for cell. *)
Theorem X10_tf_static_step_returns_the_grid sx sy sz (g : grid) (st : option TF.instance) :
  rect sx sy sz g -> (0 < sx)%nat -> (0 < sy)%nat -> (0 < sz)%nat ->
  states sx sy sz g -> tf_consistent st ->
  returned (TF.calculateNextGeneration3DTF st (js_of_grid g)
              (Some "checkerboard"%string))
  = Ok (js_of_grid g).
Proof.
  intros Hr Hx Hy Hz _ Hc.
  destruct (tf_static_grid sx sy sz g st) as (st' & -> & _); done.
Qed.

Lemma X10_tf_static_step_returns_the_grid_witness :
  returned (TF.calculateNextGeneration3DTF None (js_of_grid (centre3 2))
              (Some "checkerboard"%string))
  = Ok (js_of_grid (centre3 2)).
Proof.
  apply (X10_tf_static_step_returns_the_grid 3 3 3 (centre3 2) None).
  - rect_literal.
  - lia.
  - lia.
  - lia.
  - small_grid_cases.
  - exact I.
Defined.

(** X11. Tensor engine, Birth/Survival rules: for a rule of the table and a
    grid of cells 0, 1 and 2 the step decides every cell by the sum of the
    values of its neighbours inside the grid (cells beyond the border count
    as 0, no wraparound; the values themselves are added, so a 2 counts
    twice): a cell 1 or 2 becomes 1 iff the sum is in the survival set, a
    cell 0 becomes 1 iff the sum is in the birth set, every other cell
    becomes 0. *)
Theorem X11_tf_standard_step_pads_with_zeros sx sy sz (g : grid) ruleName birth survival
    (st : option TF.instance) :
  rect sx sy sz g -> (0 < sx)%nat -> (0 < sy)%nat -> (0 < sz)%nat ->
  states sx sy sz g -> tf_consistent st ->
  RULE_DEFINITIONS !! ruleName = Some (RuleBS birth survival) ->
  exists g' : grid,
    returned (TF.calculateNextGeneration3DTF st (js_of_grid g) (Some ruleName))
    = Ok (js_of_grid g')
    /\ rect sx sy sz g'
    /\ forall x y z, in_grid sx sy sz x y z ->
         let n := padded_sum sx sy sz g x y z in
         (1 <= cell g x y z -> (cell g' x y z = 1 <-> n ∈ survival))
         /\ (cell g x y z <= 0 -> (cell g' x y z = 1 <-> n ∈ birth))
         /\ (cell g' x y z = 1 \/ cell g' x y z = 0).
Proof.
  intros Hr Hx Hy Hz _ Hc Hl.
  destruct (bs_rule_not_special _ _ _ Hl) as (Hbb & Hcb & Hrule).
  destruct (tf_standard_grid sx sy sz g ruleName st)
    as (g' & st' & -> & _ & Hr' & Hcells); try done.
  { by apply (table_key_not_inherited _ (RuleBS birth survival)). }
  exists g'. split; [done|]. split; [done|].
  intros x y z Hin. rewrite (Hcells x y z Hin), Hrule.
  unfold tf_next_standard. cbn [rule_birth rule_survival default from_option id].
  cbv zeta. repeat case_decide; repeat split; intros; (done || lia || auto).
Qed.

Lemma X11_tf_standard_step_pads_with_zeros_witness :
  exists g' : grid,
    returned (TF.calculateNextGeneration3DTF None (js_of_grid three_of_four)
                (Some "life3d"%string))
    = Ok (js_of_grid g')
    /\ rect 1 2 2 g'
    /\ forall x y z, in_grid 1 2 2 x y z ->
         let n := padded_sum 1 2 2 three_of_four x y z in
         (1 <= cell three_of_four x y z -> (cell g' x y z = 1 <-> n ∈ [5; 6; 7]))
         /\ (cell three_of_four x y z <= 0 -> (cell g' x y z = 1 <-> n ∈ [4; 5]))
         /\ (cell g' x y z = 1 \/ cell g' x y z = 0).
Proof.
  apply (X11_tf_standard_step_pads_with_zeros 1 2 2 three_of_four "life3d" [4; 5] [5; 6; 7]
           None).
  - rect_literal.
  - lia.
  - lia.
  - lia.
  - small_grid_cases.
  - exact I.
  - reflexivity.
Defined.

Lemma interior_in_grid sx sy sz x y z dx dy dz :
  interior sx sy sz x y z -> (dx, dy, dz) ∈ neighbour_offsets ->
  in_grid sx sy sz (x + dx) (y + dy) (z + dz).
Proof.
  intros (Hx & Hy & Hz) Hd.
  apply elem_of_neighbour_offsets in Hd as (Hdx & Hdy & Hdz & _).
  apply elem_of_offsets in Hdx, Hdy, Hdz. unfold in_grid. lia.
Qed.

(** Away from the border, on a grid of 0 and 1, the sum without wraparound
    is the wrapped count. *)
Lemma padded_sum_interior sx sy sz (g : grid) x y z :
  binary sx sy sz g -> interior sx sy sz x y z ->
  padded_sum sx sy sz g x y z = wrapped_live_count g sx sy sz x y z.
Proof.
  intros Hb Hi. unfold padded_sum, wrapped_live_count.
  rewrite (length_filter_sum _ neighbour_offsets). f_equal.
  apply list_fmap_ext. intros i [[dx dy] dz] Hd.
  apply list_elem_of_lookup_2 in Hd.
  pose proof (interior_in_grid _ _ _ _ _ _ _ _ _ Hi Hd) as Hin.
  pose proof Hin as (Hx & Hy & Hz). cbv beta iota.
  unfold padded_cell.
  assert ((0 <=? x + dx) && (x + dx <? Z.of_nat sx) && (0 <=? y + dy)
          && (y + dy <? Z.of_nat sy) && (0 <=? z + dz) && (z + dz <? Z.of_nat sz)
          = true) as -> by (repeat (apply andb_true_intro; split); lia).
  case_decide as E;
    rewrite (Z.mod_small (x + dx)), (Z.mod_small (y + dy)), (Z.mod_small (z + dz))
      in E by lia;
    destruct (Hb _ _ _ Hin); lia.
Qed.

(** X12. Tensor and CPU engines away from the border: on a rectangular grid
    of 0 and 1 and for every rule name but 'briansbrain3d' and
    'checkerboard' that Object.prototype does not define, both engines
    return a grid, and the two agree at every cell none of whose coordinates
    is 0 or size - 1. *)
Theorem X12_tf_agrees_with_cpu_in_the_interior sx sy sz (g : grid) ruleName
    (st : option TF.instance) :
  rect sx sy sz g -> (0 < sx)%nat -> (0 < sy)%nat -> (0 < sz)%nat ->
  binary sx sy sz g -> tf_consistent st ->
  ruleName <> "briansbrain3d"%string -> ruleName <> "checkerboard"%string ->
  ruleName ∉ object_prototype_names ->
  exists g_cpu g_tf : grid,
    CPU.calculateNextGeneration3D (js_of_grid g) (Some ruleName) = Ok (js_of_grid g_cpu)
    /\ returned (TF.calculateNextGeneration3DTF st (js_of_grid g) (Some ruleName))
       = Ok (js_of_grid g_tf)
    /\ forall x y z, interior sx sy sz x y z -> cell g_tf x y z = cell g_cpu x y z.
Proof.
  intros Hr Hx Hy Hz Hb Hc Hbb Hcb Hni.
  destruct (cpu_step_cells sx sy sz g ruleName) as (g1 & Hrun1 & _ & Hc1); try done.
  destruct (tf_standard_grid sx sy sz g ruleName st)
    as (g2 & st' & -> & _ & _ & Hc2); try done.
  exists g1, g2. split; [done|]. split; [done|].
  intros x y z Hi.
  assert (in_grid sx sy sz x y z) as Hin
    by (destruct Hi as (?&?&?); unfold in_grid; lia).
  rewrite (Hc1 x y z Hin), (Hc2 x y z Hin).
  unfold cpu_next, tf_next_standard. cbv zeta.
  rewrite (decide_False (P := ruleName = "briansbrain3d"%string)) by done.
  rewrite (decide_False (P := ruleName = "checkerboard"%string)) by done.
  rewrite padded_sum_interior by done.
  destruct (Hb x y z Hin) as [-> | ->]; done.
Qed.

Lemma X12_tf_agrees_with_cpu_in_the_interior_witness :
  exists g_cpu g_tf : grid,
    CPU.calculateNextGeneration3D (js_of_grid (shell3 0)) (Some "conway3d"%string)
    = Ok (js_of_grid g_cpu)
    /\ returned (TF.calculateNextGeneration3DTF None (js_of_grid (shell3 0))
                   (Some "conway3d"%string))
       = Ok (js_of_grid g_tf)
    /\ forall x y z, interior 3 3 3 x y z -> cell g_tf x y z = cell g_cpu x y z.
Proof.
  apply (X12_tf_agrees_with_cpu_in_the_interior 3 3 3 (shell3 0) "conway3d" None).
  - rect_literal.
  - lia.
  - lia.
  - lia.
  - small_grid_cases.
  - exact I.
  - discriminate.
  - discriminate.
  - not_inherited.
Defined.

(** X13. Tensor engine, 'briansbrain3d' on a grid of cells 0, 1 and 2: a cell
    1 or 2 becomes 2; a cell 0 becomes 1 iff the zero-padded sum of its
    neighbours' values is 2, else 0.  So on this engine a dying cell never
    becomes dead. *)
Theorem X13_tf_special_step_never_lets_a_cell_die sx sy sz (g : grid)
    (st : option TF.instance) :
  rect sx sy sz g -> (0 < sx)%nat -> (0 < sy)%nat -> (0 < sz)%nat ->
  states sx sy sz g -> tf_consistent st ->
  exists g' : grid,
    returned (TF.calculateNextGeneration3DTF st (js_of_grid g)
                (Some "briansbrain3d"%string))
    = Ok (js_of_grid g')
    /\ rect sx sy sz g'
    /\ forall x y z, in_grid sx sy sz x y z ->
         (1 <= cell g x y z -> cell g' x y z = 2)
         /\ (cell g x y z <= 0 ->
             cell g' x y z = if decide (padded_sum sx sy sz g x y z = 2) then 1 else 0).
Proof.
  intros Hr Hx Hy Hz _ Hc.
  destruct (tf_special_grid sx sy sz g st)
    as (g' & st' & -> & _ & Hr' & Hcells); try done.
  exists g'. split; [done|]. split; [done|].
  intros x y z Hin. rewrite (Hcells x y z Hin). unfold tf_next_special.
  split; intros Hv; [by rewrite decide_True | by rewrite decide_False by lia].
Qed.

Lemma X13_tf_special_step_never_lets_a_cell_die_witness :
  exists g' : grid,
    returned (TF.calculateNextGeneration3DTF None (js_of_grid (centre3 2))
                (Some "briansbrain3d"%string))
    = Ok (js_of_grid g')
    /\ rect 3 3 3 g'
    /\ forall x y z, in_grid 3 3 3 x y z ->
         (1 <= cell (centre3 2) x y z -> cell g' x y z = 2)
         /\ (cell (centre3 2) x y z <= 0 ->
             cell g' x y z
             = if decide (padded_sum 3 3 3 (centre3 2) x y z = 2) then 1 else 0).
Proof.
  apply (X13_tf_special_step_never_lets_a_cell_die 3 3 3 (centre3 2) None).
  - rect_literal.
  - lia.
  - lia.
  - lia.
  - small_grid_cases.
  - exact I.
Defined.

Lemma tf_step_total sx sy sz (g : grid) ruleName (st : option TF.instance) :
  rect sx sy sz g -> (0 < sx)%nat -> (0 < sy)%nat -> (0 < sz)%nat ->
  tf_consistent st -> ruleName ∉ object_prototype_names ->
  exists (g' : grid) (st' : option TF.instance),
    TF.calculateNextGeneration3DTF st (js_of_grid g) (Some ruleName)
    = Ok (js_of_grid g', st')
    /\ tf_consistent st' /\ rect sx sy sz g'
    /\ (states sx sy sz g -> states sx sy sz g').
Proof.
  intros Hr Hx Hy Hz Hc Hni.
  destruct (decide (ruleName = "briansbrain3d"%string)) as [->|Hbb].
  { destruct (tf_special_grid sx sy sz g st) as (g' & st' & ? & ? & ? & Hcells);
      try done.
    exists g', st'. split; [done|]. split; [done|]. split; [done|].
    intros _ x y z Hin. rewrite (Hcells x y z Hin). unfold tf_next_special.
    repeat case_decide; auto. }
  destruct (decide (ruleName = "checkerboard"%string)) as [->|Hcb].
  { destruct (tf_static_grid sx sy sz g st) as (st' & ? & ?); try done.
    by exists g, st'. }
  destruct (tf_standard_grid sx sy sz g ruleName st)
    as (g' & st' & ? & ? & ? & Hcells); try done.
  exists g', st'. split; [done|]. split; [done|]. split; [done|].
  intros _ x y z Hin. rewrite (Hcells x y z Hin). unfold tf_next_standard.
  cbv zeta. repeat case_decide; auto.
Qed.

(** X14. Tensor engine, iteration: from a rectangular grid of positive
    dimensions and of cells 0, 1 and 2, starting with no instance, any number
    of steps with a rule name that Object.prototype does not define, the
    instance carried along, never throws and ends in a grid of the same
    dimensions and of cells 0, 1 and 2. *)
Theorem X14_tf_generations_never_fail (n : nat) sx sy sz (g : grid) ruleName :
  rect sx sy sz g -> (0 < sx)%nat -> (0 < sy)%nat -> (0 < sz)%nat ->
  states sx sy sz g -> ruleName ∉ object_prototype_names ->
  exists g' : grid,
    returned (tf_generations n ruleName None (js_of_grid g)) = Ok (js_of_grid g')
    /\ rect sx sy sz g' /\ states sx sy sz g'.
Proof.
  intros Hr Hx Hy Hz Hs Hni.
  assert (tf_consistent None) as Hc by done.
  revert Hc. generalize (@None TF.instance) as st. revert g Hr Hs.
  induction n as [|n IH]; intros g Hr Hs st Hc.
  - by exists g.
  - destruct (tf_step_total sx sy sz g ruleName st)
      as (g1 & st1 & Hrun & Hc1 & Hr1 & Hs1); try done.
    destruct (IH g1 Hr1 (Hs1 Hs) st1 Hc1) as (g' & Hgen & Hr' & Hs').
    exists g'. simpl. rewrite Hrun. done.
Qed.

Lemma X14_tf_generations_never_fail_witness :
  exists g' : grid,
    returned (tf_generations 2 "briansbrain3d" None (js_of_grid three_of_four))
    = Ok (js_of_grid g')
    /\ rect 1 2 2 g' /\ states 1 2 2 g'.
Proof.
  apply (X14_tf_generations_never_fail 2 1 2 2 three_of_four "briansbrain3d").
  - rect_literal.
  - lia.
  - lia.
  - lia.
  - small_grid_cases.
  - not_inherited.
Defined.

(** ** The texture engine on well-formed grids *)

(** *** The render target *)

Lemma render_lookup (frag : Z -> Z -> Z -> list Z) (sx sy sz : nat) x y z (c : nat) :
  (forall x y z, length (frag x y z) = 4%nat) ->
  in_grid sx sy sz x y z -> (c < 4)%nat ->
  GPU.render frag (Z.of_nat sx) (Z.of_nat sy) (Z.of_nat sz)
    !! (Z.to_nat ((z * Z.of_nat sy * Z.of_nat sx + y * Z.of_nat sx + x) * 4) + c)%nat
  = frag x y z !! c.
Proof.
  intros Hf (Hx & Hy & Hz) Hc. unfold GPU.render.
  set (row := y + z * Z.of_nat sy).
  assert (0 <= row < Z.of_nat sy * Z.of_nat sz) as Hrow by (unfold row; nia).
  assert (forall r, length (x ← seqZ 0 (Z.of_nat sx);
                            frag x (r mod Z.of_nat sy) (r / Z.of_nat sy))
                    = (sx * 4)%nat) as Hlen.
  { intros r. rewrite (length_bind_uniform _ 4) by done.
    by rewrite length_seqZ, Nat2Z.id. }
  replace (Z.to_nat ((z * Z.of_nat sy * Z.of_nat sx + y * Z.of_nat sx + x) * 4) + c)%nat
    with (Z.to_nat row * (sx * 4) + (Z.to_nat x * 4 + c))%nat by (unfold row; nia).
  rewrite (lookup_bind_uniform _ (sx * 4) _ _ _ row); [|done| |nia].
  2: { rewrite lookup_seqZ_lt by lia. f_equal. lia. }
  rewrite (lookup_bind_uniform _ 4 _ _ _ x); [|done| |lia].
  2: { rewrite lookup_seqZ_lt by lia. f_equal. lia. }
  assert (row mod Z.of_nat sy = y) as ->.
  { unfold row. rewrite Z_mod_plus_full. apply Z.mod_small. lia. }
  assert (row / Z.of_nat sy = z) as ->.
  { unfold row. rewrite Z.div_add by lia. rewrite Z.div_small by lia. lia. }
  done.
Qed.

(** *** Reading the pixels back: the loops run z outermost *)

Lemma write_nest_zyx (sx sy sz : nat) (v : Z -> Z -> Z -> Z)
    (body : Z -> Z -> Z -> jsval -> result jsval) (G0 : grid) :
  rect sx sy sz G0 ->
  (forall z y x (G : grid), in_grid sz sy sx z y x -> rect sx sy sz G ->
     body z y x (js_of_grid G) = Ok (js_of_grid (upd3 G x y z (v x y z)))) ->
  exists G' : grid,
    for_each (upto (Some (Z.of_nat sz))) (fun z s =>
      for_each (upto (Some (Z.of_nat sy))) (fun y s =>
        for_each (upto (Some (Z.of_nat sx))) (fun x s => body z y x s) s) s)
      (js_of_grid G0)
    = Ok (js_of_grid G') /\ rect sx sy sz G' /\
    forall x y z, in_grid sx sy sz x y z -> cell G' x y z = v x y z.
Proof.
  intros Hr0 Hbody.
  destruct (loop_nest_inv
    (fun z0 y0 x0 (s : jsval) =>
       exists G : grid, s = js_of_grid G /\ rect sx sy sz G /\
         forall x y z, in_grid sx sy sz x y z -> before z0 y0 x0 z y x ->
           cell G x y z = v x y z)
    sz sy sx body (js_of_grid G0)) as (s & Hrun & G & -> & Hr & Hcells).
  - exists G0. split; [done|]. split; [done|].
    intros x y z (?&?&?) Hb. unfold before in Hb. lia.
  - intros z0 y0 x0 s Hin (G & -> & Hr & Hcells).
    eexists. split; [by apply Hbody|].
    eexists. split; [done|]. split; [by apply rect_upd3|].
    intros x y z Hin' Hb.
    assert (in_grid sx sy sz x0 y0 z0) as Hin0
      by (destruct Hin as (?&?&?); unfold in_grid; lia).
    destruct (decide ((x, y, z) = (x0, y0, z0))) as [E|E].
    + injection E as -> -> ->. by apply (cell_upd3_eq sx sy sz).
    + destruct Hin0 as (?&?&?), Hin' as (?&?&?).
      rewrite cell_upd3_ne by (done || lia).
      apply Hcells; [unfold in_grid; lia|].
      unfold before in *.
      destruct (decide (z = z0)); [|lia].
      destruct (decide (y = y0)); [|lia].
      destruct (decide (x = x0)); [|lia]. subst. done.
  - intros z0 y0 s (G & -> & Hr & Hcells). exists G. split; [done|]. split; [done|].
    intros x y z Hin' Hb. apply Hcells; [done|].
    destruct Hin' as (?&?&?). unfold before in *. lia.
  - intros z0 s (G & -> & Hr & Hcells). exists G. split; [done|]. split; [done|].
    intros x y z Hin' Hb. apply Hcells; [done|].
    destruct Hin' as (?&?&?). unfold before in *. lia.
  - exists G. split; [done|]. split; [done|].
    intros x y z Hin. apply Hcells; [done|].
    destruct Hin as (?&?&?). unfold before. lia.
Qed.

(** *** One step of the texture engine *)

Lemma rule_uniform_total ruleName :
  ruleName <> "briansbrain3d"%string -> ruleName <> "checkerboard"%string ->
  ruleName ∉ object_prototype_names ->
  exists fb fs,
    GPU.rule_uniform (rule_birth (lookup_rule ruleName)) = Ok fb
    /\ GPU.rule_uniform (rule_survival (lookup_rule ruleName)) = Ok fs.
Proof.
  intros Hbb Hcb Hni.
  destruct (lookup_rule_bs ruleName Hbb Hcb Hni) as (b & s & -> & _).
  by do 2 eexists.
Qed.

Lemma gpu_pixel_length round ruleName image sx sy sz x y z :
  length (gpu_pixel round ruleName image sx sy sz x y z) = 4%nat.
Proof. unfold gpu_pixel. by repeat case_bool_decide. Qed.

(** The grid a pass returns holds, for every cell, 1 when the red byte
    of its pixel is above 127 and 0 otherwise. *)
Lemma gpu_compute_grid round (sx sy sz : nat) ruleName t image b s :
  ruleName ∉ object_prototype_names ->
  exists (g' : grid) (this : GPU.instance),
    GPU.computeNextGeneration round
      (GPU.Instance true (Some (Z.of_nat sx), Some (Z.of_nat sy), Some (Z.of_nat sz))
         ruleName t image b s)
    = Ok (js_of_grid g', this)
    /\ rect sx sy sz g'
    /\ forall x y z, in_grid sx sy sz x y z ->
         cell g' x y z =
         if 127 <? default 0
              (gpu_pixel round ruleName image (Z.of_nat sx) (Z.of_nat sy) (Z.of_nat sz)
                 x y z !! 0%nat)
         then 1 else 0.
Proof.
  intros Hni. unfold GPU.computeNextGeneration. gpu_fields.
  assert (exists this',
    (if bool_decide (ruleName = "briansbrain3d"%string) then
       Ok (GPU.Instance true
             (Some (Z.of_nat sx), Some (Z.of_nat sy), Some (Z.of_nat sz))
             ruleName t image b s)
     else if bool_decide (ruleName = "checkerboard"%string) then
       Ok (GPU.Instance true
             (Some (Z.of_nat sx), Some (Z.of_nat sy), Some (Z.of_nat sz))
             ruleName t image b s)
     else GPU.setRule
            (GPU.Instance true
               (Some (Z.of_nat sx), Some (Z.of_nat sy), Some (Z.of_nat sz))
               ruleName t image b s) ruleName) = Ok this'
    /\ GPU.initialized this' = true
    /\ GPU.size this' = (Some (Z.of_nat sx), Some (Z.of_nat sy), Some (Z.of_nat sz))
    /\ GPU.currentRule this' = ruleName
    /\ GPU.image this' = image
    /\ (ruleName <> "briansbrain3d"%string -> ruleName <> "checkerboard"%string ->
        GPU.rule_uniform (rule_birth (lookup_rule ruleName)) = Ok (GPU.birthValues this')
        /\ GPU.rule_uniform (rule_survival (lookup_rule ruleName))
           = Ok (GPU.survivalValues this')))
    as (this' & -> & Hi & Hs & Hrn & Him & Hun).
  { case_bool_decide as Hbb; [by eexists|].
    case_bool_decide as Hcb; [by eexists|].
    unfold GPU.setRule. rewrite !bool_decide_eq_false_2 by done. cbn [orb].
    destruct (rule_uniform_total ruleName Hbb Hcb Hni) as (fb & fs & Eb & Es).
    rewrite Eb, Es. cbn [bind]. eexists. split; [reflexivity|]. gpu_fields.
    by repeat split. }
  cbn [bind]. rewrite Hs, Hrn, Him.
  rewrite createEmpty3DGrid_zero_grid. cbn [bind jsnum_mul default from_option id].
  set (pixelBuffer := GPU.render _ _ _ _).
  destruct (write_nest_zyx sx sy sz
    (fun x y z =>
       if 127 <? default 0
            (pixelBuffer !! Z.to_nat ((z * (Z.of_nat sx * Z.of_nat sy)
                                       + y * Z.of_nat sx + x) * 4))
       then 1 else 0)
    (fun z y x result =>
       set3 result (Some x) (Some y) (Some z)
         (JNum (if 127 <? default 0
                     (pixelBuffer !! Z.to_nat ((z * (Z.of_nat sx * Z.of_nat sy)
                                                + y * Z.of_nat sx + x) * 4))
                then 1 else 0)))
    (zero_grid sx sy sz)) as (G & Hrun & Hr & Hcells).
  - apply rect_zero_grid.
  - intros z y x G Hin HG. apply (set3_grid sx sy sz); [done|].
    destruct Hin as (?&?&?). unfold in_grid. lia.
  - exists G. eexists.
    match goal with
    | |- bind ?m _ = _ /\ _ =>
        replace m with (Ok (js_of_grid G) : result jsval) by (symmetry; exact Hrun)
    end.
    cbn [bind]. split; [reflexivity|]. split; [done|].
    intros x y z Hin. rewrite (Hcells x y z Hin).
    unfold pixelBuffer.
    assert (GPU.render
      (if bool_decide (ruleName = "briansbrain3d"%string)
       then fun x y z => GPU.state_pixel round
              (GPU.briansBrainFragmentShader image (Z.of_nat sx) (Z.of_nat sy)
                 (Z.of_nat sz) x y z)
       else if bool_decide (ruleName = "checkerboard"%string)
            then GPU.copy_pixel image (Z.of_nat sx) (Z.of_nat sy) (Z.of_nat sz)
            else fun x y z => GPU.state_pixel round
                   (GPU.standardFragmentShader (GPU.birthValues this')
                      (GPU.survivalValues this') image (Z.of_nat sx) (Z.of_nat sy)
                      (Z.of_nat sz) x y z))
      (Z.of_nat sx) (Z.of_nat sy) (Z.of_nat sz)
      = GPU.render (gpu_pixel round ruleName image (Z.of_nat sx) (Z.of_nat sy)
                      (Z.of_nat sz))
          (Z.of_nat sx) (Z.of_nat sy) (Z.of_nat sz)) as ->.
    { unfold gpu_pixel.
      case_bool_decide as Hbb; [done|]. case_bool_decide as Hcb; [done|].
      destruct (Hun Hbb Hcb) as [-> ->]. done. }
    replace (Z.to_nat ((z * (Z.of_nat sx * Z.of_nat sy) + y * Z.of_nat sx + x) * 4))
      with (Z.to_nat ((z * Z.of_nat sy * Z.of_nat sx + y * Z.of_nat sx + x) * 4) + 0)%nat
      by (rewrite Nat.add_0_r; f_equal; lia).
    rewrite render_lookup; [done | apply gpu_pixel_length | done | lia].
Qed.

Lemma gpu_prepare (this : GPU.instance) (v : jsval) sx sy sz r :
  CPU.sizes v = Ok (sx, sy, sz) ->
  exists t b s,
    (if negb (GPU.initialized this)
        || bool_decide ((sx, sy, sz) <> GPU.size this)
        || bool_decide (GPU.currentRule this <> r)
     then GPU.initialize this v r
     else let* data := GPU.texture_data v sx sy sz in
          Ok (GPU.Instance (GPU.initialized this) (GPU.size this)
                (GPU.currentRule this) (GPU.currentTexture this) data
                (GPU.birthValues this) (GPU.survivalValues this)))
    = let* data := GPU.texture_data v sx sy sz in
      Ok (GPU.Instance true (sx, sy, sz) r t data b s).
Proof.
  intros Hsz. destruct (negb _ || _ || _) eqn:Hcond.
  - eexists _, _, _. unfold GPU.initialize. rewrite Hsz. cbn [bind].
    destruct (GPU.texture_data _ _ _ _); reflexivity.
  - apply orb_false_elim in Hcond as [Hcond Hr].
    apply orb_false_elim in Hcond as [Hi Hs].
    apply negb_false_iff in Hi.
    apply bool_decide_eq_false, dec_stable in Hr.
    apply bool_decide_eq_false, dec_stable in Hs.
    rewrite Hi, <- Hs, Hr. eexists _, _, _. reflexivity.
Qed.

(** One step on a well-formed grid: the image uploaded holds the byte
    255 * v mod 256 of every cell, and the grid returned is read off the
    pixels of the pass. *)
Lemma gpu_step_grid round sx sy sz (g : grid) ruleName (st : option GPU.instance) :
  rect sx sy sz g -> (0 < sx)%nat -> (0 < sy)%nat -> (0 < sz)%nat ->
  ruleName ∉ object_prototype_names ->
  exists (g' : grid) (st' : option GPU.instance) (image : list Z),
    GPU.calculateNextGeneration3DGPU round st (js_of_grid g) (Some ruleName)
    = Ok (js_of_grid g', st')
    /\ rect sx sy sz g'
    /\ (forall x y z, in_grid sx sy sz x y z ->
          image !! Z.to_nat ((z * Z.of_nat sy * Z.of_nat sx + y * Z.of_nat sx + x) * 4)
          = Some ((cell g x y z * 255) mod 256))
    /\ forall x y z, in_grid sx sy sz x y z ->
         cell g' x y z =
         if 127 <? default 0
              (gpu_pixel round ruleName image (Z.of_nat sx) (Z.of_nat sy) (Z.of_nat sz)
                 x y z !! 0%nat)
         then 1 else 0.
Proof.
  intros Hr Hx Hy Hz Hni. unfold GPU.calculateNextGeneration3DGPU.
  cbn [default from_option id].
  rewrite (invalid_grid_grid sx sy sz) by done. cbn [bind].
  rewrite (sizes_grid sx sy sz) by done. cbn [bind].
  destruct (gpu_prepare (from_option id GPU.new_instance st) (js_of_grid g)
              (Some (Z.of_nat sx)) (Some (Z.of_nat sy)) (Some (Z.of_nat sz)) ruleName)
    as (t & b & s & ->); [by apply (sizes_grid sx sy sz)|].
  destruct (gpu_texture_data sx sy sz g Hr) as (image & -> & _ & Himage). cbn [bind].
  destruct (gpu_compute_grid round sx sy sz ruleName t image b s Hni)
    as (g' & this & Hrun & Hr' & Hcells).
  exists g', (Some this), image.
  match goal with
  | |- bind ?m _ = _ /\ _ =>
      replace m with (Ok (js_of_grid g', this) : result (jsval * GPU.instance))
        by (symmetry; exact Hrun)
  end.
  done.
Qed.

(** *** The colours of a grid of 0 and 1 *)

Lemma getCellState_image (sx sy sz : nat) (g : grid) (image : list Z) x y z :
  (0 < sx)%nat -> (0 < sy)%nat -> (0 < sz)%nat ->
  (forall x y z, in_grid sx sy sz x y z ->
     image !! Z.to_nat ((z * Z.of_nat sy * Z.of_nat sx + y * Z.of_nat sx + x) * 4)
     = Some ((cell g x y z * 255) mod 256)) ->
  GPU.getCellState image (Z.of_nat sx) (Z.of_nat sy) (Z.of_nat sz) x y z
  = (inject_Z ((cell g (x mod Z.of_nat sx) (y mod Z.of_nat sy) (z mod Z.of_nat sz)
                * 255) mod 256) / 255)%Q.
Proof.
  intros Hx Hy Hz Himage. unfold GPU.getCellState, GPU.texel.
  pose proof (in_grid_mod sx sy sz x y z Hx Hy Hz) as Hin.
  replace (((y mod Z.of_nat sy + z mod Z.of_nat sz * Z.of_nat sy) * Z.of_nat sx
            + x mod Z.of_nat sx) * 4)
    with ((z mod Z.of_nat sz * Z.of_nat sy * Z.of_nat sx
           + y mod Z.of_nat sy * Z.of_nat sx + x mod Z.of_nat sx) * 4) by lia.
  by rewrite (Himage _ _ _ Hin).
Qed.

Lemma Qred_add_colour (a c : Z) :
  c = 0 \/ c = 1 ->
  Qred (inject_Z a + inject_Z ((c * 255) mod 256) / 255) = inject_Z (a + c).
Proof.
  intros Hc. rewrite <- (Qred_inject_Z (a + c)). apply Qred_complete.
  destruct Hc as [-> | ->].
  - change ((0 * 255) mod 256) with 0. unfold Qeq, Qplus, Qdiv, Qmult, Qinv, inject_Z.
    cbn [Qnum Qden]. lia.
  - change ((1 * 255) mod 256) with 255. unfold Qeq, Qplus, Qdiv, Qmult, Qinv, inject_Z.
    cbn [Qnum Qden]. lia.
Qed.

Lemma Qred_succ (a : Z) : Qred (inject_Z a + 1) = inject_Z (a + 1).
Proof.
  rewrite <- (Qred_inject_Z (a + 1)). apply Qred_complete.
  unfold Qeq, Qplus, inject_Z. cbn [Qnum Qden]. lia.
Qed.

Lemma colour_sum {A} (state : A -> Q) (c : A -> Z) (l : list A) (a : Z) :
  (forall d, d ∈ l -> state d = (inject_Z ((c d * 255) mod 256) / 255)%Q
                      /\ (c d = 0 \/ c d = 1)) ->
  foldl (fun acc s => Qred (acc + s)) (inject_Z a) (state <$> l)
  = inject_Z (a + sumZ (c <$> l)).
Proof.
  revert a. induction l as [|d l IH]; intros a Hl.
  - simpl. f_equal. lia.
  - destruct (Hl d) as [Hd Hc]; [apply elem_of_cons; by left|].
    rewrite !fmap_cons. cbn [foldl]. rewrite Hd, Qred_add_colour by done.
    rewrite IH by (intros d' Hd'; apply Hl, elem_of_cons; by right).
    f_equal. change (sumZ (c d :: (c <$> l))) with (c d + sumZ (c <$> l)). lia.
Qed.

Lemma colour_count {A} (state : A -> Q) (c : A -> Z) (l : list A) (a : Z) :
  (forall d, d ∈ l -> state d = (inject_Z ((c d * 255) mod 256) / 255)%Q
                      /\ (c d = 0 \/ c d = 1)) ->
  foldl (fun acc s => if GPU.q_gt s (3 # 4) then Qred (acc + 1) else acc)
        (inject_Z a) (state <$> l)
  = inject_Z (a + sumZ (c <$> l)).
Proof.
  revert a. induction l as [|d l IH]; intros a Hl.
  - simpl. f_equal. lia.
  - destruct (Hl d) as [Hd Hc]; [apply elem_of_cons; by left|].
    rewrite !fmap_cons. cbn [foldl]. rewrite Hd.
    change (sumZ (c d :: (c <$> l))) with (c d + sumZ (c <$> l)).
    destruct Hc as [-> | ->].
    + change (GPU.q_gt (inject_Z ((0 * 255) mod 256) / 255) (3 # 4)) with false.
      cbv beta iota. rewrite IH by (intros d' Hd'; apply Hl, elem_of_cons; by right).
      f_equal.
    + change (GPU.q_gt (inject_Z ((1 * 255) mod 256) / 255) (3 # 4)) with true.
      cbv beta iota. rewrite Qred_succ.
      rewrite IH by (intros d' Hd'; apply Hl, elem_of_cons; by right).
      f_equal. lia.
Qed.

Lemma neighbour_states_offsets image sx sy sz x y z :
  GPU.neighbour_states image sx sy sz x y z
  = (fun '(dx, dy, dz) => GPU.getCellState image sx sy sz (x + dx) (y + dy) (z + dz))
    <$> neighbour_offsets.
Proof. rewrite neighbour_offsets_eq. reflexivity. Qed.

(** On a grid of 0 and 1 both shaders count the live wrapped neighbours. *)
Lemma neighbour_colours (sx sy sz : nat) (g : grid) (image : list Z) x y z :
  (0 < sx)%nat -> (0 < sy)%nat -> (0 < sz)%nat ->
  binary sx sy sz g ->
  (forall x y z, in_grid sx sy sz x y z ->
     image !! Z.to_nat ((z * Z.of_nat sy * Z.of_nat sx + y * Z.of_nat sx + x) * 4)
     = Some ((cell g x y z * 255) mod 256)) ->
  let state := fun d : Z * Z * Z =>
    let '(dx, dy, dz) := d in
    GPU.getCellState image (Z.of_nat sx) (Z.of_nat sy) (Z.of_nat sz)
      (x + dx) (y + dy) (z + dz) in
  let c := fun d : Z * Z * Z =>
    let '(dx, dy, dz) := d in
    if decide (cell g ((x + dx) mod Z.of_nat sx) ((y + dy) mod Z.of_nat sy)
                 ((z + dz) mod Z.of_nat sz) = 1) then 1 else 0 in
  forall d, state d = Qdiv (inject_Z ((c d * 255) mod 256)) 255%Q
            /\ (c d = 0 \/ c d = 1).
Proof.
  intros Hx Hy Hz Hb Himage state c [[dx dy] dz]. unfold state, c.
  rewrite (getCellState_image sx sy sz g) by done.
  pose proof (in_grid_mod sx sy sz (x + dx) (y + dy) (z + dz) Hx Hy Hz) as Hin.
  destruct (Hb _ _ _ Hin) as [E | E]; rewrite E.
  - rewrite decide_False by done. auto.
  - rewrite decide_True by done. auto.
Qed.

Lemma wrapped_live_count_sum (g : grid) (sx sy sz : nat) x y z :
  wrapped_live_count g sx sy sz x y z
  = sumZ ((fun d : Z * Z * Z =>
             let '(dx, dy, dz) := d in
             if decide (cell g ((x + dx) mod Z.of_nat sx) ((y + dy) mod Z.of_nat sy)
                          ((z + dz) mod Z.of_nat sz) = 1) then 1 else 0)
          <$> neighbour_offsets).
Proof.
  unfold wrapped_live_count. by rewrite (length_filter_sum _ neighbour_offsets).
Qed.

(** *** The rule uniforms *)

Lemma rule_uniform_lookup (l : list Z) (init : list Z) (i : Z) :
  3 <= i <= 10 -> length init = 8%nat ->
  (0 <? default 0 (foldl (fun flags value =>
           if (3 <=? value) && (value <=? 10)
           then <[Z.to_nat (value - 3) := 1]> flags else flags)
         init l !! Z.to_nat (i - 3)))
  = (0 <? default 0 (init !! Z.to_nat (i - 3))) || bool_decide (i ∈ l).
Proof.
  intros Hi. revert init. induction l as [|v l IH]; intros init Hlen; simpl.
  - by rewrite orb_false_r.
  - destruct ((3 <=? v) && (v <=? 10)) eqn:E.
    + apply andb_prop in E as [E1 E2].
      rewrite IH by (by rewrite length_insert).
      destruct (decide (i = v)) as [->|Hne].
      * rewrite list_lookup_insert_eq by lia. simpl.
        rewrite bool_decide_eq_true_2 by (apply elem_of_cons; by left).
        by rewrite orb_true_r.
      * rewrite list_lookup_insert_ne by lia. f_equal.
        apply bool_decide_ext. rewrite elem_of_cons.
        split; [by right|]. by intros [?|?].
    + rewrite IH by done. f_equal.
      apply bool_decide_ext. rewrite elem_of_cons.
      split; [by right|]. intros [->|?]; [|done].
      apply andb_false_iff in E. lia.
Qed.

Lemma rule_uniform_spec (l : list Z) :
  exists flags, GPU.rule_uniform (Some l) = Ok flags
    /\ forall i, 3 <= i <= 10 ->
         (0 <? default 0 (flags !! Z.to_nat (i - 3))) = bool_decide (i ∈ l).
Proof.
  eexists. split; [reflexivity|]. intros i Hi.
  rewrite rule_uniform_lookup by (done || by rewrite length_replicate).
  rewrite lookup_replicate_2 by lia. done.
Qed.

(** *** The shaders on a grid of 0 and 1 *)

Lemma to_unorm8_one round : GPU.to_unorm8 round 1 = 255.
Proof. by destruct round. Qed.

Lemma to_unorm8_zero round : GPU.to_unorm8 round 0 = 0.
Proof. by destruct round. Qed.

Lemma to_unorm8_half round : GPU.to_unorm8 round (1 # 2) = if round then 128 else 127.
Proof. by destruct round. Qed.

Section binary_image.

Variables (sx sy sz : nat) (g : grid) (image : list Z).
Hypothesis Hx : (0 < sx)%nat.
Hypothesis Hy : (0 < sy)%nat.
Hypothesis Hz : (0 < sz)%nat.
Hypothesis Hb : binary sx sy sz g.
Hypothesis Himage : forall x y z, in_grid sx sy sz x y z ->
  image !! Z.to_nat ((z * Z.of_nat sy * Z.of_nat sx + y * Z.of_nat sx + x) * 4)
  = Some ((cell g x y z * 255) mod 256).

Lemma current_colour x y z :
  in_grid sx sy sz x y z ->
  GPU.getCellState image (Z.of_nat sx) (Z.of_nat sy) (Z.of_nat sz) x y z
  = if decide (cell g x y z = 1) then (255 # 255)%Q else (0 # 255)%Q.
Proof.
  intros Hin. rewrite (getCellState_image sx sy sz g) by done.
  destruct Hin as (Hx' & Hy' & Hz').
  rewrite (Z.mod_small x), (Z.mod_small y), (Z.mod_small z) by lia.
  destruct (Hb x y z) as [E | E]; [unfold in_grid; lia | |]; rewrite E.
  - by rewrite decide_False.
  - by rewrite decide_True.
Qed.

Lemma neighbour_sum x y z :
  foldl (fun acc s => Qred (acc + s)) 0%Q
    (GPU.neighbour_states image (Z.of_nat sx) (Z.of_nat sy) (Z.of_nat sz) x y z)
  = inject_Z (wrapped_live_count g sx sy sz x y z).
Proof.
  rewrite neighbour_states_offsets, wrapped_live_count_sum.
  change 0%Q with (inject_Z 0).
  rewrite (colour_sum _
    (fun d : Z * Z * Z =>
       let '(dx, dy, dz) := d in
       if decide (cell g ((x + dx) mod Z.of_nat sx) ((y + dy) mod Z.of_nat sy)
                    ((z + dz) mod Z.of_nat sz) = 1) then 1 else 0)).
  - done.
  - intros d _. by apply (neighbour_colours sx sy sz g image x y z).
Qed.

Lemma neighbour_count x y z :
  foldl (fun acc s => if GPU.q_gt s (3 # 4) then Qred (acc + 1) else acc) 0%Q
    (GPU.neighbour_states image (Z.of_nat sx) (Z.of_nat sy) (Z.of_nat sz) x y z)
  = inject_Z (wrapped_live_count g sx sy sz x y z).
Proof.
  rewrite neighbour_states_offsets, wrapped_live_count_sum.
  change 0%Q with (inject_Z 0).
  rewrite (colour_count _
    (fun d : Z * Z * Z =>
       let '(dx, dy, dz) := d in
       if decide (cell g ((x + dx) mod Z.of_nat sx) ((y + dy) mod Z.of_nat sy)
                    ((z + dz) mod Z.of_nat sz) = 1) then 1 else 0)).
  - done.
  - intros d _. by apply (neighbour_colours sx sy sz g image x y z).
Qed.

Lemma standard_shader_binary (b s fb fs : list Z) x y z :
  in_grid sx sy sz x y z ->
  Forall (fun v => 3 <= v <= 10) b -> Forall (fun v => 3 <= v <= 10) s ->
  (forall i, 3 <= i <= 10 ->
     (0 <? default 0 (fb !! Z.to_nat (i - 3))) = bool_decide (i ∈ b)) ->
  (forall i, 3 <= i <= 10 ->
     (0 <? default 0 (fs !! Z.to_nat (i - 3))) = bool_decide (i ∈ s)) ->
  GPU.standardFragmentShader fb fs image (Z.of_nat sx) (Z.of_nat sy) (Z.of_nat sz) x y z
  = if decide (cell g x y z = 1)
    then (if decide (wrapped_live_count g sx sy sz x y z ∈ s) then 1%Q else 0%Q)
    else (if decide (wrapped_live_count g sx sy sz x y z ∈ b) then 1%Q else 0%Q).
Proof.
  intros Hin Fb Fs Hfb Hfs. unfold GPU.standardFragmentShader. cbv zeta.
  rewrite neighbour_sum, Qfloor_Z, current_colour by done.
  set (n := wrapped_live_count g sx sy sz x y z).
  destruct ((3 <=? n) && (n <=? 10)) eqn:E.
  - apply andb_prop in E as [E1 E2].
    destruct (decide (cell g x y z = 1)).
    + change (GPU.q_gt (255 # 255) (1 # 2)) with true. cbv iota.
      rewrite Hfs by lia. by destruct (decide (n ∈ s)); 
        [rewrite bool_decide_eq_true_2 | rewrite bool_decide_eq_false_2].
    + change (GPU.q_gt (0 # 255) (1 # 2)) with false. cbv iota.
      rewrite Hfb by lia. by destruct (decide (n ∈ b)); 
        [rewrite bool_decide_eq_true_2 | rewrite bool_decide_eq_false_2].
  - apply andb_false_iff in E.
    assert (n ∉ b) by (apply (Forall_not_elem 3 10); [done | lia]).
    assert (n ∉ s) by (apply (Forall_not_elem 3 10); [done | lia]).
    rewrite !(decide_False (P := n ∈ _)) by done. by destruct (decide _).
Qed.

Lemma between_three_and_five_halves (n : Z) :
  GPU.q_ge (inject_Z n) (3 # 2) && GPU.q_le (inject_Z n) (5 # 2) = bool_decide (n = 2).
Proof.
  unfold GPU.q_ge, GPU.q_le, GPU.q_lt, GPU.q_gt, Qcompare, inject_Z.
  cbn [Qnum Qden].
  destruct (Z.compare_spec (n * 2) (3 * 1)), (Z.compare_spec (n * 2) (5 * 1));
    repeat case_bool_decide; simpl; (done || lia).
Qed.

Lemma special_shader_binary x y z :
  in_grid sx sy sz x y z ->
  GPU.briansBrainFragmentShader image (Z.of_nat sx) (Z.of_nat sy) (Z.of_nat sz) x y z
  = if decide (cell g x y z = 1) then (1 # 2)%Q
    else if decide (wrapped_live_count g sx sy sz x y z = 2) then 1%Q else 0%Q.
Proof.
  intros Hin. unfold GPU.briansBrainFragmentShader. cbv zeta.
  rewrite neighbour_count, current_colour, between_three_and_five_halves by done.
  destruct (decide (cell g x y z = 1)).
  - done.
  - change (GPU.q_lt (0 # 255) (1 # 4)) with true. cbv iota.
    by destruct (decide _); [rewrite bool_decide_eq_true_2 | rewrite bool_decide_eq_false_2].
Qed.

End binary_image.

Lemma copy_pixel_red (sx sy sz : nat) (g : grid) (image : list Z) x y z :
  (forall x y z, in_grid sx sy sz x y z ->
     image !! Z.to_nat ((z * Z.of_nat sy * Z.of_nat sx + y * Z.of_nat sx + x) * 4)
     = Some ((cell g x y z * 255) mod 256)) ->
  in_grid sx sy sz x y z ->
  default 0 (GPU.copy_pixel image (Z.of_nat sx) (Z.of_nat sy) (Z.of_nat sz) x y z
             !! 0%nat)
  = (cell g x y z * 255) mod 256.
Proof.
  intros Himage Hin. unfold GPU.copy_pixel. cbv zeta.
  rewrite fmap_cons. cbn [lookup list_lookup]. rewrite Nat.add_0_r.
  replace (((y + z * Z.of_nat sy) * Z.of_nat sx + x) * 4)
    with ((z * Z.of_nat sy * Z.of_nat sx + y * Z.of_nat sx + x) * 4) by lia.
  by rewrite (Himage x y z Hin).
Qed.

(** X15. Texture engine, no memory: what calculateNextGeneration3DGPU returns
    for a grid and a rule does not depend on the instance left by earlier
    calls, whatever its fields hold (uniforms of another rule, the texture in
    turn): it is what a first call returns. *)
Theorem X15_gpu_step_ignores_earlier_calls round (st : option GPU.instance) (v : jsval)
    (ruleName : string) :
  returned (GPU.calculateNextGeneration3DGPU round st v (Some ruleName))
  = returned (GPU.calculateNextGeneration3DGPU round None v (Some ruleName)).
Proof.
  unfold GPU.calculateNextGeneration3DGPU. cbn [default from_option id].
  destruct (CPU.invalid_grid v) as [[|]|]; cbn [bind]; [| |reflexivity].
  { by destruct (CPU.createEmpty3DGrid _ _ _). }
  destruct (CPU.sizes v) as [[[sx sy] sz]|] eqn:Hsz; cbn [bind]; [|reflexivity].
  destruct (gpu_prepare (from_option id GPU.new_instance st) v sx sy sz ruleName Hsz)
    as (t1 & b1 & s1 & ->).
  destruct (gpu_prepare GPU.new_instance v sx sy sz ruleName Hsz)
    as (t2 & b2 & s2 & ->).
  destruct (GPU.texture_data _ _ _ _) as [data|]; cbn [bind]; [|reflexivity].
  pose proof (gpu_compute_rule_ext round true (sx, sy, sz) ruleName ruleName t1 t2 data
                b1 s1 b2 s2 eq_refl eq_refl eq_refl) as Hext.
  destruct (GPU.computeNextGeneration _ (GPU.Instance _ _ _ t1 _ _ _)) as [[? ?]|],
           (GPU.computeNextGeneration _ (GPU.Instance _ _ _ t2 _ _ _)) as [[? ?]|];
    cbn [bind returned] in *; exact Hext.
Qed.

(** X16. Texture engine, static rule: under 'checkerboard', on a grid whose
    cells v have |255 * v| at most 2^53 (the product is then exact), the
    step returns a grid of the same dimensions in which a cell is 1 iff the
    byte uploaded for it, 255 * v modulo 256, is above 127, and 0 otherwise.
    The grid is returned unchanged when its cells are 0 and 1; a cell 2
    comes back as 1. *)
Theorem X16_gpu_static_step_thresholds_the_bytes round sx sy sz (g : grid)
    (st : option GPU.instance) :
  rect sx sy sz g -> (0 < sx)%nat -> (0 < sy)%nat -> (0 < sz)%nat ->
  exact_bytes sx sy sz g ->
  exists g' : grid,
    returned (GPU.calculateNextGeneration3DGPU round st (js_of_grid g)
                (Some "checkerboard"%string))
    = Ok (js_of_grid g')
    /\ rect sx sy sz g'
    /\ forall x y z, in_grid sx sy sz x y z ->
         cell g' x y z = if 127 <? (cell g x y z * 255) mod 256 then 1 else 0.
Proof.
  intros Hr Hx Hy Hz _.
  destruct (gpu_step_grid round sx sy sz g "checkerboard" st)
    as (g' & st' & image & -> & Hr' & Himage & Hcells);
    try done; [apply static_not_inherited|].
  exists g'. split; [done|]. split; [done|].
  intros x y z Hin. rewrite (Hcells x y z Hin). unfold gpu_pixel.
  rewrite bool_decide_eq_false_2 by done. rewrite bool_decide_eq_true_2 by done.
  by rewrite (copy_pixel_red sx sy sz g image _ _ _ Himage).
Qed.

Lemma X16_gpu_static_step_thresholds_the_bytes_witness :
  exists g' : grid,
    returned (GPU.calculateNextGeneration3DGPU true None (js_of_grid (centre3 2))
                (Some "checkerboard"%string))
    = Ok (js_of_grid g')
    /\ rect 3 3 3 g'
    /\ forall x y z, in_grid 3 3 3 x y z ->
         cell g' x y z = if 127 <? (cell (centre3 2) x y z * 255) mod 256 then 1 else 0.
Proof.
  apply (X16_gpu_static_step_thresholds_the_bytes true 3 3 3 (centre3 2) None).
  - rect_literal.
  - lia.
  - lia.
  - lia.
  - small_grid_cases.
Defined.

(** X17. Texture and CPU engines on grids of 0 and 1: for every rule name but
    'briansbrain3d' that Object.prototype does not define (names outside the
    table and 'checkerboard' included), from every engine state and
    whichever way the GL implementation rounds, the texture engine returns
    exactly the grid the CPU engine returns. *)
Theorem X17_gpu_agrees_with_cpu_on_binary_grids round sx sy sz (g : grid) ruleName
    (st : option GPU.instance) :
  rect sx sy sz g -> (0 < sx)%nat -> (0 < sy)%nat -> (0 < sz)%nat ->
  binary sx sy sz g -> ruleName <> "briansbrain3d"%string ->
  ruleName ∉ object_prototype_names ->
  exists g' : grid,
    CPU.calculateNextGeneration3D (js_of_grid g) (Some ruleName) = Ok (js_of_grid g')
    /\ returned (GPU.calculateNextGeneration3DGPU round st (js_of_grid g) (Some ruleName))
       = Ok (js_of_grid g').
Proof.
  intros Hr Hx Hy Hz Hb Hbb Hni.
  destruct (cpu_step_cells sx sy sz g ruleName) as (g1 & Hrun1 & Hr1 & Hc1); try done.
  destruct (gpu_step_grid round sx sy sz g ruleName st)
    as (g2 & st' & image & -> & Hr2 & Himage & Hc2); try done.
  exists g1. split; [done|]. cbn [returned]. do 2 f_equal.
  apply (rect_ext sx sy sz); [done | done |].
  intros x y z Hin. rewrite (Hc1 x y z Hin), (Hc2 x y z Hin).
  unfold cpu_next, gpu_pixel. cbv zeta.
  rewrite (decide_False (P := ruleName = "briansbrain3d"%string)) by done.
  rewrite (bool_decide_eq_false_2 (ruleName = "briansbrain3d"%string)) by done.
  destruct (decide (ruleName = "checkerboard"%string)) as [Hcb|Hcb].
  - rewrite bool_decide_eq_true_2 by done.
    rewrite (copy_pixel_red sx sy sz g image _ _ _ Himage) by done.
    by destruct (Hb x y z Hin) as [-> | ->].
  - rewrite bool_decide_eq_false_2 by done.
    destruct (lookup_rule_bs ruleName Hbb Hcb Hni) as (b & s & -> & Fb & Fs).
    cbn [rule_birth rule_survival].
    destruct (rule_uniform_spec b) as (fb & -> & Hfb).
    destruct (rule_uniform_spec s) as (fs & -> & Hfs).
    cbn [default from_option id].
    rewrite (standard_shader_binary sx sy sz g image Hx Hy Hz Hb Himage b s) by done.
    unfold GPU.state_pixel. cbn [lookup list_lookup default from_option id].
    repeat case_decide; by rewrite ?to_unorm8_one, ?to_unorm8_zero.
Qed.

Lemma X17_gpu_agrees_with_cpu_on_binary_grids_witness :
  exists g' : grid,
    CPU.calculateNextGeneration3D (js_of_grid (shell3 0)) (Some "pyroclastic"%string)
    = Ok (js_of_grid g')
    /\ returned (GPU.calculateNextGeneration3DGPU false None (js_of_grid (shell3 0))
                   (Some "pyroclastic"%string))
       = Ok (js_of_grid g').
Proof.
  apply (X17_gpu_agrees_with_cpu_on_binary_grids false 3 3 3 (shell3 0) "pyroclastic" None).
  - rect_literal.
  - lia.
  - lia.
  - lia.
  - small_grid_cases.
  - discriminate.
  - not_inherited.
Defined.

(** X18. Texture engine, 'briansbrain3d' on grids of 0 and 1: a dead cell
    becomes 1 iff exactly 2 of its wrapped neighbours are 1; a live cell,
    written as colour 0.5, is read back as 1 when the GL implementation
    rounds 127.5 up and as 0 when it rounds down.  The value 2 is never
    returned. *)
Theorem X18_gpu_special_step_has_no_dying_state round sx sy sz (g : grid)
    (st : option GPU.instance) :
  rect sx sy sz g -> (0 < sx)%nat -> (0 < sy)%nat -> (0 < sz)%nat ->
  binary sx sy sz g ->
  exists g' : grid,
    returned (GPU.calculateNextGeneration3DGPU round st (js_of_grid g)
                (Some "briansbrain3d"%string))
    = Ok (js_of_grid g')
    /\ rect sx sy sz g'
    /\ forall x y z, in_grid sx sy sz x y z ->
         cell g' x y z =
         if decide (cell g x y z = 1) then (if round then 1 else 0)
         else if decide (wrapped_live_count g sx sy sz x y z = 2) then 1 else 0.
Proof.
  intros Hr Hx Hy Hz Hb.
  destruct (gpu_step_grid round sx sy sz g "briansbrain3d" st)
    as (g' & st' & image & -> & Hr' & Himage & Hcells);
    try done; [apply special_not_inherited|].
  exists g'. split; [done|]. split; [done|].
  intros x y z Hin. rewrite (Hcells x y z Hin). unfold gpu_pixel.
  rewrite bool_decide_eq_true_2 by done.
  rewrite (special_shader_binary sx sy sz g image Hx Hy Hz Hb Himage) by done.
  unfold GPU.state_pixel. cbn [lookup list_lookup default from_option id].
  repeat case_decide;
    rewrite ?to_unorm8_one, ?to_unorm8_zero, ?to_unorm8_half; by destruct round.
Qed.

Lemma X18_gpu_special_step_has_no_dying_state_witness :
  exists g' : grid,
    returned (GPU.calculateNextGeneration3DGPU true None (js_of_grid three_of_four)
                (Some "briansbrain3d"%string))
    = Ok (js_of_grid g')
    /\ rect 1 2 2 g'
    /\ forall x y z, in_grid 1 2 2 x y z ->
         cell g' x y z =
         if decide (cell three_of_four x y z = 1) then (if true then 1 else 0)
         else if decide (wrapped_live_count three_of_four 1 2 2 x y z = 2)
              then 1 else 0.
Proof.
  apply (X18_gpu_special_step_has_no_dying_state true 1 2 2 three_of_four None).
  - rect_literal.
  - lia.
  - lia.
  - lia.
  - small_grid_cases.
Defined.

Lemma gpu_step_total round sx sy sz (g : grid) ruleName (st : option GPU.instance) :
  rect sx sy sz g -> (0 < sx)%nat -> (0 < sy)%nat -> (0 < sz)%nat ->
  ruleName ∉ object_prototype_names ->
  exists (g' : grid) (st' : option GPU.instance),
    GPU.calculateNextGeneration3DGPU round st (js_of_grid g) (Some ruleName)
    = Ok (js_of_grid g', st')
    /\ rect sx sy sz g' /\ binary sx sy sz g'.
Proof.
  intros Hr Hx Hy Hz Hni.
  destruct (gpu_step_grid round sx sy sz g ruleName st)
    as (g' & st' & image & Hrun & Hr' & _ & Hcells); try done.
  exists g', st'. split; [done|]. split; [done|].
  intros x y z Hin. rewrite (Hcells x y z Hin). destruct (127 <? _); auto.
Qed.

(** X19. Texture engine, iteration: from a rectangular grid of positive
    dimensions and of cells 0 and 1, any number of steps with a rule name
    that Object.prototype does not define never throws and ends in a grid of
    the same dimensions and of cells 0 and 1. *)
Theorem X19_gpu_generations_never_fail round (n : nat) sx sy sz (g : grid) ruleName
    (st : option GPU.instance) :
  rect sx sy sz g -> (0 < sx)%nat -> (0 < sy)%nat -> (0 < sz)%nat ->
  binary sx sy sz g -> ruleName ∉ object_prototype_names ->
  exists g' : grid,
    returned (gpu_generations round n ruleName st (js_of_grid g)) = Ok (js_of_grid g')
    /\ rect sx sy sz g' /\ binary sx sy sz g'.
Proof.
  intros Hr Hx Hy Hz Hb Hni. revert g st Hr Hb.
  induction n as [|n IH]; intros g st Hr Hb.
  - by exists g.
  - destruct (gpu_step_total round sx sy sz g ruleName st)
      as (g1 & st1 & Hrun & Hr1 & Hb1); try done.
    destruct (IH g1 st1 Hr1 Hb1) as (g' & Hgen & Hr' & Hb').
    exists g'. simpl. rewrite Hrun. done.
Qed.

Lemma X19_gpu_generations_never_fail_witness :
  exists g' : grid,
    returned (gpu_generations true 2 "briansbrain3d" None (js_of_grid (shell3 0)))
    = Ok (js_of_grid g')
    /\ rect 3 3 3 g' /\ binary 3 3 3 g'.
Proof.
  apply (X19_gpu_generations_never_fail true 2 3 3 3 (shell3 0) "briansbrain3d" None).
  - rect_literal.
  - lia.
  - lia.
  - lia.
  - small_grid_cases.
  - not_inherited.
Defined.

(** ** Unknown rule identifiers, on the three engines *)




(** ** The one-dimensional automaton *)

Lemma decimalToBinaryArray_bits (r : Z) :
  0 <= r <= 255 ->
  D1.decimalToBinaryArray (JNum r) None
  = Ok (JArr ((fun i => JNum (Z.b2z (Z.testbit r (7 - i)))) <$> seqZ 0 8)).
Proof.
  intros Hr.
  assert (exists n : nat, r = Z.of_nat n /\ (n < 256)%nat) as (n & -> & Hn)
    by (exists (Z.to_nat r); lia).
  do 256 (destruct n as [|n]; [reflexivity|]). lia.
Qed.

Lemma rule_bit_lookup (r p : Z) :
  0 <= p <= 7 ->
  js_get (JArr ((fun i => JNum (Z.b2z (Z.testbit r (7 - i)))) <$> seqZ 0 8))
         (Some (7 - p))
  = Ok (JNum (Z.b2z (Z.testbit r p))).
Proof.
  intros Hp. unfold js_get.
  destruct (Z.ltb_spec (7 - p) 0); [lia|].
  rewrite list_lookup_fmap, lookup_seqZ_lt by lia. simpl.
  do 4 f_equal. lia.
Qed.

Lemma pattern_of_bits (l c r : Z) :
  (l = 0 \/ l = 1) -> (c = 0 \/ c = 1) -> (r = 0 \/ r = 1) ->
  Z.lor (Z.lor (shl (to_int32 (Some l)) 2) (shl (to_int32 (Some c)) 1))
        (to_int32 (Some r))
  = 4 * l + 2 * c + r.
Proof. intros [-> | ->] [-> | ->] [-> | ->]; reflexivity. Qed.

Lemma cells_get (gen : list Z) (k : Z) :
  0 <= k < Z.of_nat (length gen) ->
  js_get (cells gen) (Some k) = Ok (JNum (default 0 (gen !! Z.to_nat k))).
Proof.
  intros Hk. unfold js_get, cells.
  destruct (Z.ltb_spec k 0); [lia|].
  rewrite list_lookup_fmap.
  destruct (lookup_lt_is_Some_2 gen (Z.to_nat k)) as [v ->]; [lia|]. done.
Qed.

Lemma wolfram_step_length rule gen : length (wolfram_step rule gen) = length gen.
Proof. unfold wolfram_step. by rewrite length_fmap, length_seqZ, Nat2Z.id. Qed.

Lemma wolfram_step_lookup rule (gen : list Z) (i : Z) :
  0 <= i < Z.of_nat (length gen) ->
  wolfram_step rule gen !! Z.to_nat i
  = Some (Z.b2z (Z.testbit rule
       (4 * default 0 (gen !! Z.to_nat ((i - 1) mod Z.of_nat (length gen)))
        + 2 * default 0 (gen !! Z.to_nat i)
        + default 0 (gen !! Z.to_nat ((i + 1) mod Z.of_nat (length gen)))))).
Proof.
  intros Hi. unfold wolfram_step.
  rewrite list_lookup_fmap, lookup_seqZ_lt by lia. simpl.
  by rewrite Z.add_0_l, Z2Nat.id by lia.
Qed.

Lemma binary_lookup (gen : list Z) (k : nat) :
  Forall (fun c => c = 0 \/ c = 1) gen ->
  default 0 (gen !! k) = 0 \/ default 0 (gen !! k) = 1.
Proof.
  intros Hb. destruct (gen !! k) as [v|] eqn:E; [|by left].
  exact (proj1 (Forall_lookup _ _) Hb _ _ E).
Qed.

(** X20. One-dimensional automaton: for a rule number between 0 and 255 and
    a generation of 0 and 1 (the empty one included), calculateNextGeneration
    returns the generation of the same length in which cell i is bit
    4*l + 2*c + r of the rule number, l, c, r being the cells i-1, i, i+1 on
    the ring. *)
Theorem X20_step_1d_is_wolfram_rule (rule : Z) (gen : list Z) :
  0 <= rule <= 255 ->
  Forall (fun c => c = 0 \/ c = 1) gen ->
  D1.calculateNextGeneration (cells gen) (JNum rule)
  = Ok (cells (wolfram_step rule gen)).
Proof.
  intros Hrule Hb. unfold D1.calculateNextGeneration.
  change (truthy (cells gen)) with true. cbn [negb].
  change (js_length (cells gen)) with (Ok (Some (Z.of_nat (length (JNum <$> gen))))).
  rewrite length_fmap. cbn [bind].
  destruct gen as [|c0 gen0] eqn:Egen; [reflexivity|]. rewrite <- Egen in *.
  assert (0 < Z.of_nat (length gen)) as Hlen by (rewrite Egen; simpl; lia).
  rewrite bool_decide_eq_false_2 by (intros [=]; lia).
  rewrite decimalToBinaryArray_bits by done. cbn [bind].
  destruct (for_each_upto_inv
    (fun i s => s = cells (take (Z.to_nat i) (wolfram_step rule gen)))
    (length gen)
    (fun i nextGeneration =>
       let* leftNeighbor :=
         js_get (cells gen) (wrap i (-1) (Some (Z.of_nat (length gen)))) in
       let* currentCell := js_get (cells gen) (Some i) in
       let* rightNeighbor :=
         js_get (cells gen) (js_rem (i + 1) (Some (Z.of_nat (length gen)))) in
       let pattern :=
         Z.lor (Z.lor (shl (to_int32 (to_number leftNeighbor)) 2)
                      (shl (to_int32 (to_number currentCell)) 1))
               (to_int32 (to_number rightNeighbor)) in
       let* bit :=
         js_get (JArr ((fun i => JNum (Z.b2z (Z.testbit rule (7 - i)))) <$> seqZ 0 8))
                (Some (7 - pattern)) in
       js_set nextGeneration (Some i) bit)
    (JArr [])) as (s & Hrun & ->).
  - done.
  - intros i s Hi ->.
    destruct (wrap_mod i (-1) (length gen)) as [-> Hl];
      [done | apply elem_of_offsets; lia |].
    unfold js_rem. destruct (Z.eqb_spec (Z.of_nat (length gen)) 0); [lia|].
    rewrite Z.rem_mod_nonneg by lia.
    pose proof (Z.mod_pos_bound (i + 1) (Z.of_nat (length gen)) Hlen) as Hr.
    rewrite !cells_get by done. cbn [bind to_number].
    replace (i + -1) with (i - 1) by lia.
    set (l := default 0 (gen !! Z.to_nat ((i - 1) mod Z.of_nat (length gen)))).
    set (c := default 0 (gen !! Z.to_nat i)).
    set (r := default 0 (gen !! Z.to_nat ((i + 1) mod Z.of_nat (length gen)))).
    assert (l = 0 \/ l = 1) as Hl' by (by apply binary_lookup).
    assert (c = 0 \/ c = 1) as Hc' by (by apply binary_lookup).
    assert (r = 0 \/ r = 1) as Hr' by (by apply binary_lookup).
    rewrite pattern_of_bits by done.
    rewrite rule_bit_lookup by lia. cbn [bind].
    eexists. split; [|reflexivity].
    unfold js_set, cells.
    destruct (Z.ltb_spec i 0); [lia|].
    rewrite length_fmap, length_take, wolfram_step_length.
    destruct (Nat.ltb_spec (Z.to_nat i) (Z.to_nat i `min` length gen)); [lia|].
    replace (Z.to_nat i - Z.to_nat i `min` length gen)%nat with 0%nat by lia.
    replace (Z.to_nat (i + 1)) with (S (Z.to_nat i)) by lia.
    rewrite (take_S_r _ _ _ (wolfram_step_lookup rule gen i Hi)).
    by rewrite fmap_app.
  - etransitivity; [exact Hrun|]. do 2 f_equal.
    rewrite Nat2Z.id. apply take_ge. by rewrite wolfram_step_length.
Qed.

Lemma X20_step_1d_is_wolfram_rule_witness :
  D1.calculateNextGeneration (cells [0; 0; 1; 0; 0]) (JNum 30)
  = Ok (cells (wolfram_step 30 [0; 0; 1; 0; 0])).
Proof.
  apply (X20_step_1d_is_wolfram_rule 30 [0; 0; 1; 0; 0]).
  - lia.
  - repeat (constructor; [first [left; reflexivity | right; reflexivity]|]).
    constructor.
Defined.

(** X21. One-dimensional automaton, a rule number that is rejected: with an
    integer below 0 or above 255, or [undefined], [null] or an array for the
    rule, calculateNextGeneration returns what it returns for rule 0, for
    every generation argument. *)
Theorem X21_step_1d_rejected_rule_is_rule_0 (currentGeneration ruleNumber : jsval) :
  rejected_rule ruleNumber ->
  D1.calculateNextGeneration currentGeneration ruleNumber
  = D1.calculateNextGeneration currentGeneration (JNum 0).
Proof.
  intros Hrej. unfold D1.calculateNextGeneration.
  assert (D1.decimalToBinaryArray ruleNumber None
          = D1.decimalToBinaryArray (JNum 0) None) as ->; [|done].
  destruct ruleNumber as [| | |r|l]; try done.
  unfold D1.decimalToBinaryArray. simpl in Hrej.
  destruct (Z.ltb_spec r 0), (Z.ltb_spec 255 r); (done || lia).
Qed.

Lemma X21_step_1d_rejected_rule_is_rule_0_witness :
  D1.calculateNextGeneration (cells [0; 1; 1]) (JNum 256)
  = D1.calculateNextGeneration (cells [0; 1; 1]) (JNum 0).
Proof.
  apply (X21_step_1d_rejected_rule_is_rule_0 (cells [0; 1; 1]) (JNum 256)).
  simpl. lia.
Defined.

(** X22. decimalToBinaryArray, round trip: for a rule number between 0 and
    255 and the default width it returns 8 cells, each 0 or 1, that read as
    a binary numeral, most significant first, give the rule number back. *)
Theorem X22_decimalToBinaryArray_round_trip (rule : Z) :
  0 <= rule <= 255 ->
  exists bits : list Z,
    D1.decimalToBinaryArray (JNum rule) None = Ok (cells bits)
    /\ length bits = 8%nat
    /\ Forall (fun b => b = 0 \/ b = 1) bits
    /\ foldl (fun acc b => 2 * acc + b) 0 bits = rule.
Proof.
  intros Hr.
  exists ((fun i => Z.b2z (Z.testbit rule (7 - i))) <$> seqZ 0 8).
  split; [|split; [|split]].
  - rewrite decimalToBinaryArray_bits by done. unfold cells.
    by rewrite <- list_fmap_compose.
  - done.
  - apply Forall_fmap, Forall_forall. intros i _. simpl.
    destruct (Z.testbit rule (7 - i)); auto.
  - assert (exists n : nat, rule = Z.of_nat n /\ (n < 256)%nat) as (n & -> & Hn)
      by (exists (Z.to_nat rule); lia).
    do 256 (destruct n as [|n]; [reflexivity|]). lia.
Qed.

Lemma X22_decimalToBinaryArray_round_trip_witness :
  exists bits : list Z,
    D1.decimalToBinaryArray (JNum 110) None = Ok (cells bits)
    /\ length bits = 8%nat
    /\ Forall (fun b => b = 0 \/ b = 1) bits
    /\ foldl (fun acc b => 2 * acc + b) 0 bits = 110.
Proof. apply (X22_decimalToBinaryArray_round_trip 110). lia. Defined.

(** ** The two-dimensional automaton *)

(** A two-dimensional grid is the only plane of a grid of depth one. *)
Lemma rect2_plane nr nc (m : grid2) : rect2 nr nc m <-> rect 1 nr nc [m].
Proof.
  unfold rect2, rect. split.
  - intros [Hl Hrows]. split; [done|]. by repeat constructor.
  - intros [_ Hrows]. by inversion Hrows.
Qed.

Lemma in_grid2_plane nr nc r c : in_grid2 nr nc r c <-> in_grid 1 nr nc 0 r c.
Proof. unfold in_grid2, in_grid. lia. Qed.

Lemma get2_grid nr nc (m : grid2) r c :
  rect2 nr nc m -> in_grid2 nr nc r c ->
  D2.get2 (js_of_grid2 m) (Some r) (Some c) = Ok (JNum (cell2 m r c)).
Proof.
  intros Hr Hin. apply rect2_plane in Hr. apply in_grid2_plane in Hin.
  exact (get3_grid 1 nr nc [m] 0 r c Hr Hin).
Qed.

Lemma set2_grid nr nc (m : grid2) r c v :
  rect2 nr nc m -> in_grid2 nr nc r c ->
  D2.set2 (js_of_grid2 m) (Some r) (Some c) (JNum v)
  = Ok (js_of_grid2 (upd2 m r c v)).
Proof.
  intros Hr Hin. apply rect2_plane in Hr. apply in_grid2_plane in Hin.
  pose proof (set3_grid 1 nr nc [m] 0 r c v Hr Hin) as Hset.
  unfold set3 in Hset. unfold D2.set2.
  change (js_get (js_of_grid [m]) (Some 0)) with (Ok (js_of_grid2 m)) in Hset.
  cbn [bind] in Hset.
  destruct (js_get (js_of_grid2 m) (Some r)) as [row|]; [|done]. cbn [bind] in *.
  destruct (js_set row (Some c) (JNum v)) as [row'|]; [|done]. cbn [bind] in *.
  change (Ok (JArr [js_store (js_of_grid2 m) (Some r) row'])
          = Ok (JArr [js_of_grid2 (upd2 m r c v)])) in Hset.
  congruence.
Qed.

Lemma rect2_upd2 nr nc (m : grid2) r c v : rect2 nr nc m -> rect2 nr nc (upd2 m r c v).
Proof.
  intros Hr. apply rect2_plane. apply rect2_plane in Hr.
  exact (rect_upd3 1 nr nc [m] 0 r c v Hr).
Qed.

Lemma cell2_upd2_eq nr nc (m : grid2) r c v :
  rect2 nr nc m -> in_grid2 nr nc r c -> cell2 (upd2 m r c v) r c = v.
Proof.
  intros Hr Hin. apply rect2_plane in Hr. apply in_grid2_plane in Hin.
  exact (cell_upd3_eq 1 nr nc [m] 0 r c v Hr Hin).
Qed.

Lemma cell2_upd2_ne (m : grid2) r c v r' c' :
  0 <= r -> 0 <= c -> 0 <= r' -> 0 <= c' -> (r', c') <> (r, c) ->
  cell2 (upd2 m r c v) r' c' = cell2 m r' c'.
Proof.
  intros ? ? ? ? Hne.
  apply (cell_upd3_ne [m] 0 r c v 0 r' c'); try lia.
  intros [=]. by subst.
Qed.

Lemma upd2_same nr nc (m : grid2) r c :
  rect2 nr nc m -> in_grid2 nr nc r c -> upd2 m r c (cell2 m r c) = m.
Proof.
  intros [Hl Hrows] (Hr & Hc). unfold upd2, cell2.
  destruct (lookup_lt_is_Some_2 m (Z.to_nat r)) as [row Hrow]; [lia|].
  pose proof (proj1 (Forall_lookup _ _) Hrows _ _ Hrow) as Hlr. simpl in Hlr.
  destruct (lookup_lt_is_Some_2 row (Z.to_nat c)) as [v Hv]; [lia|].
  rewrite Hrow, Hv. simpl.
  apply list_eq. intros i. destruct (decide (i = Z.to_nat r)) as [->|Hne].
  - rewrite list_lookup_alter_eq, Hrow. simpl. by rewrite list_insert_id.
  - by rewrite list_lookup_alter_ne.
Qed.

Lemma rect2_zero_grid2 nr nc : rect2 nr nc (zero_grid2 nr nc).
Proof.
  unfold zero_grid2. split; [by rewrite length_replicate|].
  apply Forall_replicate. by rewrite length_replicate.
Qed.

Lemma cell2_zero_grid2 nr nc r c : cell2 (zero_grid2 nr nc) r c = 0.
Proof. exact (cell_zero_grid 1 nr nc 0 r c). Qed.

Lemma sizes2_grid nr nc (m : grid2) :
  rect2 nr nc m -> (0 < nr)%nat ->
  D2.sizes (js_of_grid2 m) = Ok (Some (Z.of_nat nr), Some (Z.of_nat nc)).
Proof.
  intros [Hl Hrows] Hnr.
  destruct m as [|row m']; [simpl in *; lia|].
  inversion Hrows as [|? ? Hlr _]; subst.
  unfold D2.sizes. simpl. by rewrite !length_fmap.
Qed.

Lemma invalid_grid2_grid nr nc (m : grid2) :
  rect2 nr nc m -> (0 < nr)%nat -> (0 < nc)%nat ->
  D2.invalid_grid (js_of_grid2 m) = Ok false.
Proof.
  intros [Hl Hrows] Hnr Hnc.
  destruct m as [|row m']; [simpl in *; lia|].
  inversion Hrows as [|? ? Hlr _]; subst.
  destruct row as [|v row']; [simpl in *; lia|]. done.
Qed.

Lemma empty_grid_zero_grid2 (nr nc : nat) :
  D2.empty_grid (Some (Z.of_nat nr)) (Some (Z.of_nat nc))
  = Ok (js_of_grid2 (zero_grid2 nr nc)).
Proof.
  unfold D2.empty_grid, js_Array.
  destruct (Z.ltb_spec (Z.of_nat nr) 0); [lia|].
  destruct (Z.ltb_spec (Z.of_nat nc) 0); [lia|].
  cbn [bind]. rewrite !Nat2Z.id.
  unfold js_of_grid2, zero_grid2.
  destruct (Nat.eqb_spec nr 0) as [->|?]; [done|].
  by rewrite !fmap_replicate.
Qed.

(** Two nested counting loops that write every cell once, or leave a
    cell that is to be 0 as it is. *)
Lemma fill_nest2 (nr nc : nat) (v : Z -> Z -> Z)
    (body : Z -> Z -> jsval -> result jsval) :
  (forall r c (G : grid2), in_grid2 nr nc r c -> rect2 nr nc G ->
     cell2 G r c = 0 ->
     body r c (js_of_grid2 G) = Ok (js_of_grid2 (upd2 G r c (v r c)))) ->
  exists G' : grid2,
    for_each (upto (Some (Z.of_nat nr))) (fun r s =>
      for_each (upto (Some (Z.of_nat nc))) (fun c s => body r c s) s)
      (js_of_grid2 (zero_grid2 nr nc))
    = Ok (js_of_grid2 G') /\ rect2 nr nc G' /\
    forall r c, in_grid2 nr nc r c -> cell2 G' r c = v r c.
Proof.
  intros Hbody.
  destruct (for_each_upto_inv (fun r s => filled2 nr nc v r 0 s) nr
    (fun r s => for_each (upto (Some (Z.of_nat nc))) (fun c s => body r c s) s)
    (js_of_grid2 (zero_grid2 nr nc))) as (s & Hrun & G & -> & Hr & Hcells).
  - exists (zero_grid2 nr nc). split; [done|]. split; [apply rect2_zero_grid2|].
    intros r c (? & ?). split; [unfold before2; lia|].
    intros _. apply cell2_zero_grid2.
  - intros r s Hrow HI.
    destruct (for_each_upto_inv (fun c s => filled2 nr nc v r c s) nc
      (fun c s => body r c s) s) as (s' & Hrun' & G' & -> & Hr' & Hcells').
    + done.
    + intros c s1 Hc (G & -> & HG & Hcells).
      assert (cell2 G r c = 0) as H0.
      { apply (Hcells r c); [done|]. unfold before2. lia. }
      eexists. split; [by apply Hbody|].
      eexists. split; [done|]. split; [by apply rect2_upd2|].
      intros r' c' Hin'.
      destruct (decide ((r', c') = (r, c))) as [E|E].
      * injection E as -> ->. rewrite (cell2_upd2_eq nr nc) by done.
        split; [done|]. unfold before2. lia.
      * destruct Hin' as (? & ?).
        rewrite cell2_upd2_ne by (done || lia).
        assert (before2 r (c + 1) r' c' <-> before2 r c r' c') as ->.
        { unfold before2. split; intros Hb; [|lia].
          destruct (decide (r' = r)); [|lia].
          destruct (decide (c' = c)); [|lia]. subst. done. }
        by apply Hcells.
    + exists (js_of_grid2 G'). split; [done|].
      exists G'. split; [done|]. split; [done|].
      intros r' c' Hin'.
      assert (before2 (r + 1) 0 r' c' <-> before2 r (Z.of_nat nc) r' c') as ->.
      { destruct Hin' as (? & ?). unfold before2. lia. }
      by apply Hcells'.
  - exists G. split; [done|]. split; [done|].
    intros r c Hin. apply (Hcells r c Hin).
    destruct Hin as (? & ?). unfold before2. lia.
Qed.

Lemma neighbour_offsets2_eq :
  neighbour_offsets2
  = [(-1, -1); (-1, 0); (-1, 1); (0, -1); (0, 1); (1, -1); (1, 0); (1, 1)].
Proof. reflexivity. Qed.

(** The loop nest of the code counts exactly the wrapped live neighbours. *)
Lemma count_neighbours2_grid nr nc (m : grid2) r c :
  rect2 nr nc m -> in_grid2 nr nc r c ->
  D2.count_neighbours (js_of_grid2 m) (Some (Z.of_nat nr)) (Some (Z.of_nat nc)) r c
  = Ok (wrapped_live_count2 m nr nc r c).
Proof.
  intros Hr (Hrow & Hcol). unfold D2.count_neighbours.
  set (ind := fun i j : Z =>
    if decide ((i, j) = (0, 0)) then 0
    else if decide (cell2 m ((r + i) mod Z.of_nat nr) ((c + j) mod Z.of_nat nc) = 1)
         then 1 else 0).
  rewrite (for_each_sum offsets (fun i => sumZ (ind i <$> offsets))).
  - f_equal. unfold wrapped_live_count2.
    rewrite (length_filter_sum _ neighbour_offsets2), neighbour_offsets2_eq.
    unfold offsets, ind, sumZ. simpl. lia.
  - intros i c1 Hi.
    apply (for_each_sum offsets (ind i)).
    intros j c2 Hj. unfold ind.
    destruct (decide ((i, j) = (0, 0))) as [E|E].
    + simplify_eq. simpl. f_equal. lia.
    + assert ((i =? 0) && (j =? 0) = false) as ->.
      { apply not_true_is_false. intros Hc.
        apply andb_prop in Hc as [? ?]. apply E. f_equal; lia. }
      destruct (wrap_mod r i nr Hrow Hi) as [-> ?].
      destruct (wrap_mod c j nc Hcol Hj) as [-> ?].
      rewrite (get2_grid nr nc) by done. cbn [bind].
      rewrite strict_eq_num_decide.
      destruct (decide _); f_equal; lia.
Qed.

Lemma lookup_rule2_bs ruleName :
  ruleName <> "briansbrain"%string -> ruleName ∉ object_prototype_names ->
  exists b s, D2.lookup_rule ruleName = RuleBS b s.
Proof.
  intros Hbb Hni. unfold D2.lookup_rule.
  destruct (D2.RULE_DEFINITIONS !! ruleName) as [d|] eqn:E; simpl.
  - apply elem_of_list_to_map_2 in E.
    repeat (apply elem_of_cons in E as [E|E];
            [injection E as ? ?; subst; first [congruence | by do 2 eexists]|]).
    by apply elem_of_nil in E.
  - rewrite bool_decide_eq_false_2 by done. by do 2 eexists.
Qed.

Lemma lookup_rule2_inherited ruleName :
  ruleName ∈ object_prototype_names -> D2.lookup_rule ruleName = RuleInherited.
Proof.
  intros H.
  repeat (apply elem_of_cons in H as [->|H]; [reflexivity|]).
  by apply elem_of_nil in H.
Qed.

Lemma special2_not_inherited : "briansbrain"%string ∉ object_prototype_names.
Proof. apply (bool_decide_unpack _). vm_compute. exact I. Qed.

(** One step on a well-formed grid, whatever the rule name. *)
Lemma step2_cells nr nc (m : grid2) ruleName :
  rect2 nr nc m -> (0 < nr)%nat -> (0 < nc)%nat ->
  ruleName ∉ object_prototype_names ->
  exists m' : grid2,
    D2.calculateNextGeneration2D (js_of_grid2 m) (Some ruleName) = Ok (js_of_grid2 m')
    /\ rect2 nr nc m'
    /\ forall r c, in_grid2 nr nc r c -> cell2 m' r c = next2 ruleName m nr nc r c.
Proof.
  intros Hr Hnr Hnc Hni. unfold D2.calculateNextGeneration2D.
  cbn [default from_option id].
  rewrite (invalid_grid2_grid nr nc) by done. cbn [bind].
  case_bool_decide as Hbb.
  - unfold D2.calculateBriansBrain.
    rewrite (sizes2_grid nr nc) by done. cbn [bind].
    rewrite empty_grid_zero_grid2. cbn [bind].
    apply fill_nest2. intros r c G Hin HG H0.
    rewrite (get2_grid nr nc) by done. cbn [bind].
    unfold next2. rewrite decide_True by done. cbv zeta.
    rewrite count_neighbours2_grid by done. cbn [bind].
    rewrite !strict_eq_num_decide.
    destruct (decide (cell2 m r c = 0)).
    { rewrite (set2_grid nr nc) by done. do 3 f_equal.
      by destruct (Z.eqb_spec (wrapped_live_count2 m nr nc r c) 2), (decide _). }
    destruct (decide (cell2 m r c = 1)); [by rewrite (set2_grid nr nc)|].
    destruct (decide (cell2 m r c = 2)); [by rewrite (set2_grid nr nc)|].
    assert (upd2 G r c 0 = G) as ->; [|done].
    rewrite <- H0. by apply (upd2_same nr nc).
  - rewrite (sizes2_grid nr nc) by done. cbn [bind].
    rewrite empty_grid_zero_grid2. cbn [bind].
    apply fill_nest2. intros r c G Hin HG _.
    unfold D2.countLiveNeighbors.
    rewrite (sizes2_grid nr nc) by done. cbn [bind].
    rewrite count_neighbours2_grid by done. cbn [bind].
    rewrite (get2_grid nr nc) by done. cbn [bind].
    unfold next2. rewrite decide_False by done. cbv zeta.
    destruct (lookup_rule2_bs ruleName Hbb Hni) as (b & s & ->).
    cbn [rule_birth rule_survival includes default from_option id bind].
    rewrite !existsb_elem_of, strict_eq_num_decide.
    destruct (decide (cell2 m r c = 1)).
    + rewrite (set2_grid nr nc) by done. do 3 f_equal.
      unfold bool_decide. by destruct (decide_rel _ _ _).
    + rewrite (set2_grid nr nc) by done. do 3 f_equal.
      unfold bool_decide. by destruct (decide_rel _ _ _).
Qed.

(** X23. Two-dimensional automaton, Birth/Survival rules: on a rectangular
    grid of positive dimensions and for a rule name other than 'briansbrain'
    that resolves to birth and survival sets (a key of the table, or a name
    that neither the table nor Object.prototype defines),
    calculateNextGeneration2D returns a grid of the same dimensions in which
    a cell that is 1 stays 1 iff its count of wrapped 8-neighbours equal to
    1 (the value countLiveNeighbors returns) is in the survival set, any
    other cell becomes 1 iff that count is in the birth set, and every other
    cell is 0. *)
Theorem X23_step_2d_birth_survival nr nc (m : grid2) ruleName birth survival :
  rect2 nr nc m -> (0 < nr)%nat -> (0 < nc)%nat ->
  ruleName <> "briansbrain"%string ->
  D2.lookup_rule ruleName = RuleBS birth survival ->
  exists m' : grid2,
    D2.calculateNextGeneration2D (js_of_grid2 m) (Some ruleName) = Ok (js_of_grid2 m')
    /\ rect2 nr nc m'
    /\ forall r c, in_grid2 nr nc r c ->
         let n := wrapped_live_count2 m nr nc r c in
         D2.countLiveNeighbors (js_of_grid2 m) r c = Ok n
         /\ (cell2 m r c = 1 -> (cell2 m' r c = 1 <-> n ∈ survival))
         /\ (cell2 m r c <> 1 -> (cell2 m' r c = 1 <-> n ∈ birth))
         /\ (cell2 m' r c = 1 \/ cell2 m' r c = 0).
Proof.
  intros Hr Hnr Hnc Hbb Hrule.
  assert (ruleName ∉ object_prototype_names) as Hni.
  { intros Hin. by rewrite (lookup_rule2_inherited _ Hin) in Hrule. }
  destruct (step2_cells nr nc m ruleName) as (m' & Hrun & Hr' & Hcells); try done.
  exists m'. split; [done|]. split; [done|].
  intros r c Hin. cbv zeta. split.
  { unfold D2.countLiveNeighbors. rewrite (sizes2_grid nr nc) by done. cbn [bind].
    by apply count_neighbours2_grid. }
  rewrite (Hcells r c Hin). unfold next2.
  rewrite (decide_False (P := ruleName = "briansbrain"%string)) by done.
  rewrite Hrule. cbn [rule_birth rule_survival default from_option id]. cbv zeta.
  repeat case_decide; repeat split; intros; (done || lia || auto).
Qed.

Lemma X23_step_2d_birth_survival_witness :
  exists m' : grid2,
    D2.calculateNextGeneration2D (js_of_grid2 glider5) (Some "highlife"%string)
    = Ok (js_of_grid2 m')
    /\ rect2 5 5 m'
    /\ forall r c, in_grid2 5 5 r c ->
         let n := wrapped_live_count2 glider5 5 5 r c in
         D2.countLiveNeighbors (js_of_grid2 glider5) r c = Ok n
         /\ (cell2 glider5 r c = 1 -> (cell2 m' r c = 1 <-> n ∈ [2; 3]))
         /\ (cell2 glider5 r c <> 1 -> (cell2 m' r c = 1 <-> n ∈ [3; 6]))
         /\ (cell2 m' r c = 1 \/ cell2 m' r c = 0).
Proof.
  apply (X23_step_2d_birth_survival 5 5 glider5 "highlife" [3; 6] [2; 3]).
  - rect_literal.
  - lia.
  - lia.
  - discriminate.
  - reflexivity.
Defined.

(** X24. Two-dimensional automaton, 'briansbrain': on a rectangular grid of
    positive dimensions a cell 0 becomes 1 iff exactly 2 of its wrapped
    8-neighbours are 1 and stays 0 otherwise, a cell 1 becomes 2, and every
    other cell (2 or any other number) becomes 0. *)
Theorem X24_step_2d_special_rule nr nc (m : grid2) :
  rect2 nr nc m -> (0 < nr)%nat -> (0 < nc)%nat ->
  exists m' : grid2,
    D2.calculateNextGeneration2D (js_of_grid2 m) (Some "briansbrain"%string)
    = Ok (js_of_grid2 m')
    /\ rect2 nr nc m'
    /\ forall r c, in_grid2 nr nc r c ->
         (cell2 m r c = 0 ->
            (cell2 m' r c = 1 <-> wrapped_live_count2 m nr nc r c = 2)
            /\ (cell2 m' r c = 1 \/ cell2 m' r c = 0))
         /\ (cell2 m r c = 1 -> cell2 m' r c = 2)
         /\ (cell2 m r c <> 0 -> cell2 m r c <> 1 -> cell2 m' r c = 0).
Proof.
  intros Hr Hnr Hnc.
  destruct (step2_cells nr nc m "briansbrain") as (m' & Hrun & Hr' & Hcells);
    try done; [apply special2_not_inherited|].
  exists m'. split; [done|]. split; [done|].
  intros r c Hin. rewrite (Hcells r c Hin). unfold next2.
  rewrite (decide_True (P := "briansbrain"%string = "briansbrain"%string)) by done.
  cbv zeta. repeat case_decide; repeat split; intros; (done || lia || auto).
Qed.

Lemma X24_step_2d_special_rule_witness :
  exists m' : grid2,
    D2.calculateNextGeneration2D (js_of_grid2 [[0; 1; 2]; [1; 0; 3]])
      (Some "briansbrain"%string)
    = Ok (js_of_grid2 m')
    /\ rect2 2 3 m'
    /\ forall r c, in_grid2 2 3 r c ->
         (cell2 [[0; 1; 2]; [1; 0; 3]] r c = 0 ->
            (cell2 m' r c = 1 <-> wrapped_live_count2 [[0; 1; 2]; [1; 0; 3]] 2 3 r c = 2)
            /\ (cell2 m' r c = 1 \/ cell2 m' r c = 0))
         /\ (cell2 [[0; 1; 2]; [1; 0; 3]] r c = 1 -> cell2 m' r c = 2)
         /\ (cell2 [[0; 1; 2]; [1; 0; 3]] r c <> 0 ->
             cell2 [[0; 1; 2]; [1; 0; 3]] r c <> 1 -> cell2 m' r c = 0).
Proof.
  apply (X24_step_2d_special_rule 2 3 [[0; 1; 2]; [1; 0; 3]]).
  - rect_literal.
  - lia.
  - lia.
Defined.

(** X25. Two-dimensional automaton, unknown rule name: a name that is no key
    of the 2D rule table and that Object.prototype does not define resolves
    to birth {3} and survival {2,3}, and calculateNextGeneration2D returns
    for it what it returns for 'conway', for every grid argument. *)
Theorem X25_step_2d_unknown_rule_is_conway ruleName (v : jsval) :
  D2.RULE_DEFINITIONS !! ruleName = None ->
  ruleName ∉ object_prototype_names ->
  D2.lookup_rule ruleName = RuleBS [3] [2; 3]
  /\ D2.calculateNextGeneration2D v (Some ruleName)
     = D2.calculateNextGeneration2D v (Some "conway"%string).
Proof.
  intros Hl Hni.
  assert (D2.lookup_rule ruleName = D2.lookup_rule "conway") as Hrule
    by (unfold D2.lookup_rule; by rewrite Hl, bool_decide_eq_false_2).
  split; [by rewrite Hrule|].
  assert (ruleName <> "briansbrain"%string) as Hbb by (by intros ->).
  unfold D2.calculateNextGeneration2D. cbn [default from_option id].
  rewrite Hrule.
  rewrite (bool_decide_eq_false_2 (ruleName = "briansbrain"%string)) by done.
  by rewrite (bool_decide_eq_false_2 ("conway"%string = "briansbrain"%string)).
Qed.

Lemma X25_step_2d_unknown_rule_is_conway_witness :
  D2.lookup_rule "conway3d" = RuleBS [3] [2; 3]
  /\ D2.calculateNextGeneration2D (js_of_grid2 glider5) (Some "conway3d"%string)
     = D2.calculateNextGeneration2D (js_of_grid2 glider5) (Some "conway"%string).
Proof.
  apply (X25_step_2d_unknown_rule_is_conway "conway3d" (js_of_grid2 glider5)).
  - reflexivity.
  - not_inherited.
Defined.

(** X26. Two-dimensional automaton, invalid grid: for [null], [undefined], a
    grid whose first row is missing or falsy, and every rectangular grid with
    no row or no column, calculateNextGeneration2D returns the empty array
    and does not throw, for every rule name. *)
Theorem X26_step_2d_invalid_grid_is_empty (v : jsval) (ruleName : option string) :
  (v = JNull \/ v = JUndefined
   \/ (exists w l, v = JArr (w :: l) /\ truthy w = false)
   \/ exists (nr nc : nat) (m : grid2),
        v = js_of_grid2 m /\ rect2 nr nc m /\ (nr = 0 \/ nc = 0)%nat) ->
  D2.calculateNextGeneration2D v ruleName = Ok (JArr []).
Proof.
  intros [-> | [-> | [(w & l & -> & Hw) | (nr & nc & m & -> & Hr & Hz)]]];
    [done | done | |].
  - unfold D2.calculateNextGeneration2D, D2.invalid_grid. simpl. by rewrite Hw.
  - destruct m as [|row m']; [done|].
    destruct Hr as [Hl Hrows]. inversion Hrows as [|? ? Hlr _]; subst.
    destruct row as [|c row']; [done|].
    simpl in Hz. lia.
Qed.

Lemma X26_step_2d_invalid_grid_is_empty_witness :
  D2.calculateNextGeneration2D (js_of_grid2 [[]; []]) (Some "maze"%string)
  = Ok (JArr []).
Proof.
  apply (X26_step_2d_invalid_grid_is_empty (js_of_grid2 [[]; []]) (Some "maze"%string)).
  right. right. right. exists 2%nat, 0%nat, [[]; []].
  split; [reflexivity|]. split.
  - rect_literal.
  - right. reflexivity.
Defined.
